(** * payconfidence-ai: the shift rules engine of [src/index.tsx]

    A shallow embedding of [applyRules] and of the helpers it calls
    ([parseTimeToMinutes], [overlapMinutes], [toHours], [getDayOfWeek],
    [roundUpToQuarter], [isPublicHoliday]), followed by the properties of
    the engine.

    Numbers.  A JavaScript number is embedded as [num]: either [NaN] or an
    exact rational [Fin q], with the arithmetic, [Math.min], [Math.max],
    [Math.ceil], [Math.round] and the comparisons of the language on them.
    Minutes are whole numbers on the inputs of the form and the engine only
    adds, subtracts and rounds them, so exact rationals follow the code;
    the binary rounding of doubles, the sign of zero and the infinities are
    not represented.

    Built-ins.  [Number] reads decimal literals (sign, fraction, exponent)
    and the radix literals [0x], [0o], [0b], between ASCII white space; the
    literal [Infinity] is not read.  The [Date] constructor reads the date
    forms of the ECMAScript date-time format with a four-digit year and
    computes the weekday as the language specification does.

    The [explanation] text of the result is output only and is not part of
    the embedding. *)

From Stdlib Require Import ZArith QArith Qround Qminmax.
From Stdlib Require Import String Ascii List Bool Lia Lqa.
Import ListNotations.

Local Open Scope string_scope.
Local Open Scope Z_scope.

(* ------------------------------------------------------------------ *)
(** ** JavaScript numbers                                              *)
(* ------------------------------------------------------------------ *)

Module JS.

Inductive num : Type :=
  | NaN
  | Fin (q : Q).

Definition lift1 (f : Q -> Q) (a : num) : num :=
  match a with
  | Fin x => Fin (f x)
  | NaN => NaN
  end.

Definition lift2 (f : Q -> Q -> Q) (a b : num) : num :=
  match a, b with
  | Fin x, Fin y => Fin (f x y)
  | _, _ => NaN
  end.

Definition add : num -> num -> num := lift2 Qplus.
Definition sub : num -> num -> num := lift2 Qminus.
Definition mul : num -> num -> num := lift2 Qmult.

(** [a / b]; the engine divides by the literals 15, 60 and 100 only, and
    a zero divisor (an infinity or NaN in JavaScript) is read as [NaN]. *)
Definition div (a b : num) : num :=
  match a, b with
  | Fin x, Fin y => if Qeq_bool y 0 then NaN else Fin (x / y)
  | _, _ => NaN
  end.

(** [Math.max], [Math.min]: NaN as soon as one argument is. *)
Definition max : num -> num -> num := lift2 Qmax.
Definition min : num -> num -> num := lift2 Qmin.

(** [Math.ceil] and [Math.round] (ties go up). *)
Definition ceil : num -> num := lift1 (fun x => inject_Z (Qceiling x)).
Definition round : num -> num := lift1 (fun x => inject_Z (Qfloor (x + (1 # 2)))).

(** Comparisons: false as soon as one side is NaN. *)
Definition le (a b : num) : bool :=
  match a, b with
  | Fin x, Fin y => Qle_bool x y
  | _, _ => false
  end.

Definition lt (a b : num) : bool :=
  match a, b with
  | Fin x, Fin y => negb (Qle_bool y x)
  | _, _ => false
  end.

Definition gt (a b : num) : bool := lt b a.

(** [a || b] on numbers: NaN and 0 are the falsy ones. *)
Definition or (a b : num) : num :=
  match a with
  | NaN => b
  | Fin x => if Qeq_bool x 0 then b else a
  end.

(** Equality of numbers up to the representation of the rational. *)
Definition eqn (a b : num) : Prop :=
  match a, b with
  | Fin x, Fin y => x == y
  | _, _ => False
  end.

End JS.

Import JS.

Declare Scope num_scope.
Delimit Scope num_scope with num.
Bind Scope num_scope with num.
Infix "+" := JS.add : num_scope.
Infix "-" := JS.sub : num_scope.
Infix "*" := JS.mul : num_scope.
Infix "/" := JS.div : num_scope.
Infix "<=?" := JS.le : num_scope.
Infix "<?" := JS.lt : num_scope.
Infix ">?" := JS.gt (at level 70) : num_scope.
Infix "=n=" := JS.eqn (at level 70, no associativity).

(* ------------------------------------------------------------------ *)
(** ** Strings: [Number] and [split]                                   *)
(* ------------------------------------------------------------------ *)

Module Str.

Definition code (c : ascii) : Z := Z.of_N (N_of_ascii c).

Definition is_space (c : ascii) : bool :=
  let n := code c in
  ((9 <=? n) && (n <=? 13)) || (n =? 32).

(** Value of a digit in a radix up to 16, if it is one. *)
Definition digit_in (radix : Z) (c : ascii) : option Z :=
  let n := code c in
  let v :=
    if (48 <=? n) && (n <=? 57) then n - 48
    else if (97 <=? n) && (n <=? 102) then n - 87
    else if (65 <=? n) && (n <=? 70) then n - 55
    else 99 in
  if v <? radix then Some v else None.

Fixpoint drop_spaces (s : string) : string :=
  match s with
  | String c r => if is_space c then drop_spaces r else s
  | EmptyString => s
  end.

Fixpoint rev_acc (s acc : string) : string :=
  match s with
  | String c r => rev_acc r (String c acc)
  | EmptyString => acc
  end.

Definition rev (s : string) : string := rev_acc s EmptyString.

Definition trim (s : string) : string :=
  rev (drop_spaces (rev (drop_spaces s))).

(** Longest prefix of digits of the radix: their value, how many there
    are, and the rest of the string. *)
Fixpoint digits (radix : Z) (s : string) (acc : Z) (n : Z) : Z * Z * string :=
  match s with
  | String c r =>
      match digit_in radix c with
      | Some v => digits radix r (acc * radix + v) (n + 1)
      | None => (acc, n, s)
      end
  | EmptyString => (acc, n, s)
  end.

(** A whole string of digits of the radix, at least one. *)
Definition all_digits (radix : Z) (s : string) : option Z :=
  match digits radix s 0 0 with
  | (v, n, EmptyString) => if 0 <? n then Some v else None
  | _ => None
  end.

(** [m * 10^k] as a rational. *)
Definition scale10 (m k : Z) : Q :=
  if 0 <=? k then inject_Z (m * 10 ^ k)
  else Qmake m (Z.to_pos (10 ^ (- k))).

(** The exponent part of a decimal literal: nothing, or [e]/[E], an
    optional sign and digits. *)
Definition exponent (s : string) : option Z :=
  match s with
  | EmptyString => Some 0
  | String c r =>
      if (code c =? 101) || (code c =? 69) then
        match r with
        | String "+" d => all_digits 10 d
        | String "-" d => option_map Z.opp (all_digits 10 d)
        | _ => all_digits 10 r
        end
      else None
  end.

(** An unsigned decimal literal: [12], [12.], [12.5], [.5], each with an
    optional exponent. *)
Definition unsigned_decimal (s : string) : option Q :=
  let '(ip, ni, r1) := digits 10 s 0 0 in
  let '(m, nf, r2) :=
    match r1 with
    | String "." r => digits 10 r ip 0
    | _ => (ip, 0, r1)
    end in
  if (ni + nf) =? 0 then None
  else option_map (fun e => scale10 m (e - nf)) (exponent r2).

Definition radix_literal (s : string) : option Q :=
  match s with
  | String "0" (String p d) =>
      let n := code p in
      let radix :=
        if (n =? 120) || (n =? 88) then 16
        else if (n =? 111) || (n =? 79) then 8
        else if (n =? 98) || (n =? 66) then 2
        else 0 in
      if radix =? 0 then None
      else option_map inject_Z (all_digits radix d)
  | _ => None
  end.

(** [Number(s)] for a string: white space is trimmed, the empty string is
    0, then an unsigned radix literal or a signed decimal literal; anything
    else is NaN. *)
Definition Number (s : string) : num :=
  let t := trim s in
  match t with
  | EmptyString => Fin 0
  | String c r =>
      match radix_literal t with
      | Some q => Fin q
      | None =>
          let signed :=
            match c with
            | "+"%char => unsigned_decimal r
            | "-"%char => option_map Qopp (unsigned_decimal r)
            | _ => unsigned_decimal t
            end in
          match signed with
          | Some q => Fin q
          | None => NaN
          end
      end
  end.

(** [s.split(sep)] for a one-character separator. *)
Fixpoint split_acc (sep : ascii) (s : string) (cur : string) : list string :=
  match s with
  | EmptyString => [rev cur]
  | String c r =>
      if Ascii.eqb c sep then rev cur :: split_acc sep r EmptyString
      else split_acc sep r (String c cur)
  end.

Definition split (sep : ascii) (s : string) : list string :=
  split_acc sep s EmptyString.

End Str.

(* ------------------------------------------------------------------ *)
(** ** Dates: [new Date(dateStr + "T00:00:00").getDay()]               *)
(* ------------------------------------------------------------------ *)

Module Date.

Definition is_leap (y : Z) : bool :=
  ((y mod 4 =? 0) && negb (y mod 100 =? 0)) || (y mod 400 =? 0).

Definition days_in_month (y m : Z) : Z :=
  if m =? 2 then (if is_leap y then 29 else 28)
  else if (m =? 4) || (m =? 6) || (m =? 9) || (m =? 11) then 30
  else 31.

(** Day number of the first of January, counted from 1970-01-01. *)
Definition DayFromYear (y : Z) : Z :=
  365 * (y - 1970) + (y - 1969) / 4 - (y - 1901) / 100 + (y - 1601) / 400.

Definition days_before_month (y m : Z) : Z :=
  fold_left (fun acc k => if k <? m then acc + days_in_month y k else acc)
            [1; 2; 3; 4; 5; 6; 7; 8; 9; 10; 11] 0.

Definition Day (y m d : Z) : Z :=
  DayFromYear y + days_before_month y m + (d - 1).

(** 0 is Sunday; 1970-01-01 was a Thursday. *)
Definition WeekDay (y m d : Z) : Z := (Day y m d + 4) mod 7.

Definition field (s : string) (pos len : nat) : option Z :=
  let f := substring pos len s in
  if Nat.eqb (String.length f) len then Str.all_digits 10 f else None.

Definition dash_at (s : string) (pos : nat) : bool :=
  String.eqb (substring pos 1 s) "-".

(** The date forms of the ECMAScript date-time format with a four-digit
    year: [YYYY], [YYYY-MM], [YYYY-MM-DD]; anything else, and any month or
    day that does not exist, is an Invalid Date. *)
Definition parse (s : string) : option (Z * Z * Z) :=
  let ymd :=
    match String.length s with
    | 4%nat =>
        match field s 0 4 with
        | Some y => Some (y, 1, 1)
        | None => None
        end
    | 7%nat =>
        match field s 0 4, field s 5 2 with
        | Some y, Some m => if dash_at s 4 then Some (y, m, 1) else None
        | _, _ => None
        end
    | 10%nat =>
        match field s 0 4, field s 5 2, field s 8 2 with
        | Some y, Some m, Some d =>
            if dash_at s 4 && dash_at s 7 then Some (y, m, d) else None
        | _, _, _ => None
        end
    | _ => None
    end in
  match ymd with
  | Some (y, m, d) =>
      if (1 <=? m) && (m <=? 12) && (1 <=? d) && (d <=? days_in_month y m)
      then Some (y, m, d) else None
  | None => None
  end.

(** [getDay()] of local midnight of the date; [None] is the NaN of an
    Invalid Date. *)
Definition getDay (dateStr : string) : option Z :=
  match parse dateStr with
  | Some (y, m, d) => Some (WeekDay y m d)
  | None => None
  end.

End Date.

(* ------------------------------------------------------------------ *)
(** ** Utility functions                                               *)
(* ------------------------------------------------------------------ *)

Local Open Scope num_scope.

(** The second part is [undefined] when there is no colon, and the sum is
    then NaN. *)
Definition parseTimeToMinutes (time : string) : num :=
  let parts := map Str.Number (Str.split ":" time) in
  let h := nth 0 parts NaN in
  let m := nth 1 parts NaN in
  h * Fin 60 + m.

Definition overlapMinutes (start1 end1 start2 end2 : num) : num :=
  let start := JS.max start1 start2 in
  let end_ := JS.min end1 end2 in
  JS.max (Fin 0) (end_ - start).

Definition toHours (mins : num) : num :=
  JS.round ((mins / Fin 60) * Fin 100) / Fin 100.

Definition dayNames : list string :=
  ["Sunday"; "Monday"; "Tuesday"; "Wednesday"; "Thursday"; "Friday"; "Saturday"].

(** [None] is [undefined], the entry of the table at index NaN. *)
Definition getDayOfWeek (dateStr : string) : option string :=
  match Date.getDay dateStr with
  | Some i => nth_error dayNames (Z.to_nat i)
  | None => None
  end.

Definition roundUpToQuarter (mins : num) : num :=
  if mins <=? Fin 0 then Fin 0
  else JS.ceil (mins / Fin 15) * Fin 15.

(* ------------------------------------------------------------------ *)
(** ** NSW public holidays (2016-2026)                                 *)
(* ------------------------------------------------------------------ *)

Definition NSW_PUBLIC_HOLIDAYS : list string :=
  [ "2016-01-01";"2016-01-26";"2016-03-25";"2016-03-26";"2016-03-27";"2016-03-28";
    "2016-04-25";"2016-06-13";"2016-10-03";"2016-12-25";"2016-12-26";"2016-12-27";
    "2017-01-01";"2017-01-02";"2017-01-26";"2017-04-14";"2017-04-15";"2017-04-16";
    "2017-04-17";"2017-04-25";"2017-06-12";"2017-10-02";"2017-12-25";"2017-12-26";
    "2018-01-01";"2018-01-26";"2018-03-30";"2018-03-31";"2018-04-01";"2018-04-02";
    "2018-04-25";"2018-06-11";"2018-10-01";"2018-12-25";"2018-12-26";
    "2019-01-01";"2019-01-26";"2019-01-28";"2019-04-19";"2019-04-20";"2019-04-21";
    "2019-04-22";"2019-04-25";"2019-06-10";"2019-10-07";"2019-12-25";"2019-12-26";
    "2020-01-01";"2020-01-26";"2020-01-27";"2020-04-10";"2020-04-11";"2020-04-12";
    "2020-04-13";"2020-04-25";"2020-06-08";"2020-10-05";"2020-12-25";"2020-12-26";"2020-12-28";
    "2021-01-01";"2021-01-26";"2021-04-02";"2021-04-03";"2021-04-04";"2021-04-05";
    "2021-04-25";"2021-06-14";"2021-10-04";"2021-12-25";"2021-12-26";"2021-12-27";"2021-12-28";
    "2022-01-01";"2022-01-03";"2022-01-26";"2022-04-15";"2022-04-16";"2022-04-17";
    "2022-04-18";"2022-04-25";"2022-06-13";"2022-09-22";"2022-10-03";"2022-12-25";
    "2022-12-26";"2022-12-27";
    "2023-01-01";"2023-01-02";"2023-01-26";"2023-04-07";"2023-04-08";"2023-04-09";
    "2023-04-10";"2023-04-25";"2023-06-12";"2023-10-02";"2023-12-25";"2023-12-26";
    "2024-01-01";"2024-01-26";"2024-03-29";"2024-03-30";"2024-03-31";"2024-04-01";
    "2024-04-25";"2024-06-10";"2024-10-07";"2024-12-25";"2024-12-26";
    "2025-01-01";"2025-01-27";"2025-04-18";"2025-04-19";"2025-04-20";"2025-04-21";
    "2025-04-25";"2025-06-09";"2025-10-06";"2025-12-25";"2025-12-26";
    "2026-01-01";"2026-01-26";"2026-04-03";"2026-04-04";"2026-04-05";"2026-04-06";
    "2026-04-25";"2026-06-08";"2026-10-05";"2026-12-25";"2026-12-26";"2026-12-28" ].

Definition isPublicHoliday (dateStr : string) : bool :=
  existsb (String.eqb dateStr) NSW_PUBLIC_HOLIDAYS.

(* ------------------------------------------------------------------ *)
(** ** The rules engine                                                *)
(* ------------------------------------------------------------------ *)

(** The three bands of the shift and the break still to allocate: the
    variables [pre], [mid], [post] and [remainingBreak] that the closure
    [subtractBreak] updates. *)
Record Bands : Type := mkBands {
  pre : num;
  mid : num;
  post : num;
  remainingBreak : num
}.

Inductive Key : Type := Kmid | Kpre | Kpost.

Definition subtractBreak (key : Key) (b : Bands) : Bands :=
  let cut :=
    JS.min (match key with Kmid => mid b | Kpre => pre b | Kpost => post b end)
           (remainingBreak b) in
  {| pre := match key with Kpre => pre b - cut | _ => pre b end;
     mid := match key with Kmid => mid b - cut | _ => mid b end;
     post := match key with Kpost => post b - cut | _ => post b end;
     remainingBreak := remainingBreak b - cut |}.

(** Raw overlap of the shift with each band of the day, before the break. *)
Definition spans (start end_ : num) : Bands :=
  let spanStart := Fin 8 * Fin 60 in
  let spanEnd := Fin 20 * Fin 60 in
  {| pre := overlapMinutes start end_ (Fin 0) spanStart;
     mid := overlapMinutes start end_ spanStart spanEnd;
     post := overlapMinutes start end_ spanEnd (Fin 24 * Fin 60);
     remainingBreak := Fin 0 |}.

Definition allocateBreak (start end_ breakMinutes : num) : Bands :=
  let s := spans start end_ in
  let b0 := {| pre := pre s; mid := mid s; post := post s;
               remainingBreak := breakMinutes |} in
  subtractBreak Kpost (subtractBreak Kpre (subtractBreak Kmid b0)).

(** Raw classification before rounding. *)
Record Raw : Type := mkRaw {
  ordinaryMinutes : num;
  otSegments : list num;
  sundayOTMinutesRaw : num;
  ph15Raw : num;
  ph25Raw : num
}.

Definition classify (isPH isSunday isWeekend : bool) (b : Bands)
    (workedMinutes : num) : Raw :=
  if isPH then
    {| ordinaryMinutes := Fin 0; otSegments := [];
       sundayOTMinutesRaw := Fin 0;
       ph15Raw := mid b; ph25Raw := pre b + post b |}
  else if isSunday then
    {| ordinaryMinutes := Fin 0; otSegments := [];
       sundayOTMinutesRaw := workedMinutes;
       ph15Raw := Fin 0; ph25Raw := Fin 0 |}
  else if isWeekend then
    {| ordinaryMinutes := Fin 0; otSegments := [pre b; mid b; post b];
       sundayOTMinutesRaw := Fin 0;
       ph15Raw := Fin 0; ph25Raw := Fin 0 |}
  else
    let ordinary := JS.min (mid b) (Fin 7 * Fin 60) in
    let extraInSpanRaw := JS.max (Fin 0) (mid b - ordinary) in
    {| ordinaryMinutes := ordinary;
       otSegments := [pre b; extraInSpanRaw; post b];
       sundayOTMinutesRaw := Fin 0;
       ph15Raw := Fin 0; ph25Raw := Fin 0 |}.

(** The four penalty buckets, in minutes. *)
Record Buckets : Type := mkBuckets {
  ot15Minutes : num;
  ot20Minutes : num;
  ph15Minutes : num;
  ph25Minutes : num
}.

(** [otSegments.map(roundUpToQuarter).reduce((a, b) => a + b, 0)] *)
Definition otTotalRounded (segments : list num) : num :=
  fold_left JS.add (map roundUpToQuarter segments) (Fin 0).

Definition roundBuckets (isPH isSunday isWeekend : bool) (r : Raw) : Buckets :=
  if isPH then
    {| ot15Minutes := Fin 0; ot20Minutes := Fin 0;
       ph15Minutes := roundUpToQuarter (ph15Raw r);
       ph25Minutes := roundUpToQuarter (ph25Raw r) |}
  else if isSunday then
    {| ot15Minutes := Fin 0;
       ot20Minutes := roundUpToQuarter (sundayOTMinutesRaw r);
       ph15Minutes := Fin 0; ph25Minutes := Fin 0 |}
  else if isWeekend then
    let total := otTotalRounded (otSegments r) in
    {| ot15Minutes := JS.min (Fin 120) total;
       ot20Minutes := JS.max (Fin 0) (total - Fin 120);
       ph15Minutes := Fin 0; ph25Minutes := Fin 0 |}
  else
    let total := otTotalRounded (otSegments r) in
    {| ot15Minutes := JS.min (Fin 120) total;
       ot20Minutes := JS.max (Fin 0) (total - Fin 120);
       ph15Minutes := Fin 0; ph25Minutes := Fin 0 |}.

Definition paidBeforeFloor (isPH isSunday isWeekend : bool) (r : Raw)
    (k : Buckets) : num :=
  if isPH then ph15Minutes k + ph25Minutes k
  else if isSunday then ot20Minutes k
  else if isWeekend then ot15Minutes k + ot20Minutes k
  else ordinaryMinutes r + ot15Minutes k + ot20Minutes k.

(** Minimum 4-hour payment rule: the buckets, [minimumRuleApplied] and
    [paidMinutes] after it. *)
Definition minimumRule (isPH isSunday : bool) (k : Buckets) (paid : num)
    : Buckets * bool * num :=
  if (isPH || isSunday) && (paid <? Fin 240) then
    let diff := Fin 240 - paid in
    let k' :=
      if isPH then
        {| ot15Minutes := ot15Minutes k; ot20Minutes := ot20Minutes k;
           ph15Minutes := ph15Minutes k;
           ph25Minutes := ph25Minutes k + diff |}
      else
        {| ot15Minutes := ot15Minutes k;
           ot20Minutes := ot20Minutes k + diff;
           ph15Minutes := ph15Minutes k; ph25Minutes := ph25Minutes k |} in
    (k', true, Fin 240)
  else (k, false, paid).

Definition MEAL_BEFORE_6 := "Work commenced before 06:00 on a weekday.".
Definition MEAL_OVERTIME_18 :=
  "More than 2 hours overtime extending beyond 18:00 on a weekday.".
Definition MEAL_WEEKEND := "More than 5 hours worked on a weekend day.".
Definition MEAL_HOLIDAY := "More than 5 hours worked on a public holiday.".

(** Meal allowances: the counter [meals] and the list [mealRules], each
    [if] of the source in turn. *)
Definition mealAllowance (isPH isWeekend : bool) (start end_ : num)
    (b : Bands) (ordinaryMinutes workedHours : num) : Z * list string :=
  let st0 : Z * list string := (0%Z, []) in
  let startedBefore6 := negb isPH && negb isWeekend && (start <? Fin 360) in
  let finishedAfter18 := end_ >? Fin 1080 in
  let ordinaryMinutesForWeekday := ordinaryMinutes in
  let extraInSpanForWeekday :=
    JS.max (Fin 0) (mid b - ordinaryMinutesForWeekday) in
  let otMinutesTotalForWeekday := pre b + post b + extraInSpanForWeekday in
  let st1 :=
    if startedBefore6 then ((fst st0 + 1)%Z, (snd st0 ++ [MEAL_BEFORE_6])%list)
    else st0 in
  let st2 :=
    if negb isPH && negb isWeekend
       && (otMinutesTotalForWeekday >? Fin 120) && finishedAfter18
    then ((fst st1 + 1)%Z, (snd st1 ++ [MEAL_OVERTIME_18])%list)
    else st1 in
  let st3 :=
    if isWeekend && (workedHours >? Fin 5)
    then (1%Z, (snd st2 ++ [MEAL_WEEKEND])%list)
    else st2 in
  let st4 :=
    if isPH && (workedHours >? Fin 5)
    then (1%Z, (snd st3 ++ [MEAL_HOLIDAY])%list)
    else st3 in
  if negb isPH && negb isWeekend && (2 <? fst st4)%Z then (2%Z, snd st4)
  else st4.

(** Every local of a call that reaches the end of [applyRules]. *)
Record Locals : Type := mkLocals {
  dayOfWeek : option string;
  isPH : bool;
  isSunday : bool;
  isWeekend : bool;
  start : num;
  end_ : num;
  breakMinutes : num;
  bands : Bands;                 (* pre, mid, post after the break *)
  workedMinutes : num;
  raw : Raw;
  rounded : Buckets;             (* the buckets before the minimum rule *)
  final : Buckets;               (* the buckets after it *)
  minimumRuleApplied : bool;
  paidMinutes : num;
  workedHours : num;
  meals : Z;
  mealRules : list string
}.

Definition is_day (d : option string) (name : string) : bool :=
  match d with
  | Some s => String.eqb s name
  | None => false
  end.

(** The body of [applyRules] after the test [end <= start]. *)
Definition body (dayOfWeek : option string) (isPH : bool)
    (start end_ breakMinutes : num) : Locals :=
  let isSunday := is_day dayOfWeek "Sunday" in
  let isWeekend := is_day dayOfWeek "Saturday" || is_day dayOfWeek "Sunday" in
  let b := allocateBreak start end_ breakMinutes in
  let workedMinutes := pre b + mid b + post b in
  let r := classify isPH isSunday isWeekend b workedMinutes in
  let k := roundBuckets isPH isSunday isWeekend r in
  let paid := paidBeforeFloor isPH isSunday isWeekend r k in
  let floored := minimumRule isPH isSunday k paid in
  let workedHours := toHours workedMinutes in
  let allowance :=
    mealAllowance isPH isWeekend start end_ b (ordinaryMinutes r)
                  workedHours in
  {| dayOfWeek := dayOfWeek; isPH := isPH; isSunday := isSunday;
     isWeekend := isWeekend; start := start; end_ := end_;
     breakMinutes := breakMinutes; bands := b;
     workedMinutes := workedMinutes; raw := r; rounded := k;
     final := fst (fst floored); minimumRuleApplied := snd (fst floored);
     paidMinutes := snd floored; workedHours := workedHours;
     meals := fst allowance; mealRules := snd allowance |}.

(** [applyRules] once its arguments are parsed. *)
Definition rules (dayOfWeek : option string) (isPH : bool)
    (start end_ breakMinutes : num) : option Locals :=
  if end_ <=? start then None
  else Some (body dayOfWeek isPH start end_ breakMinutes).

Definition is_empty (s : string) : bool :=
  match s with
  | EmptyString => true
  | _ => false
  end.

(** [Math.max(0, Number(breakMinutesInput) || 0)] *)
Definition parseBreak (breakMinutesInput : string) : num :=
  JS.max (Fin 0) (JS.or (Str.Number breakMinutesInput) (Fin 0)).

Definition locals (dateStr startStr endStr breakMinutesInput : string)
    : option Locals :=
  if is_empty dateStr || is_empty startStr || is_empty endStr then None
  else
    rules (getDayOfWeek dateStr) (isPublicHoliday dateStr)
          (parseTimeToMinutes startStr) (parseTimeToMinutes endStr)
          (parseBreak breakMinutesInput).

(** The result of a call, without its [explanation] text. *)
Record CalculationResult : Type := mkResult {
  r_dayOfWeek : option string;
  r_isWeekend : bool;
  r_isPublicHoliday : bool;
  paidHours : num;
  ordinaryHours : num;
  overtime15 : num;
  overtime20 : num;
  publicHoliday15 : num;
  publicHoliday25 : num;
  r_minimumRuleApplied : bool;
  mealAllowances : Z;
  r_mealRules : list string
}.

Definition result (l : Locals) : CalculationResult :=
  {| r_dayOfWeek := dayOfWeek l;
     r_isWeekend := isWeekend l;
     r_isPublicHoliday := isPH l;
     paidHours := toHours (paidMinutes l);
     ordinaryHours := toHours (ordinaryMinutes (raw l));
     overtime15 := toHours (ot15Minutes (final l));
     overtime20 := toHours (ot20Minutes (final l));
     publicHoliday15 := toHours (ph15Minutes (final l));
     publicHoliday25 := toHours (ph25Minutes (final l));
     r_minimumRuleApplied := minimumRuleApplied l;
     mealAllowances := meals l;
     r_mealRules := mealRules l |}.

Definition applyRules (dateStr startStr endStr breakMinutesInput : string)
    : option CalculationResult :=
  option_map result (locals dateStr startStr endStr breakMinutesInput).

(* ------------------------------------------------------------------ *)
(** ** Vocabulary of the properties                                    *)
(* ------------------------------------------------------------------ *)

(** The day classification of a date: a holiday whatever its weekday,
    otherwise by the weekday name. *)
Inductive DayClass : Type := Weekday | Saturday | Sunday | PublicHoliday.

Definition dayClass (dateStr : string) : option DayClass :=
  if isPublicHoliday dateStr then Some PublicHoliday
  else match getDayOfWeek dateStr with
       | Some d =>
           if String.eqb d "Sunday" then Some Sunday
           else if String.eqb d "Saturday" then Some Saturday
           else Some Weekday
       | None => None
       end.

(** A shift window inside one day: both times parse, and
    00:00 <= start < end <= 24:00. *)
Definition valid_times (startStr endStr : string) (s e : Q) : Prop :=
  parseTimeToMinutes startStr = Fin s /\
  parseTimeToMinutes endStr = Fin e /\
  (0 <= s /\ s < e /\ e <= 1440)%Q.

(** A shift that the engine classifies: a date with a classification and
    a window inside the day. *)
Definition valid_shift (dateStr startStr endStr : string) (c : DayClass)
    (s e : Q) : Prop :=
  dayClass dateStr = Some c /\ valid_times startStr endStr s e.

(** The minutes of break taken from each band, in the order in-span,
    pre-span, post-span, for bands of [p], [m] and [po] minutes and a
    break of [b] minutes. *)
Definition cutMid (m b : Q) : Q := Qmin m b.
Definition cutPre (p m b : Q) : Q := Qmin p (b - cutMid m b).
Definition cutPost (p m po b : Q) : Q :=
  Qmin po (b - cutMid m b - cutPre p m b).

(** [roundUpToQuarter] and [toHours] on rationals. *)
Definition roundQ (x : Q) : Q :=
  if Qle_bool x 0 then 0%Q else (inject_Z (Qceiling (x / 15)) * 15)%Q.

Definition hoursQ (x : Q) : Q :=
  (inject_Z (Qfloor (x / 60 * 100 + (1 # 2))) / 100)%Q.

Definition b2z (b : bool) : Z := if b then 1%Z else 0%Z.

(* ------------------------------------------------------------------ *)
(** ** Vocabulary of the further properties                           *)
(* ------------------------------------------------------------------ *)

(** The minutes of a classified shift as rationals: ordinary minutes, the
    four penalty buckets after the minimum rule, the paid minutes and
    whether the rule fired, from the bands left after the break. *)
Record MinutesQ : Type := mkMinutesQ {
  ordQ : Q;
  ot15Q : Q;
  ot20Q : Q;
  ph15Q : Q;
  ph25Q : Q;
  paidQ : Q;
  flooredQ : bool
}.

Definition totalQ (a x z : Q) : Q := (0 + roundQ a + roundQ x + roundQ z)%Q.

Definition minutesQ (c : DayClass) (p m po : Q) : MinutesQ :=
  match c with
  | Weekday =>
      let ord := Qmin m 420 in
      let T := totalQ p (Qmax 0 (m - ord)) po in
      mkMinutesQ ord (Qmin 120 T) (Qmax 0 (T - 120)) 0 0
                 (ord + Qmin 120 T + Qmax 0 (T - 120)) false
  | Saturday =>
      let T := totalQ p m po in
      mkMinutesQ 0 (Qmin 120 T) (Qmax 0 (T - 120)) 0 0
                 (Qmin 120 T + Qmax 0 (T - 120)) false
  | Sunday =>
      let R := roundQ (p + m + po) in
      if Qle_bool 240 R then mkMinutesQ 0 0 R 0 0 R false
      else mkMinutesQ 0 0 (R + (240 - R)) 0 0 240 true
  | PublicHoliday =>
      let a := roundQ m in
      let b := roundQ (p + po) in
      if Qle_bool 240 (a + b) then mkMinutesQ 0 0 0 a b (a + b) false
      else mkMinutesQ 0 0 0 a (b + (240 - (a + b))) 240 true
  end%Q.

(** The classification the flags of a call select, whatever the date: the
    holiday flag first, then the Sunday and Saturday names, and a working
    day otherwise (also when the date has no weekday). *)
Definition classOf (dayOfWeek : option string) (isPH : bool) : DayClass :=
  if isPH then PublicHoliday
  else if is_day dayOfWeek "Sunday" then Sunday
  else if is_day dayOfWeek "Saturday" then Saturday
  else Weekday.


(** A time as the time control writes it: two digits, a colon, two
    digits. *)
Definition digit (d : nat) : ascii := ascii_of_nat (48 + d).

Definition clock (h1 h2 m1 m2 : nat) : string :=
  String (digit h1) (String (digit h2)
    (String ":" (String (digit m1) (String (digit m2) EmptyString)))).

Fixpoint has_colon (s : string) : bool :=
  match s with
  | EmptyString => false
  | String c r => Ascii.eqb c ":" || has_colon r
  end.

(** A piece of a template literal: its own text, or an interpolated
    string, day name (possibly [undefined]), number or meal count.  The
    explanation is the lines joined by line feeds, each piece printed as
    JavaScript prints it. *)
Inductive Piece : Type :=
  | Lit (s : string)
  | Txt (s : string)
  | DayName (d : option string)
  | Num (n : num)
  | Count (z : Z).

Definition Line : Type := list Piece.

(** The line feed written [\n] in the templates. *)
Definition nl : string := String (ascii_of_nat 10) EmptyString.

(** [fmt = (h) => `${Math.round(h * 100) / 100} h`] *)
Definition fmt (h : num) : list Piece :=
  [Num (JS.round (h * Fin 100) / Fin 100); Lit " h"].

Definition classificationLine (l : Locals) : Line :=
  [Lit "Day classification: "; DayName (dayOfWeek l);
   Txt (if isPH l then " (Public Holiday)"
        else if isWeekend l then " (Weekend)" else " (Weekday)");
   Lit "."].

Definition shiftLine (l : Locals) (startStr endStr : string) : Line :=
  [Lit "Shift worked from "; Txt startStr; Lit " to "; Txt endStr;
   Lit ", with "; Num (breakMinutes l); Lit " minutes of unpaid break."].

Definition minimumNotice : Line :=
  [Lit (nl ++ "Minimum 4-hour payment rule applied for Sunday / Public Holiday.")].

Definition totalLine (l : Locals) : Line :=
  ([Lit (nl ++ "Total payable hours after overtime rounding and minimum rules: ")%string]
   ++ fmt (toHours (paidMinutes l)) ++ [Lit "."])%list.

Definition weekdayBlock (l : Locals) : list Line :=
  [ [Lit "Ordinary Hours (Clauses 26.1–26.2): "]
      ++ fmt (toHours (ordinaryMinutes (raw l))) ++ [Lit "."];
    [Lit "Overtime 1.5× (Clause 27.2 first 2 hours): "]
      ++ fmt (toHours (ot15Minutes (final l))) ++ [Lit "."];
    [Lit "Overtime 2.0× (Clause 27.2 thereafter): "]
      ++ fmt (toHours (ot20Minutes (final l))) ++ [Lit "."] ]%list.

Definition sundayBlock (l : Locals) : list Line :=
  [ [Lit "Sunday overtime (Clause 27.3): "]
      ++ fmt (toHours (ot20Minutes (final l)))
      ++ [Lit " at 2.0×, rounded up to 15-minute blocks."] ]%list.

Definition saturdayBlock (l : Locals) : list Line :=
  [ [Lit "Saturday overtime (Clause 27.2):"];
    [Lit "• 1.5× (first 2 hours) after rounding: "]
      ++ fmt (toHours (ot15Minutes (final l))) ++ [Lit "."];
    [Lit "• 2.0× (thereafter) after rounding: "]
      ++ fmt (toHours (ot20Minutes (final l))) ++ [Lit "."] ]%list.

Definition holidayBlock (l : Locals) : list Line :=
  [ [Lit "Public Holiday penalties (Clause 27.4) after rounding:"];
    [Lit "• "] ++ fmt (toHours (ph15Minutes (final l)))
      ++ [Lit " at 1.5× for hours within the 08:00–20:00 span."];
    [Lit "• "] ++ fmt (toHours (ph25Minutes (final l)))
      ++ [Lit " at 2.5× for all other public holiday hours."] ]%list.

Definition mealsLine (l : Locals) : Line :=
  [Lit "Meal allowances (Clause 27.12): "; Count (meals l); Lit "."].

Definition mealBullet (r : string) : Line := [Lit "• "; Txt r].

Definition clausesLine : Line :=
  [Lit (nl ++ "Relevant clauses applied: 26.1, 26.2, 27.1, 27.2, 27.3, 27.4, 27.12.")].

(** The array [explanationLines] at the end of [applyRules]: every [push]
    of the source in turn, each under its own [if]. *)
Definition explanationLines (l : Locals) (startStr endStr : string)
    : list Line :=
  (let lines := [classificationLine l; shiftLine l startStr endStr] in
  let lines :=
    if minimumRuleApplied l then lines ++ [minimumNotice] else lines in
  let lines := lines ++ [totalLine l] in
  let lines :=
    if negb (isPH l) && negb (isWeekend l) then lines ++ weekdayBlock l
    else lines in
  let lines :=
    if negb (isPH l) && isSunday l then lines ++ sundayBlock l else lines in
  let lines :=
    if negb (isPH l) && isWeekend l && negb (isSunday l)
    then lines ++ saturdayBlock l else lines in
  let lines := if isPH l then lines ++ holidayBlock l else lines in
  let lines := lines ++ [mealsLine l] in
  let lines := lines ++ map mealBullet (mealRules l) in
  lines ++ [clausesLine])%list.

(** The explanation of a call, as lines of pieces. *)
Definition explain (dateStr startStr endStr breakMinutesInput : string)
    : option (list Line) :=
  option_map (fun l => explanationLines l startStr endStr)
             (locals dateStr startStr endStr breakMinutesInput).

(** The breakdown block of a classification. *)
Definition breakdownBlock (c : DayClass) (l : Locals) : list Line :=
  match c with
  | Weekday => weekdayBlock l
  | Saturday => saturdayBlock l
  | Sunday => sundayBlock l
  | PublicHoliday => holidayBlock l
  end.

(** The object [applyRules] returns, with its explanation: the twelve
    fields of [CalculationResult] and the lines of the text. *)
Definition applyRulesExplained
    (dateStr startStr endStr breakMinutesInput : string)
    : option (CalculationResult * list Line) :=
  option_map (fun l => (result l, explanationLines l startStr endStr))
             (locals dateStr startStr endStr breakMinutesInput).

(** The state of the component [App]: the four [useState] strings and the
    result. *)
Record AppState : Type := mkApp {
  a_date : string;
  a_start : string;
  a_end : string;
  a_breakMinutes : string;
  a_result : option (CalculationResult * list Line)
}.

Definition initialState : AppState :=
  mkApp EmptyString EmptyString EmptyString "0" None.

(** What the user can do: change one of the four inputs, or press the
    button. *)
Inductive Event : Type :=
  | SetDate (v : string)
  | SetStart (v : string)
  | SetEnd (v : string)
  | SetBreakMinutes (v : string)
  | HandleCalculate.

Definition step (st : AppState) (ev : Event) : AppState :=
  match ev with
  | SetDate v =>
      mkApp v (a_start st) (a_end st) (a_breakMinutes st) (a_result st)
  | SetStart v =>
      mkApp (a_date st) v (a_end st) (a_breakMinutes st) (a_result st)
  | SetEnd v =>
      mkApp (a_date st) (a_start st) v (a_breakMinutes st) (a_result st)
  | SetBreakMinutes v =>
      mkApp (a_date st) (a_start st) (a_end st) v (a_result st)
  | HandleCalculate =>
      mkApp (a_date st) (a_start st) (a_end st) (a_breakMinutes st)
            (applyRulesExplained (a_date st) (a_start st) (a_end st)
                                 (a_breakMinutes st))
  end.

Definition run (events : list Event) : AppState :=
  fold_left step events initialState.

(** The paragraphs of the results panel, in the order of the markup. *)
Inductive Row : Type :=
  | DayRow (day : option string) (tag : string)
  | HoursRow (label : string) (h : num)
  | Banner (text : string)
  | CountRow (label : string) (n : Z)
  | ExplanationBox (text : list Line).

Definition panel (r : CalculationResult) (explanation : list Line)
    : list Row :=
  ([DayRow (r_dayOfWeek r)
           (if r_isPublicHoliday r then "(Public Holiday)"
            else if r_isWeekend r then "(Weekend)" else "(Weekday)");
    HoursRow "Paid Hours: " (paidHours r)]
   ++ (if r_minimumRuleApplied r
       then [Banner "Minimum 4-hour rule applied (Sunday / Public Holiday)."]
       else [])
   ++ (if negb (r_isPublicHoliday r)
       then [HoursRow "Ordinary Hours: " (ordinaryHours r);
             HoursRow "OT 1.5×: " (overtime15 r);
             HoursRow "OT 2.0×: " (overtime20 r)]
       else [])
   ++ (if r_isPublicHoliday r
       then [HoursRow "PH 1.5× Hours: " (publicHoliday15 r);
             HoursRow "PH 2.5× Hours: " (publicHoliday25 r)]
       else [])
   ++ [CountRow "Meal Allowances: " (mealAllowances r);
       ExplanationBox explanation])%list.

(** The results panel is there when there is a result. *)
Definition view (st : AppState) : list Row :=
  match a_result st with
  | Some (r, explanation) => panel r explanation
  | None => []
  end.

(** The serverless function [handler] of the review endpoint. *)
Module Endpoint.

(** A JavaScript value, as far as its truth value goes. *)
Inductive jsval : Type :=
  | JUndefined
  | JNull
  | JBool (b : bool)
  | JNum (n : num)
  | JStr (s : string)
  | JObject.

Definition truthy (v : jsval) : bool :=
  match v with
  | JUndefined | JNull => false
  | JBool b => b
  | JNum NaN => false
  | JNum (Fin q) => negb (Qeq_bool q 0)
  | JStr s => negb (is_empty s)
  | JObject => true
  end.

(** [a || b] on values. *)
Definition jor (a b : jsval) : jsval := if truthy a then a else b.

(** A thrown value, with its [message] property. *)
Record Thrown : Type := mkThrown { message : jsval }.

(** The Gemini client library, which the handler calls and does not
    define: building the client and the model from a key either returns or
    throws; generating content for a text, then reading the text of the
    response, either gives a string or throws. *)
Record Gemini : Type := mkGemini {
  getGenerativeModel : string -> option Thrown;
  generateContent : jsval -> Thrown + string
}.

(** What the handler does to the outside, in order. *)
Inductive Effect : Type :=
  | ConsoleError (text : string)
  | NewClient (apiKey : string)
  | GenerateContent (text : jsval).

Inductive Json : Type :=
  | JsonError (error : jsval)
  | JsonReview (review : string).

Record Response : Type := mkResponse { status : Z; json : Json }.

(** The body of a [try]: the effects so far, and a value or the value
    thrown. *)
Definition Try (A : Type) : Type := (list Effect * (Thrown + A))%type.

Definition ret {A : Type} (a : A) : Try A := ([], inr a).

Definition bind {A B : Type} (m : Try A) (k : A -> Try B) : Try B :=
  match m with
  | (t, inl e) => (t, inl e)
  | (t, inr a) => let '(t', r) := k a in ((t ++ t')%list, r)
  end.

Definition effect (e : Effect) : Try unit := ([e], inr tt).

Definition attempt {A : Type} (r : Thrown + A) : Try A := ([], r).

Local Notation "x <- m ;; k" := (bind m (fun x => k))
  (at level 61, m at next level, right associativity).
Local Notation "m ;;; k" := (bind m (fun _ => k))
  (at level 61, right associativity).

(** The statements of the [try] block of [handler].  [apiKey] is
    [process.env.GEMINI_API_KEY], [bodyText] is what evaluating
    [req.body?.text] gives or throws. *)
Definition tryBlock (apiKey : option string) (g : Gemini)
    (bodyText : Thrown + jsval) : Try Response :=
  match apiKey with
  | Some key =>
      if is_empty key then
        effect (ConsoleError "Missing GEMINI_API_KEY in server env") ;;;
        ret (mkResponse 500 (JsonError (JStr "API Key missing")))
      else
        effect (NewClient key) ;;;
        attempt (match getGenerativeModel g key with
                 | Some e => inl e
                 | None => inr tt
                 end) ;;;
        inputText <- attempt bodyText ;;
        if negb (truthy inputText) then
          ret (mkResponse 400 (JsonError (JStr "Missing text field")))
        else
          effect (GenerateContent inputText) ;;;
          text <- attempt (generateContent g inputText) ;;
          let review :=
            if is_empty text then "No response text received" else text in
          ret (mkResponse 200 (JsonReview review))
  | None =>
      effect (ConsoleError "Missing GEMINI_API_KEY in server env") ;;;
      ret (mkResponse 500 (JsonError (JStr "API Key missing")))
  end.

(** [handler]: the [try] block, and the [catch] when it throws. *)
Definition handler (apiKey : option string) (g : Gemini)
    (bodyText : Thrown + jsval) : Response * list Effect :=
  match tryBlock apiKey g bodyText with
  | (t, inr response) => (response, t)
  | (t, inl error) =>
      (mkResponse 500
         (JsonError (jor (message error) (JStr "Unknown error"))),
       (t ++ [ConsoleError "Gemini API Error:"])%list)
  end.

End Endpoint.

(* ------------------------------------------------------------------ *)
(** ** Rational arithmetic                                            *)
(* ------------------------------------------------------------------ *)

Section Rationals.
Local Open Scope Q_scope.

Lemma Qmin_cases (x y : Q) :
  (x <= y /\ Qmin x y = x) \/ (y < x /\ Qmin x y = y).
Proof.
  unfold Qmin, GenericMinMax.gmin.
  destruct (Qcompare_spec x y) as [E | L | G]; [left | left | right];
    split; auto; try rewrite E; auto with qarith.
Qed.

Lemma Qmax_cases (x y : Q) :
  (y <= x /\ Qmax x y = x) \/ (x < y /\ Qmax x y = y).
Proof.
  unfold Qmax, GenericMinMax.gmax.
  destruct (Qcompare_spec x y) as [E | L | G]; [left | right | left];
    split; auto; try rewrite E; auto with qarith.
Qed.

Lemma Qle_bool_cases (x y : Q) :
  (x <= y /\ Qle_bool x y = true) \/ (y < x /\ Qle_bool x y = false).
Proof.
  destruct (Qle_bool x y) eqn:E.
  - left. split; auto. now apply Qle_bool_iff.
  - right. split; auto. apply Qnot_le_lt. intro H.
    apply Qle_bool_iff in H. congruence.
Qed.

(** On numbers that are not NaN, [end <= start] is "end is not after
    start". *)
Lemma le_not_after (s e : Q) :
  JS.le (Fin e) (Fin s) = true <-> ~ s < e.
Proof.
  cbn [JS.le]. rewrite Qle_bool_iff. split; intro H.
  - apply Qle_not_lt. exact H.
  - apply Qnot_lt_le. exact H.
Qed.

End Rationals.

(** Case analysis on every [Qmin], [Qmax] and [Qle_bool] in sight. *)
Ltac qcases :=
  repeat match goal with
  | |- context [Qmin ?a ?b] =>
      let H := fresh "Hmin" in let E := fresh "Emin" in
      destruct (Qmin_cases a b) as [[H E] | [H E]]; rewrite E in *; clear E
  | |- context [Qmax ?a ?b] =>
      let H := fresh "Hmax" in let E := fresh "Emax" in
      destruct (Qmax_cases a b) as [[H E] | [H E]]; rewrite E in *; clear E
  | |- context [Qle_bool ?a ?b] =>
      let H := fresh "Hle" in let E := fresh "Ele" in
      destruct (Qle_bool_cases a b) as [[H E] | [H E]]; rewrite E in *; clear E
  | _ : context [Qmin ?a ?b] |- _ =>
      let H := fresh "Hmin" in let E := fresh "Emin" in
      destruct (Qmin_cases a b) as [[H E] | [H E]]; rewrite E in *; clear E
  | _ : context [Qmax ?a ?b] |- _ =>
      let H := fresh "Hmax" in let E := fresh "Emax" in
      destruct (Qmax_cases a b) as [[H E] | [H E]]; rewrite E in *; clear E
  | _ : context [Qle_bool ?a ?b] |- _ =>
      let H := fresh "Hle" in let E := fresh "Ele" in
      destruct (Qle_bool_cases a b) as [[H E] | [H E]]; rewrite E in *; clear E
  end.

Section Rounding.
Local Open Scope Q_scope.

Lemma roundUpToQuarter_Fin (x : Q) : roundUpToQuarter (Fin x) = Fin (roundQ x).
Proof.
  unfold roundUpToQuarter, roundQ. simpl.
  destruct (Qle_bool x 0); reflexivity.
Qed.

Lemma toHours_Fin (x : Q) : toHours (Fin x) = Fin (hoursQ x).
Proof. reflexivity. Qed.

Lemma roundQ_nonpos (x : Q) : x <= 0 -> roundQ x = 0.
Proof.
  intro H. unfold roundQ.
  destruct (Qle_bool_cases x 0) as [[_ E] | [L _]]; [now rewrite E | lra].
Qed.

Lemma roundQ_pos (x : Q) :
  0 < x -> roundQ x = inject_Z (Qceiling (x / 15)) * 15.
Proof.
  intro H. unfold roundQ.
  destruct (Qle_bool_cases x 0) as [[L _] | [_ E]]; [lra | now rewrite E].
Qed.

(** The rounded value is a non-negative multiple of 15 ... *)
Lemma roundQ_multiple (x : Q) :
  exists k : Z, (0 <= k)%Z /\ roundQ x == inject_Z (15 * k).
Proof.
  destruct (Qlt_le_dec 0 x) as [P | N].
  - exists (Qceiling (x / 15)). split.
    + assert (H : 0 < x / 15) by (apply Qlt_shift_div_l; lra).
      assert (C := Qle_ceiling (x / 15)).
      assert (L : inject_Z 0 < inject_Z (Qceiling (x / 15))) by
        (change (inject_Z 0) with 0; lra).
      rewrite <- Zlt_Qlt in L. lia.
    + rewrite (roundQ_pos x P), inject_Z_mult. change (inject_Z 15) with 15. ring.
  - exists 0%Z. split; [lia | ]. rewrite (roundQ_nonpos x N). reflexivity.
Qed.

(** ... that is not below the raw value and less than 15 above it. *)
Lemma roundQ_ge (x : Q) : x <= roundQ x.
Proof.
  destruct (Qlt_le_dec 0 x) as [P | N].
  - rewrite (roundQ_pos x P).
    assert (C := Qle_ceiling (x / 15)).
    assert (E : x == x / 15 * 15) by (field).
    lra.
  - rewrite (roundQ_nonpos x N). exact N.
Qed.

Lemma roundQ_nonneg (x : Q) : 0 <= roundQ x.
Proof.
  destruct (roundQ_multiple x) as [k [K E]]. rewrite E.
  change 0 with (inject_Z 0). rewrite <- Zle_Qle. lia.
Qed.

Lemma roundQ_lt (x : Q) : 0 < x -> roundQ x < x + 15.
Proof.
  intro P. rewrite (roundQ_pos x P).
  assert (C := Qceiling_lt (x / 15)).
  unfold Z.sub in C. rewrite inject_Z_plus in C.
  change (inject_Z (- (1))%Z) with (-1) in C.
  assert (E : x == x / 15 * 15) by (field).
  lra.
Qed.

(** It is the least such multiple. *)
Lemma roundQ_least (x : Q) (k : Z) :
  (0 <= k)%Z -> x <= inject_Z (15 * k) -> roundQ x <= inject_Z (15 * k).
Proof.
  intros K H.
  destruct (Qlt_le_dec 0 x) as [P | N].
  - rewrite (roundQ_pos x P).
    assert (L : x / 15 <= inject_Z k).
    { apply Qle_shift_div_r; [lra | ].
      rewrite inject_Z_mult in H. change (inject_Z 15) with 15 in H. lra. }
    apply Qceiling_resp_le in L. rewrite Qceiling_Z in L.
    rewrite Zle_Qle in L. rewrite inject_Z_mult. change (inject_Z 15) with 15.
    lra.
  - rewrite (roundQ_nonpos x N). change 0 with (inject_Z 0).
    rewrite <- Zle_Qle. lia.
Qed.

(** Rounding the segments one by one never pays less than rounding their
    sum. *)
Lemma roundQ_sum3 (a b c : Q) :
  roundQ (a + b + c) <= roundQ a + roundQ b + roundQ c.
Proof.
  destruct (roundQ_multiple a) as [ka [Ka Ea]].
  destruct (roundQ_multiple b) as [kb [Kb Eb]].
  destruct (roundQ_multiple c) as [kc [Kc Ec]].
  assert (S : roundQ a + roundQ b + roundQ c == inject_Z (15 * (ka + kb + kc))).
  { rewrite Ea, Eb, Ec, !inject_Z_mult, !inject_Z_plus. ring. }
  rewrite S. apply roundQ_least; [lia | ].
  rewrite <- S.
  assert (Ga := roundQ_ge a). assert (Gb := roundQ_ge b).
  assert (Gc := roundQ_ge c). lra.
Qed.

Lemma hoursQ_mono (x y : Q) : x <= y -> hoursQ x <= hoursQ y.
Proof.
  intro H. unfold hoursQ.
  assert (L : x / 60 * 100 + (1 # 2) <= y / 60 * 100 + (1 # 2)).
  { assert (Ex : x / 60 * 100 == x * (5 # 3)) by field.
    assert (Ey : y / 60 * 100 == y * (5 # 3)) by field. lra. }
  apply Qfloor_resp_le in L. rewrite Zle_Qle in L.
  apply Qle_shift_div_l; [lra | ].
  assert (E : inject_Z (Qfloor (x / 60 * 100 + (1 # 2))) / 100 * 100
              == inject_Z (Qfloor (x / 60 * 100 + (1 # 2)))) by field.
  lra.
Qed.

Lemma hoursQ_240 : hoursQ 240 == 4.
Proof. vm_compute. reflexivity. Qed.

Lemma hoursQ_comp (x y : Q) : x == y -> hoursQ x == hoursQ y.
Proof. intro H. unfold hoursQ. rewrite H. reflexivity. Qed.

(** Four hours are paid as soon as 240 minutes are. *)
Lemma paid_four_hours (q : Q) :
  240 <= q -> (Fin 4 <=? toHours (Fin q))%num = true.
Proof.
  intro H. rewrite toHours_Fin. cbn [JS.le]. apply Qle_bool_iff.
  rewrite <- hoursQ_240. apply hoursQ_mono. exact H.
Qed.

End Rounding.

(* ------------------------------------------------------------------ *)
(** ** Parsing and valid shifts                                       *)
(* ------------------------------------------------------------------ *)

Section Parsing.
Local Open Scope Q_scope.

Lemma parseBreak_Fin (brk : string) :
  exists b : Q, parseBreak brk = Fin b /\ 0 <= b.
Proof.
  unfold parseBreak. destruct (Str.Number brk) as [ | q]; simpl.
  - eexists. split; [reflexivity | ]. qcases; lra.
  - destruct (Qeq_bool q 0); simpl; eexists; (split; [reflexivity | ]);
      qcases; lra.
Qed.

(** A non-negative number typed as the break is the break requested. *)
Lemma parseBreak_requested (brk : string) (q b : Q) :
  Str.Number brk = Fin q -> 0 <= q -> parseBreak brk = Fin b -> b == q.
Proof.
  unfold parseBreak. intros -> Hq. cbn [JS.or].
  destruct (Qeq_bool q 0) eqn:E; cbn [JS.max lift2];
    intro H; injection H as <-.
  - apply Qeq_bool_eq in E. qcases; lra.
  - qcases; lra.
Qed.

Lemma parseTime_nonempty (t : string) (q : Q) :
  parseTimeToMinutes t = Fin q -> is_empty t = false.
Proof. destruct t; [discriminate | reflexivity]. Qed.

Lemma dayClass_nonempty (d : string) (c : DayClass) :
  dayClass d = Some c -> is_empty d = false.
Proof. destruct d; [discriminate | reflexivity]. Qed.

(** What the classification of a date says about the three flags. *)
Lemma dayClass_flags (d : string) (c : DayClass) :
  dayClass d = Some c ->
  match c with
  | PublicHoliday => isPublicHoliday d = true
  | Sunday => isPublicHoliday d = false /\
              is_day (getDayOfWeek d) "Sunday" = true
  | Saturday => isPublicHoliday d = false /\
                is_day (getDayOfWeek d) "Sunday" = false /\
                is_day (getDayOfWeek d) "Saturday" = true
  | Weekday => isPublicHoliday d = false /\
               is_day (getDayOfWeek d) "Sunday" = false /\
               is_day (getDayOfWeek d) "Saturday" = false
  end.
Proof.
  unfold dayClass. destruct (isPublicHoliday d).
  - intro H. injection H as <-. reflexivity.
  - destruct (getDayOfWeek d) as [x | ]; [ | discriminate]. simpl.
    destruct (String.eqb x "Sunday"); [intro H; injection H as <-; auto | ].
    destruct (String.eqb x "Saturday"); intro H; injection H as <-; auto.
Qed.

Lemma locals_valid (dateStr startStr endStr brk : string) (c : DayClass)
    (s e : Q) :
  valid_shift dateStr startStr endStr c s e ->
  locals dateStr startStr endStr brk =
    Some (body (getDayOfWeek dateStr) (isPublicHoliday dateStr)
               (Fin s) (Fin e) (parseBreak brk)).
Proof.
  intros [C [S [E [_ [L _]]]]]. unfold locals.
  rewrite (dayClass_nonempty _ _ C), (parseTime_nonempty _ _ S),
          (parseTime_nonempty _ _ E), S, E.
  simpl. unfold rules. simpl.
  destruct (Qle_bool_cases e s) as [[H _] | [_ ->]]; [lra | reflexivity].
Qed.

End Parsing.

Section BreakAllocation.
Local Open Scope Q_scope.

Variables s e b : Q.
Hypothesis Hs : 0 <= s.
Hypothesis Hse : s < e.
Hypothesis He : e <= 1440.
Hypothesis Hb : 0 <= b.

(** The three bands before the break are non-negative and add up to the
    gross duration. *)
Lemma spans_sum :
  exists p m po : Q,
    spans (Fin s) (Fin e) = mkBands (Fin p) (Fin m) (Fin po) (Fin 0) /\
    0 <= p /\ 0 <= m /\ 0 <= po /\ p + m + po == e - s.
Proof.
  do 3 eexists. split; [reflexivity | ].
  change (8 * 60) with 480. change (20 * 60) with 1200.
  change (24 * 60) with 1440.
  qcases; repeat split; lra.
Qed.

(** The break is taken from the in-span band first, then from the
    pre-span band, then from the post-span band. *)
Lemma allocateBreak_cuts (p m po : Q) :
  spans (Fin s) (Fin e) = mkBands (Fin p) (Fin m) (Fin po) (Fin 0) ->
  allocateBreak (Fin s) (Fin e) (Fin b) =
    mkBands (Fin (p - cutPre p m b)) (Fin (m - cutMid m b))
            (Fin (po - cutPost p m po b))
            (Fin (b - cutMid m b - cutPre p m b - cutPost p m po b)).
Proof. intro H. unfold allocateBreak. rewrite H. reflexivity. Qed.

Lemma cuts_capped (p m po : Q) :
  0 <= p -> 0 <= m -> 0 <= po ->
  (0 <= cutMid m b /\ cutMid m b <= m) /\
  (0 <= cutPre p m b /\ cutPre p m b <= p) /\
  (0 <= cutPost p m po b /\ cutPost p m po b <= po).
Proof.
  intros P M PO. unfold cutPost, cutPre, cutMid.
  qcases; repeat split; lra.
Qed.

Lemma cuts_total (p m po : Q) :
  0 <= p -> 0 <= m -> 0 <= po ->
  cutMid m b + cutPre p m b + cutPost p m po b == Qmin b (p + m + po).
Proof.
  intros P M PO. unfold cutPost, cutPre, cutMid.
  qcases; lra.
Qed.

End BreakAllocation.

Section ValidShifts.

(** Finite times and a finite break leave finite bands. *)
Lemma bands_Fin (s e b : Q) :
  exists p' m' po' rem : Q,
    allocateBreak (Fin s) (Fin e) (Fin b) =
      mkBands (Fin p') (Fin m') (Fin po') (Fin rem).
Proof. do 4 eexists. reflexivity. Qed.

(** On a valid shift the call reaches the end of the body, with a finite
    break and finite bands. *)
Lemma valid_shift_body (dateStr startStr endStr brk : string) (c : DayClass)
    (s e : Q) :
  valid_shift dateStr startStr endStr c s e ->
  exists (b p' m' po' rem : Q),
    locals dateStr startStr endStr brk =
      Some (body (getDayOfWeek dateStr) (isPublicHoliday dateStr)
                 (Fin s) (Fin e) (Fin b)) /\
    applyRules dateStr startStr endStr brk =
      Some (result (body (getDayOfWeek dateStr) (isPublicHoliday dateStr)
                         (Fin s) (Fin e) (Fin b))) /\
    allocateBreak (Fin s) (Fin e) (Fin b) =
      mkBands (Fin p') (Fin m') (Fin po') (Fin rem).
Proof.
  intro V. pose proof (locals_valid _ _ _ brk _ _ _ V) as HL.
  destruct (parseBreak_Fin brk) as [b [B _]].
  destruct (bands_Fin s e b) as (p' & m' & po' & rem & HB).
  exists b, p', m', po', rem. rewrite B in HL.
  split; [exact HL | ]. split; [ | exact HB].
  unfold applyRules. rewrite HL. reflexivity.
Qed.

End ValidShifts.

Section Holiday.

(** With the holiday flag set, classification and rounding ignore the
    weekday flags. *)
Lemma holiday_buckets (su we : bool) (p' m' po' rem : Q) (w : num) :
  let r := classify true su we (mkBands (Fin p') (Fin m') (Fin po') (Fin rem))
                    w in
  r = mkRaw (Fin 0) [] (Fin 0) (Fin m') (Fin (p' + po')) /\
  roundBuckets true su we r =
    mkBuckets (Fin 0) (Fin 0) (Fin (roundQ m')) (Fin (roundQ (p' + po'))).
Proof.
  cbn -[roundUpToQuarter]. rewrite !roundUpToQuarter_Fin. split; reflexivity.
Qed.

End Holiday.

Section Meals.
Local Open Scope Q_scope.

(** The in-span excess over the ordinary minutes is the excess over 420. *)
Lemma excess_over_420 (m : Q) : Qmax 0 (m - Qmin m 420) == Qmax 0 (m - 420).
Proof. qcases; lra. Qed.

Lemma gt_comp (x y c : Q) :
  x == y -> (Fin x >? Fin c)%num = (Fin y >? Fin c)%num.
Proof.
  intro H. cbn [JS.gt JS.lt].
  destruct (Qle_bool_cases x c) as [[L1 ->] | [L1 ->]];
    destruct (Qle_bool_cases y c) as [[L2 ->] | [L2 ->]];
    try reflexivity; lra.
Qed.

End Meals.

(* ------------------------------------------------------------------ *)
(** ** Properties of the engine                                       *)
(* ------------------------------------------------------------------ *)

(** On a concrete shift the side conditions of [valid_shift] are decided
    by evaluation. *)
Ltac solve_valid :=
  repeat split; try reflexivity; unfold Qle, Qlt; simpl; lia.

(** C1.  On a public holiday the paid minutes after rounding are
    ph15 + ph25, on a Sunday they are ot20.  When they are below 240 the
    shortfall is added to ph25 (holiday) or ot20 (Sunday), the paid minutes
    become 240 and minimumRuleApplied is true; in every case paidHours is
    at least 4.  On a weekday or a Saturday the rule never fires.  A Sunday
    09:00-12:00 shift without break goes from 3 to 4 paid hours. *)
Theorem minimum_payment_floor :
  (forall (dateStr startStr endStr brk : string) (c : DayClass) (s e : Q),
     valid_shift dateStr startStr endStr c s e ->
     exists l : Locals,
       locals dateStr startStr endStr brk = Some l /\
       applyRules dateStr startStr endStr brk = Some (result l) /\
       match c with
       | PublicHoliday =>
           let paid :=
             (ph15Minutes (rounded l) + ph25Minutes (rounded l))%num in
           ((paid <? Fin 240)%num = true ->
              minimumRuleApplied l = true /\
              ph25Minutes (final l) =
                (ph25Minutes (rounded l) + (Fin 240 - paid))%num /\
              ph15Minutes (final l) = ph15Minutes (rounded l) /\
              (ph15Minutes (final l) + ph25Minutes (final l))%num
                =n= Fin 240 /\
              paidMinutes l = Fin 240) /\
           ((paid <? Fin 240)%num = false ->
              minimumRuleApplied l = false /\ final l = rounded l /\
              paidMinutes l = paid) /\
           (Fin 4 <=? paidHours (result l))%num = true
       | Sunday =>
           let paid := ot20Minutes (rounded l) in
           ((paid <? Fin 240)%num = true ->
              minimumRuleApplied l = true /\
              ot20Minutes (final l) =
                (ot20Minutes (rounded l) + (Fin 240 - paid))%num /\
              ot20Minutes (final l) =n= Fin 240 /\
              paidMinutes l = Fin 240) /\
           ((paid <? Fin 240)%num = false ->
              minimumRuleApplied l = false /\ final l = rounded l /\
              paidMinutes l = paid) /\
           (Fin 4 <=? paidHours (result l))%num = true
       | Weekday | Saturday =>
           minimumRuleApplied l = false /\ final l = rounded l /\
           r_minimumRuleApplied (result l) = false
       end)
  /\
  (exists l : Locals,
     locals "2024-01-07" "09:00" "12:00" "0" = Some l /\
     dayClass "2024-01-07" = Some Sunday /\
     toHours (ot20Minutes (rounded l)) =n= Fin 3 /\
     minimumRuleApplied l = true /\
     overtime20 (result l) =n= Fin 4 /\
     paidHours (result l) =n= Fin 4).
Proof.
  split.
  - intros dateStr startStr endStr brk c s e V.
    destruct (valid_shift_body _ _ _ brk _ _ _ V)
      as (b & p' & m' & po' & rem & HL & HA & HB).
    destruct V as [C _]. apply dayClass_flags in C.
    eexists. split; [exact HL | ]. split; [exact HA | ].
    unfold body. rewrite HB.
    cbn [rounded final minimumRuleApplied paidMinutes result paidHours
         r_minimumRuleApplied].
    destruct c.
    + destruct C as (PH & SU & SA). rewrite PH, SU, SA.
      repeat split; reflexivity.
    + destruct C as (PH & SU & SA). rewrite PH, SU, SA.
      repeat split; reflexivity.
    + destruct C as (PH & SU). rewrite PH, SU, orb_true_r.
      cbn -[roundUpToQuarter toHours JS.lt JS.le JS.add JS.sub minimumRule].
      change (Fin p' + Fin m' + Fin po')%num with (Fin (p' + m' + po')).
      rewrite roundUpToQuarter_Fin. set (q := roundQ (p' + m' + po')).
      unfold minimumRule. cbn [JS.lt orb andb].
      destruct (Qle_bool_cases 240 q) as [[L ->] | [L ->]];
        cbn [negb fst snd].
      * split; [discriminate | ]. split; [auto | ].
        apply paid_four_hours. exact L.
      * split; [ | split; [discriminate | ]].
        -- intros _. cbn [ot20Minutes JS.add JS.sub lift2 eqn].
           repeat split; try reflexivity. ring.
        -- apply paid_four_hours. lra.
    + rewrite C.
      match goal with
      | |- context [classify true ?su ?we ?bb ?w] =>
          destruct (holiday_buckets su we p' m' po' rem w) as [_ HK];
          cbv zeta in HK; rewrite !HK
      end.
      cbn [paidBeforeFloor ph15Minutes ph25Minutes JS.add lift2].
      set (q := (roundQ m' + roundQ (p' + po'))%Q).
      unfold minimumRule. cbn [JS.lt orb andb].
      destruct (Qle_bool_cases 240 q) as [[L ->] | [L ->]];
        cbn [negb fst snd].
      * split; [discriminate | ]. split; [auto | ].
        apply paid_four_hours. exact L.
      * split; [ | split; [discriminate | ]].
        -- intros _. cbn [ph15Minutes ph25Minutes JS.add JS.sub lift2 eqn].
           repeat split; try reflexivity. unfold q. ring.
        -- apply paid_four_hours. lra.
  - eexists. split; [vm_compute; reflexivity | ].
    repeat split; vm_compute; reflexivity.
Qed.

Lemma minimum_payment_floor_witness :
  exists l : Locals,
    locals "2024-01-07" "09:00" "12:00" "0" = Some l /\
    (Fin 4 <=? paidHours (result l))%num = true.
Proof.
  assert (V : valid_shift "2024-01-07" "09:00" "12:00" Sunday 540 720)
    by solve_valid.
  destruct (proj1 minimum_payment_floor _ _ _ "0" _ _ _ V)
    as (l & HL & _ & _ & _ & H4).
  exists l. split; [exact HL | exact H4].
Defined.

(** C2.  For every valid shift the unpaid break is taken from the in-span
    band first, then the pre-span band, then the post-span band, each cut
    capped at what the band holds, and the minutes taken in total are the
    minimum of the requested break and the gross duration.  A 07:00-21:00
    shift with a 90-minute break keeps pre = 60 and post = 60 and has
    in = 630. *)
Theorem break_allocation_order :
  (forall (dateStr startStr endStr brk : string) (c : DayClass) (s e : Q),
     valid_shift dateStr startStr endStr c s e ->
     exists (l : Locals) (b p m po : Q),
       locals dateStr startStr endStr brk = Some l /\
       breakMinutes l = Fin b /\ (0 <= b)%Q /\
       (forall q : Q, Str.Number brk = Fin q -> (0 <= q)%Q -> (b == q)%Q) /\
       spans (start l) (end_ l) = mkBands (Fin p) (Fin m) (Fin po) (Fin 0) /\
       (p + m + po == e - s)%Q /\
       bands l =
         mkBands (Fin (p - cutPre p m b)) (Fin (m - cutMid m b))
                 (Fin (po - cutPost p m po b))
                 (Fin (b - cutMid m b - cutPre p m b - cutPost p m po b)) /\
       (0 <= cutMid m b /\ cutMid m b <= m)%Q /\
       (0 <= cutPre p m b /\ cutPre p m b <= p)%Q /\
       (0 <= cutPost p m po b /\ cutPost p m po b <= po)%Q /\
       (cutMid m b + cutPre p m b + cutPost p m po b == Qmin b (e - s))%Q)
  /\
  (exists l : Locals,
     locals "2024-01-03" "07:00" "21:00" "90" = Some l /\
     spans (start l) (end_ l) = mkBands (Fin 60) (Fin 720) (Fin 60) (Fin 0) /\
     bands l = mkBands (Fin 60) (Fin 630) (Fin 60) (Fin 0)).
Proof.
  split.
  - intros dateStr startStr endStr brk c s e V.
    destruct (parseBreak_Fin brk) as [b [B Bpos]].
    destruct V as [C [S [E [Hs [Hse He]]]]].
    destruct (spans_sum s e Hs Hse He) as [p [m [po [Sp [P [M [PO Sum]]]]]]].
    exists (body (getDayOfWeek dateStr) (isPublicHoliday dateStr)
                 (Fin s) (Fin e) (parseBreak brk)), b, p, m, po.
    split; [apply (locals_valid _ _ _ _ c); repeat split; assumption | ].
    split; [exact B | ]. split; [exact Bpos | ].
    split; [intros q N Hq; exact (parseBreak_requested brk q b N Hq B) | ].
    split; [exact Sp | ]. split; [exact Sum | ].
    split; [simpl; rewrite B; apply allocateBreak_cuts; exact Sp | ].
    destruct (cuts_capped b Bpos p m po P M PO) as [Cm [Cp Cpo]].
    split; [exact Cm | ]. split; [exact Cp | ]. split; [exact Cpo | ].
    rewrite <- Sum. apply cuts_total; assumption.
  - eexists. split; [vm_compute; reflexivity | ].
    split; vm_compute; reflexivity.
Qed.

Lemma break_allocation_order_witness :
  exists l : Locals,
    locals "2024-01-03" "07:00" "21:00" "90" = Some l /\
    breakMinutes l = Fin 90.
Proof.
  assert (V : valid_shift "2024-01-03" "07:00" "21:00" Weekday 420 1260)
    by solve_valid.
  destruct (proj1 break_allocation_order _ _ _ "90" _ _ _ V)
    as (l & b & p & m & po & HL & _).
  exists l. split; [exact HL | ].
  vm_compute in HL. injection HL as <-. reflexivity.
Defined.

(** C3.  On a weekday that is not a public holiday the ordinary minutes
    are min(in-span minutes after the break, 420); the pre-span minutes,
    the in-span excess over 420 and the post-span minutes are three
    overtime segments, each rounded up to a quarter of an hour on its own,
    summed to otTotalRounded and tiered as ot15 = min(120, otTotalRounded),
    ot20 = max(0, otTotalRounded - 120).  Wednesday 2024-01-03, 08:00-17:00
    with a 30-minute break: 7 ordinary hours, 1.5 hours at 1.5x, none at
    2.0x, 8.5 paid hours. *)
Theorem weekday_ordinary_and_overtime :
  (forall (dateStr startStr endStr brk : string) (s e : Q),
     valid_shift dateStr startStr endStr Weekday s e ->
     exists (l : Locals) (p' m' po' : Q),
       locals dateStr startStr endStr brk = Some l /\
       applyRules dateStr startStr endStr brk = Some (result l) /\
       pre (bands l) = Fin p' /\ mid (bands l) = Fin m' /\
       post (bands l) = Fin po' /\
       ordinaryMinutes (raw l) = Fin (Qmin m' 420) /\
       exists extra : Q,
         (extra == Qmax 0 (m' - 420))%Q /\
         otSegments (raw l) = [Fin p'; Fin extra; Fin po'] /\
         let total := (roundQ p' + roundQ extra + roundQ po')%Q in
         otTotalRounded (otSegments (raw l)) =n= Fin total /\
         ot15Minutes (final l) =n= Fin (Qmin 120 total) /\
         ot20Minutes (final l) =n= Fin (Qmax 0 (total - 120)) /\
         ph15Minutes (final l) = Fin 0 /\ ph25Minutes (final l) = Fin 0 /\
         paidMinutes l =n=
           Fin (Qmin m' 420 + Qmin 120 total + Qmax 0 (total - 120)))
  /\
  (exists r : CalculationResult,
     applyRules "2024-01-03" "08:00" "17:00" "30" = Some r /\
     dayClass "2024-01-03" = Some Weekday /\
     r_dayOfWeek r = Some "Wednesday" /\
     ordinaryHours r =n= Fin 7 /\
     overtime15 r =n= Fin 1.5 /\
     overtime20 r =n= Fin 0 /\
     paidHours r =n= Fin 8.5).
Proof.
  split.
  - intros dateStr startStr endStr brk s e V.
    destruct (valid_shift_body _ _ _ brk _ _ _ V)
      as (b & p' & m' & po' & rem & HL & HA & HB).
    destruct V as [C _]. apply dayClass_flags in C.
    destruct C as (PH & SU & SA).
    eexists. exists p', m', po'. split; [exact HL | ]. split; [exact HA | ].
    unfold body. rewrite HB, PH, SU, SA.
    cbn -[roundUpToQuarter Qmin Qmax Qplus Qminus Qmult].
    rewrite !roundUpToQuarter_Fin.
    cbn -[Qmin Qmax Qplus Qminus Qmult roundQ].
    change (7 * 60)%Q with 420%Q.
    repeat (split; [reflexivity | ]).
    exists (Qmax 0 (m' - Qmin m' 420)).
    split; [qcases; lra | ]. split; [reflexivity | ].
    set (ra := roundQ p'). set (rx := roundQ _). set (rc := roundQ po').
    assert (E : (0 + ra + rx + rc == ra + rx + rc)%Q) by ring.
    rewrite E. repeat split; reflexivity.
  - eexists. split; [vm_compute; reflexivity | ].
    repeat split; vm_compute; reflexivity.
Qed.

Lemma weekday_ordinary_and_overtime_witness :
  exists l : Locals,
    locals "2024-01-03" "08:00" "17:00" "30" = Some l /\
    ordinaryMinutes (raw l) = Fin 420.
Proof.
  assert (V : valid_shift "2024-01-03" "08:00" "17:00" Weekday 480 1020)
    by solve_valid.
  destruct (proj1 weekday_ordinary_and_overtime _ _ _ "30" _ _ V)
    as (l & p' & m' & po' & HL & _).
  exists l. split; [exact HL | ].
  vm_compute in HL. injection HL as <-. reflexivity.
Defined.

(** C4.  A date of the public-holiday set is processed as a public holiday
    whatever its weekday, Saturdays and Sundays included: the in-span
    minutes after the break are the 1.5x bucket, the pre-span plus
    post-span minutes are the 2.5x bucket, each bucket rounded up to a
    quarter of an hour on its own; there are no ordinary minutes, no
    overtime segments and no Sunday bucket.  2024-01-01, 06:00-22:00 with a
    60-minute break: ph15 = 660, ph25 = 240, 15 paid hours, no floor. *)
Theorem holiday_overrides_weekday :
  (forall (dateStr startStr endStr brk : string) (s e : Q),
     valid_shift dateStr startStr endStr PublicHoliday s e ->
     exists (l : Locals) (p' m' po' : Q),
       locals dateStr startStr endStr brk = Some l /\
       applyRules dateStr startStr endStr brk = Some (result l) /\
       r_isPublicHoliday (result l) = true /\
       pre (bands l) = Fin p' /\ mid (bands l) = Fin m' /\
       post (bands l) = Fin po' /\
       raw l = mkRaw (Fin 0) [] (Fin 0) (Fin m') (Fin (p' + po')) /\
       rounded l =
         mkBuckets (Fin 0) (Fin 0) (Fin (roundQ m'))
                   (Fin (roundQ (p' + po'))) /\
       ot15Minutes (final l) = Fin 0 /\ ot20Minutes (final l) = Fin 0 /\
       ph15Minutes (final l) = Fin (roundQ m') /\
       ph25Minutes (final l) =n=
         Fin (Qmax (roundQ (p' + po')) (240 - roundQ m')) /\
       ordinaryHours (result l) =n= Fin 0 /\
       overtime15 (result l) =n= Fin 0 /\
       overtime20 (result l) =n= Fin 0)
  /\
  (dayClass "2016-03-26" = Some PublicHoliday /\
   getDayOfWeek "2016-03-26" = Some "Saturday" /\
   dayClass "2016-03-27" = Some PublicHoliday /\
   getDayOfWeek "2016-03-27" = Some "Sunday")
  /\
  (exists l : Locals,
     locals "2024-01-01" "06:00" "22:00" "60" = Some l /\
     dayClass "2024-01-01" = Some PublicHoliday /\
     bands l = mkBands (Fin 120) (Fin 660) (Fin 120) (Fin 0) /\
     ph15Minutes (final l) = Fin 660 /\
     ph25Minutes (final l) = Fin 240 /\
     paidHours (result l) =n= Fin 15 /\
     minimumRuleApplied l = false).
Proof.
  split; [ | split].
  - intros dateStr startStr endStr brk s e V.
    destruct (valid_shift_body _ _ _ brk _ _ _ V)
      as (b & p' & m' & po' & rem & HL & HA & HB).
    destruct V as [C _]. apply dayClass_flags in C.
    eexists. exists p', m', po'. split; [exact HL | ]. split; [exact HA | ].
    unfold body. rewrite HB, C.
    cbn [result r_isPublicHoliday isPH bands raw rounded final
         ordinaryHours overtime15 overtime20 pre mid post].
    match goal with
    | |- context [classify true ?su ?we ?bb ?w] =>
        destruct (holiday_buckets su we p' m' po' rem w) as [HR HK];
        cbv zeta in HR, HK; rewrite HK, HR
    end.
    repeat (split; [reflexivity | ]).
    cbn [paidBeforeFloor ph15Minutes ph25Minutes JS.add lift2].
    unfold minimumRule. cbn [JS.lt orb andb].
    set (q15 := roundQ m'). set (q25 := roundQ (p' + po')).
    destruct (Qle_bool_cases 240 (q15 + q25)) as [[L ->] | [L ->]];
      cbn [negb fst snd ot15Minutes ot20Minutes ph15Minutes ph25Minutes
           ordinaryMinutes JS.add JS.sub lift2 eqn];
      repeat (split; [reflexivity | ]);
      (split; [qcases; lra | ]);
      repeat split; vm_compute; reflexivity.
  - repeat split; vm_compute; reflexivity.
  - eexists. split; [vm_compute; reflexivity | ].
    repeat split; vm_compute; reflexivity.
Qed.

Lemma holiday_overrides_weekday_witness :
  exists l : Locals,
    locals "2024-01-01" "06:00" "22:00" "60" = Some l /\
    ot20Minutes (final l) = Fin 0.
Proof.
  assert (V : valid_shift "2024-01-01" "06:00" "22:00" PublicHoliday 360 1320)
    by solve_valid.
  destruct (proj1 holiday_overrides_weekday _ _ _ "60" _ _ V)
    as (l & p' & m' & po' & HL & _ & _ & _ & _ & _ & _ & _ & _ & H20 & _).
  exists l. split; [exact HL | exact H20].
Defined.

(** C5.  On a Sunday that is not a public holiday all the minutes worked
    after the break go into one raw bucket, rounded up to a quarter of an
    hour once, as a whole, and paid at 2.0x (ot20); there are no ordinary
    minutes and nothing at 1.5x. *)
Theorem sunday_single_bucket
    (dateStr startStr endStr brk : string) (s e : Q) :
  valid_shift dateStr startStr endStr Sunday s e ->
  exists (l : Locals) (p' m' po' : Q),
    locals dateStr startStr endStr brk = Some l /\
    applyRules dateStr startStr endStr brk = Some (result l) /\
    pre (bands l) = Fin p' /\ mid (bands l) = Fin m' /\
    post (bands l) = Fin po' /\
    raw l = mkRaw (Fin 0) [] (Fin (p' + m' + po')) (Fin 0) (Fin 0) /\
    rounded l =
      mkBuckets (Fin 0) (Fin (roundQ (p' + m' + po'))) (Fin 0) (Fin 0) /\
    ot15Minutes (final l) = Fin 0 /\
    ot20Minutes (final l) =n= Fin (Qmax 240 (roundQ (p' + m' + po'))) /\
    ph15Minutes (final l) = Fin 0 /\ ph25Minutes (final l) = Fin 0 /\
    paidMinutes l =n= ot20Minutes (final l) /\
    ordinaryHours (result l) =n= Fin 0 /\
    overtime15 (result l) =n= Fin 0 /\
    overtime20 (result l) =n= paidHours (result l).
Proof.
  intro V.
  destruct (valid_shift_body _ _ _ brk _ _ _ V)
    as (b & p' & m' & po' & rem & HL & HA & HB).
  destruct V as [C _]. apply dayClass_flags in C. destruct C as (PH & SU).
  eexists. exists p', m', po'. split; [exact HL | ]. split; [exact HA | ].
  unfold body. rewrite HB, PH, SU, orb_true_r.
  cbn -[roundUpToQuarter toHours minimumRule Qplus].
  rewrite roundUpToQuarter_Fin. set (q := roundQ (p' + m' + po')).
  repeat (split; [reflexivity | ]).
  unfold minimumRule. cbn [JS.lt orb andb].
  destruct (Qle_bool_cases 240 q) as [[L ->] | [L ->]];
    cbn [negb fst snd ot15Minutes ot20Minutes ph15Minutes ph25Minutes
         JS.add JS.sub lift2 eqn];
    (split; [reflexivity | ]); (split; [qcases; lra | ]);
    (split; [reflexivity | ]); (split; [reflexivity | ]);
    (split; [ring | ]);
    (split; [vm_compute; reflexivity | ]);
    (split; [vm_compute; reflexivity | ]);
    rewrite !toHours_Fin; cbn [eqn]; apply hoursQ_comp; ring.
Qed.

Lemma sunday_single_bucket_witness :
  exists l : Locals,
    locals "2024-01-07" "08:00" "14:10" "0" = Some l /\
    rounded l = mkBuckets (Fin 0) (Fin 375) (Fin 0) (Fin 0).
Proof.
  assert (V : valid_shift "2024-01-07" "08:00" "14:10" Sunday 480 850)
    by solve_valid.
  destruct (sunday_single_bucket _ _ _ "0" _ _ V)
    as (l & p' & m' & po' & HL & _).
  exists l. split; [exact HL | ].
  vm_compute in HL. injection HL as <-. reflexivity.
Defined.

(** C6.  On a Saturday or a weekday each raw overtime segment is rounded
    up to a quarter of an hour before the segments are summed, so the
    rounded total is never below, and can be strictly above, the rounding
    of the summed raw minutes: three separate 5-minute segments give
    15 + 15 + 15 = 45 rounded minutes, one 15-minute segment gives 15. *)
Theorem segments_round_independently :
  (forall (dateStr startStr endStr brk : string) (c : DayClass) (s e : Q),
     valid_shift dateStr startStr endStr c s e ->
     c = Weekday \/ c = Saturday ->
     exists (l : Locals) (a x z : Q),
       locals dateStr startStr endStr brk = Some l /\
       otSegments (raw l) = [Fin a; Fin x; Fin z] /\
       otTotalRounded (otSegments (raw l)) =n=
         Fin (roundQ a + roundQ x + roundQ z) /\
       (ot15Minutes (rounded l) + ot20Minutes (rounded l))%num =n=
         Fin (roundQ a + roundQ x + roundQ z) /\
       (roundQ (a + x + z) <= roundQ a + roundQ x + roundQ z)%Q)
  /\
  (exists l3 l1 : Locals,
     locals "2024-01-03" "07:55" "20:05" "295" = Some l3 /\
     otSegments (raw l3) = [Fin 5; Fin 5; Fin 5] /\
     otTotalRounded (otSegments (raw l3)) =n= Fin 45 /\
     locals "2024-01-03" "07:45" "08:00" "0" = Some l1 /\
     otSegments (raw l1) = [Fin 15; Fin 0; Fin 0] /\
     otTotalRounded (otSegments (raw l1)) =n= Fin 15 /\
     roundUpToQuarter (Fin 5 + Fin 5 + Fin 5) =n= Fin 15 /\
     (otTotalRounded (otSegments (raw l1))
        <? otTotalRounded (otSegments (raw l3)))%num = true)
  /\
  (exists l3 : Locals,
     locals "2024-01-06" "07:55" "20:05" "715" = Some l3 /\
     dayClass "2024-01-06" = Some Saturday /\
     otSegments (raw l3) = [Fin 5; Fin 5; Fin 5] /\
     otTotalRounded (otSegments (raw l3)) =n= Fin 45).
Proof.
  split; [ | split].
  - intros dateStr startStr endStr brk c s e V Hc.
    destruct (valid_shift_body _ _ _ brk _ _ _ V)
      as (b & p' & m' & po' & rem & HL & HA & HB).
    destruct V as [C _]. apply dayClass_flags in C.
    eexists.
    destruct Hc as [-> | ->]; destruct C as (PH & SU & SA).
    + exists p', (Qmax 0 (m' - Qmin m' 420)), po'.
      split; [exact HL | ].
      unfold body. rewrite HB, PH, SU, SA.
      cbn -[roundUpToQuarter Qmin Qmax Qplus Qminus Qmult].
      rewrite !roundUpToQuarter_Fin.
      cbn -[Qmin Qmax Qplus Qminus Qmult roundQ].
      change (7 * 60)%Q with 420%Q.
      split; [reflexivity | ].
      set (ra := roundQ p'). set (rx := roundQ _). set (rc := roundQ po').
      split; [ring | ].
      split; [ | apply roundQ_sum3].
      assert (N : (0 <= ra + rx + rc)%Q).
      { assert (Na := roundQ_nonneg p'). assert (Nc := roundQ_nonneg po').
        assert (Nx := roundQ_nonneg (Qmax 0 (m' - Qmin m' 420))).
        fold ra in Na. fold rx in Nx. fold rc in Nc. lra. }
      qcases; lra.
    + exists p', m', po'.
      split; [exact HL | ].
      unfold body. rewrite HB, PH, SU, SA.
      cbn -[roundUpToQuarter Qmin Qmax Qplus Qminus Qmult].
      rewrite !roundUpToQuarter_Fin.
      cbn -[Qmin Qmax Qplus Qminus Qmult roundQ].
      split; [reflexivity | ].
      set (ra := roundQ p'). set (rx := roundQ m'). set (rc := roundQ po').
      split; [ring | ].
      split; [ | apply roundQ_sum3].
      assert (N : (0 <= ra + rx + rc)%Q).
      { assert (Na := roundQ_nonneg p'). assert (Nc := roundQ_nonneg po').
        assert (Nx := roundQ_nonneg m').
        fold ra in Na. fold rx in Nx. fold rc in Nc. lra. }
      qcases; lra.
  - do 2 eexists. split; [vm_compute; reflexivity | ].
    split; [vm_compute; reflexivity | ]. split; [vm_compute; reflexivity | ].
    split; [vm_compute; reflexivity | ].
    repeat split; vm_compute; reflexivity.
  - eexists. split; [vm_compute; reflexivity | ].
    repeat split; vm_compute; reflexivity.
Qed.

Lemma segments_round_independently_witness :
  exists l : Locals,
    locals "2024-01-03" "07:55" "20:05" "295" = Some l /\
    otSegments (raw l) = [Fin 5; Fin 5; Fin 5].
Proof.
  assert (V : valid_shift "2024-01-03" "07:55" "20:05" Weekday 475 1205)
    by solve_valid.
  destruct (proj1 segments_round_independently _ _ _ "295" _ _ _ V
                  (or_introl eq_refl))
    as (l & a & x & z & HL & _).
  exists l. split; [exact HL | ].
  vm_compute in HL. injection HL as <-. reflexivity.
Defined.

(** The spec's MalformedTime case: a time that does not parse is NaN, the
    test [end <= start] is then false and the call goes on to a result
    whose hours are NaN. *)
Remark malformed_time_passes_the_guard :
  parseTimeToMinutes "0900" = NaN /\
  exists r : CalculationResult,
    applyRules "2024-01-03" "0900" "17:00" "0" = Some r /\
    paidHours r = NaN.
Proof.
  split; [reflexivity | ].
  eexists. split; [vm_compute; reflexivity | reflexivity].
Qed.

(** C7.  A call whose date, start time or end time is empty, or whose
    parsed end time is not after its parsed start time (end <= start),
    returns null: there is no result, partial or not. *)
Theorem invalid_input_rejected (dateStr startStr endStr brk : string) :
  dateStr = EmptyString \/ startStr = EmptyString \/
  endStr = EmptyString \/
  (parseTimeToMinutes endStr <=? parseTimeToMinutes startStr)%num = true \/
  (exists s e : Q,
     parseTimeToMinutes startStr = Fin s /\
     parseTimeToMinutes endStr = Fin e /\ ~ (s < e)%Q) ->
  locals dateStr startStr endStr brk = None /\
  applyRules dateStr startStr endStr brk = None.
Proof.
  intro H.
  assert (G : (is_empty dateStr || is_empty startStr || is_empty endStr
               = true)%bool \/
              (parseTimeToMinutes endStr <=? parseTimeToMinutes startStr)%num
              = true).
  { destruct H as [-> | [-> | [-> | [H | (s & e & -> & -> & H)]]]].
    - left. reflexivity.
    - left. cbn [is_empty]. apply orb_true_iff. left. apply orb_true_r.
    - left. cbn [is_empty]. apply orb_true_r.
    - right. exact H.
    - right. apply le_not_after. exact H. }
  assert (L : locals dateStr startStr endStr brk = None).
  { unfold locals. destruct G as [-> | G]; [reflexivity | ].
    destruct (is_empty dateStr || is_empty startStr || is_empty endStr);
      [reflexivity | ].
    unfold rules. rewrite G. reflexivity. }
  split; [exact L | ]. unfold applyRules. rewrite L. reflexivity.
Qed.

Lemma invalid_input_rejected_witness :
  applyRules "2024-01-03" "17:00" "08:00" "0" = None /\
  applyRules "2024-01-03" "09:00" "09:00" "0" = None /\
  applyRules "2024-01-03" EmptyString "17:00" "30" = None.
Proof.
  split; [ | split].
  - apply (invalid_input_rejected "2024-01-03" "17:00" "08:00" "0").
    right. right. right. left. reflexivity.
  - apply (invalid_input_rejected "2024-01-03" "09:00" "09:00" "0").
    right. right. right. right. exists 540%Q, 540%Q.
    split; [reflexivity | ]. split; [reflexivity | ].
    unfold Qlt. simpl. lia.
  - apply (invalid_input_rejected "2024-01-03" EmptyString "17:00" "30").
    right. left. reflexivity.
Defined.

(** C8.  Meal allowances are computed from the time worked after the
    break.  On a weekday: one allowance if the start is before 06:00, one
    more if the unrounded overtime (pre + post + in-span excess over 420)
    is above 120 minutes and the end is after 18:00, never more than 2.
    On a Saturday, a Sunday or a public holiday: 1 if workedHours > 5 and
    0 otherwise.  Every rule that fires appends its description to
    mealRules. *)
Theorem meal_allowance_rules
    (dateStr startStr endStr brk : string) (c : DayClass) (s e : Q) :
  valid_shift dateStr startStr endStr c s e ->
  exists l : Locals,
    locals dateStr startStr endStr brk = Some l /\
    applyRules dateStr startStr endStr brk = Some (result l) /\
    let b := bands l in
    let over5 := (workedHours l >? Fin 5)%num in
    workedHours l = toHours (pre b + mid b + post b) /\
    match c with
    | Weekday =>
        let c1 := (start l <? Fin 360)%num in
        let c2 :=
          ((pre b + post b + JS.max (Fin 0) (mid b - Fin 420) >? Fin 120)%num
           && (end_ l >? Fin 1080)%num)%bool in
        mealAllowances (result l) = (b2z c1 + b2z c2)%Z /\
        (mealAllowances (result l) <= 2)%Z /\
        r_mealRules (result l) =
          ((if c1 then [MEAL_BEFORE_6] else []) ++
           (if c2 then [MEAL_OVERTIME_18] else []))%list
    | Saturday | Sunday =>
        mealAllowances (result l) = b2z over5 /\
        r_mealRules (result l) = (if over5 then [MEAL_WEEKEND] else [])
    | PublicHoliday =>
        mealAllowances (result l) = b2z over5 /\
        r_mealRules (result l) =
          ((if (isWeekend l && over5)%bool then [MEAL_WEEKEND] else []) ++
           (if over5 then [MEAL_HOLIDAY] else []))%list
    end.
Proof.
  intro V.
  destruct (valid_shift_body _ _ _ brk _ _ _ V)
    as (b & p' & m' & po' & rem & HL & HA & HB).
  destruct V as [C _]. apply dayClass_flags in C.
  eexists. split; [exact HL | ]. split; [exact HA | ].
  unfold body. rewrite HB.
  cbn [bands workedHours start end_ result mealAllowances r_mealRules
       meals mealRules isWeekend pre mid post].
  split; [reflexivity | ].
  destruct c.
  - destruct C as (PH & SU & SA). rewrite PH, SU, SA.
    cbn [classify orb ordinaryMinutes mid pre post].
    unfold mealAllowance.
    cbn [negb andb pre mid post JS.add JS.sub JS.max JS.min lift2 JS.mul].
    change (7 * 60)%Q with 420%Q.
    rewrite (gt_comp _ _ 120
               (Qplus_comp _ _ (Qeq_refl (p' + po')%Q) _ _
                           (excess_over_420 m'))).
    destruct (Fin s <? Fin 360)%num;
      destruct (Fin (p' + po' + Qmax 0 (m' - 420))%Q >? Fin 120)%num;
      destruct (Fin e >? Fin 1080)%num;
      cbn; repeat split; try reflexivity; discriminate.
  - destruct C as (PH & SU & SA). rewrite PH, SU, SA.
    unfold mealAllowance. cbn [negb andb orb].
    destruct (toHours _ >? Fin 5)%num; cbn; split; reflexivity.
  - destruct C as (PH & SU). rewrite PH, SU, orb_true_r.
    unfold mealAllowance. cbn [negb andb orb].
    destruct (toHours _ >? Fin 5)%num; cbn; split; reflexivity.
  - rewrite C.
    unfold mealAllowance. cbn [negb andb orb].
    destruct (toHours _ >? Fin 5)%num;
      destruct (is_day _ "Saturday" || is_day _ "Sunday")%bool;
      cbn; split; reflexivity.
Qed.

Lemma meal_allowance_rules_witness :
  exists l : Locals,
    locals "2024-01-03" "05:00" "19:00" "30" = Some l /\
    mealAllowances (result l) = 2%Z.
Proof.
  assert (V : valid_shift "2024-01-03" "05:00" "19:00" Weekday 300 1140)
    by solve_valid.
  destruct (meal_allowance_rules _ _ _ "30" _ _ _ V) as (l & HL & _).
  exists l. split; [exact HL | ].
  vm_compute in HL. injection HL as <-. reflexivity.
Defined.

(** C9.  On a public holiday that falls on a Saturday or a Sunday, with
    more than 5 hours worked after the break, mealAllowances is 1 while
    mealRules has two entries, the weekend reason and then the holiday
    reason: more reasons are recorded than allowances are counted. *)
Theorem weekend_holiday_meal_reasons
    (dateStr startStr endStr brk : string) (s e : Q) :
  valid_shift dateStr startStr endStr PublicHoliday s e ->
  getDayOfWeek dateStr = Some "Saturday" \/
  getDayOfWeek dateStr = Some "Sunday" ->
  exists l : Locals,
    locals dateStr startStr endStr brk = Some l /\
    applyRules dateStr startStr endStr brk = Some (result l) /\
    r_isPublicHoliday (result l) = true /\
    r_isWeekend (result l) = true /\
    ((workedHours l >? Fin 5)%num = true ->
     mealAllowances (result l) = 1%Z /\
     r_mealRules (result l) = [MEAL_WEEKEND; MEAL_HOLIDAY] /\
     (mealAllowances (result l) < Z.of_nat (length (r_mealRules (result l))))%Z).
Proof.
  intros V D.
  destruct (valid_shift_body _ _ _ brk _ _ _ V)
    as (b & p' & m' & po' & rem & HL & HA & HB).
  destruct V as [C _]. apply dayClass_flags in C.
  eexists. split; [exact HL | ]. split; [exact HA | ].
  unfold body. rewrite HB, C.
  cbn [workedHours result mealAllowances r_mealRules meals mealRules
       r_isPublicHoliday r_isWeekend isPH isWeekend].
  assert (W : (is_day (getDayOfWeek dateStr) "Saturday"
               || is_day (getDayOfWeek dateStr) "Sunday")%bool = true).
  { destruct D as [-> | ->]; reflexivity. }
  rewrite W. split; [reflexivity | ]. split; [reflexivity | ].
  intro O. unfold mealAllowance. cbn [negb andb]. rewrite O.
  cbn. repeat split; reflexivity.
Qed.

Lemma weekend_holiday_meal_reasons_witness :
  exists l : Locals,
    locals "2016-03-26" "06:00" "22:00" "60" = Some l /\
    mealAllowances (result l) = 1%Z /\
    r_mealRules (result l) =
      ["More than 5 hours worked on a weekend day.";
       "More than 5 hours worked on a public holiday."].
Proof.
  assert (V : valid_shift "2016-03-26" "06:00" "22:00" PublicHoliday 360 1320)
    by solve_valid.
  destruct (weekend_holiday_meal_reasons _ _ _ "60" _ _ V
              (or_introl eq_refl))
    as (l & HL & _ & _ & _ & H).
  exists l. split; [exact HL | ].
  assert (O : (workedHours l >? Fin 5)%num = true).
  { vm_compute in HL. injection HL as <-. reflexivity. }
  destruct (H O) as (M & R & _). split; [exact M | exact R].
Defined.

(** C10.  In every result the pay buckets follow the day classification:
    publicHoliday15 and publicHoliday25 are 0 when the date is not a public
    holiday; ordinaryHours, overtime15 and overtime20 are 0 when it is; and
    ordinaryHours is 0 on every Saturday and Sunday. *)
Theorem buckets_mutually_exclusive
    (dateStr startStr endStr brk : string) (r : CalculationResult) :
  applyRules dateStr startStr endStr brk = Some r ->
  r_isPublicHoliday r = isPublicHoliday dateStr /\
  r_dayOfWeek r = getDayOfWeek dateStr /\
  (isPublicHoliday dateStr = false ->
     publicHoliday15 r =n= Fin 0 /\ publicHoliday25 r =n= Fin 0) /\
  (isPublicHoliday dateStr = true ->
     ordinaryHours r =n= Fin 0 /\ overtime15 r =n= Fin 0 /\
     overtime20 r =n= Fin 0) /\
  (r_dayOfWeek r = Some "Saturday" \/ r_dayOfWeek r = Some "Sunday" ->
     ordinaryHours r =n= Fin 0).
Proof.
  unfold applyRules, locals.
  destruct (is_empty dateStr || is_empty startStr || is_empty endStr);
    [discriminate | ].
  unfold rules.
  destruct (parseTimeToMinutes endStr <=? parseTimeToMinutes startStr)%num;
    [discriminate | ].
  cbn [option_map]. intro H. injection H as <-.
  set (d := getDayOfWeek dateStr). set (st := parseTimeToMinutes startStr).
  set (en := parseTimeToMinutes endStr). set (br := parseBreak brk).
  unfold body.
  cbn [result r_isPublicHoliday r_dayOfWeek isPH dayOfWeek publicHoliday15
       publicHoliday25 ordinaryHours overtime15 overtime20 final raw].
  split; [reflexivity | ]. split; [reflexivity | ].
  split; [ | split].
  - intros ->. unfold minimumRule, roundBuckets. cbn [orb].
    destruct (is_day d "Sunday");
      destruct (is_day d "Saturday" || true)%bool;
      destruct (is_day d "Saturday" || false)%bool;
      cbn [andb paidBeforeFloor];
      repeat match goal with
      | |- context [(?a <? Fin 240)%num] => destruct (a <? Fin 240)%num
      end;
      cbn [fst snd ph15Minutes ph25Minutes]; split; vm_compute; reflexivity.
  - intros ->. unfold minimumRule, roundBuckets, classify. cbn [orb andb].
    match goal with
    | |- context [(?a <? Fin 240)%num] => destruct (a <? Fin 240)%num
    end;
      cbn [fst snd ot15Minutes ot20Minutes ordinaryMinutes];
      repeat split; vm_compute; reflexivity.
  - intro D. unfold classify.
    assert (W : (is_day d "Saturday" || is_day d "Sunday")%bool = true).
    { destruct D as [-> | ->]; reflexivity. }
    rewrite W.
    destruct (isPublicHoliday dateStr); destruct (is_day d "Sunday");
      cbn [ordinaryMinutes]; vm_compute; reflexivity.
Qed.

Lemma buckets_mutually_exclusive_witness :
  exists r : CalculationResult,
    applyRules "2024-01-06" "09:00" "18:30" "45" = Some r /\
    publicHoliday15 r =n= Fin 0 /\ publicHoliday25 r =n= Fin 0 /\
    ordinaryHours r =n= Fin 0.
Proof.
  eexists. split; [vm_compute; reflexivity | ].
  match goal with
  | |- publicHoliday15 ?r =n= _ /\ _ =>
      destruct (buckets_mutually_exclusive
                  "2024-01-06" "09:00" "18:30" "45" r eq_refl)
        as (_ & _ & N & _ & S)
  end.
  destruct (N eq_refl) as [N15 N25].
  split; [exact N15 | ]. split; [exact N25 | ].
  apply S. left. reflexivity.
Defined.

(* ------------------------------------------------------------------ *)
(** ** Further properties                                             *)
(* ------------------------------------------------------------------ *)

Section ValidBands.
Local Open Scope Q_scope.

(** On a valid shift the bands left after the break are finite and
    non-negative, and add up to the gross duration less the break taken. *)
Lemma valid_shift_bands (dateStr startStr endStr brk : string) (c : DayClass)
    (s e : Q) :
  valid_shift dateStr startStr endStr c s e ->
  exists (b p' m' po' rem : Q),
    parseBreak brk = Fin b /\ 0 <= b /\
    locals dateStr startStr endStr brk =
      Some (body (getDayOfWeek dateStr) (isPublicHoliday dateStr)
                 (Fin s) (Fin e) (Fin b)) /\
    allocateBreak (Fin s) (Fin e) (Fin b) =
      mkBands (Fin p') (Fin m') (Fin po') (Fin rem) /\
    0 <= p' /\ 0 <= m' /\ 0 <= po' /\
    p' + m' + po' == (e - s) - Qmin b (e - s).
Proof.
  intro V. pose proof (locals_valid _ _ _ brk _ _ _ V) as HL.
  destruct V as [C [S [E [Hs [Hse He]]]]].
  destruct (parseBreak_Fin brk) as [b [B Bpos]].
  destruct (spans_sum s e Hs Hse He) as (p & m & po & Sp & P & M & PO & Sum).
  pose proof (allocateBreak_cuts s e b p m po Sp) as HB.
  destruct (cuts_capped b Bpos p m po P M PO) as [[C1 C2] [[C3 C4] [C5 C6]]].
  pose proof (cuts_total b p m po P M PO) as T.
  rewrite B in HL.
  do 5 eexists. split; [exact B | ]. split; [exact Bpos | ].
  split; [exact HL | ]. split; [exact HB | ].
  rewrite <- Sum. repeat split; lra.
Qed.

End ValidBands.

Section MinutesOfAShift.
Local Open Scope Q_scope.

(** The body of [applyRules] computes [minutesQ] on finite bands. *)
Lemma body_minutesQ_flags (dow : option string) (ph : bool)
    (s e b p' m' po' rem : Q) :
  allocateBreak (Fin s) (Fin e) (Fin b) =
    mkBands (Fin p') (Fin m') (Fin po') (Fin rem) ->
  let l := body dow ph (Fin s) (Fin e) (Fin b) in
  let q := minutesQ (classOf dow ph) p' m' po' in
  bands l = mkBands (Fin p') (Fin m') (Fin po') (Fin rem) /\
  workedMinutes l = Fin (p' + m' + po') /\
  workedHours l = Fin (hoursQ (p' + m' + po')) /\
  ordinaryMinutes (raw l) = Fin (ordQ q) /\
  final l = mkBuckets (Fin (ot15Q q)) (Fin (ot20Q q))
                      (Fin (ph15Q q)) (Fin (ph25Q q)) /\
  paidMinutes l = Fin (paidQ q) /\
  minimumRuleApplied l = flooredQ q.
Proof.
  intros HB. cbv zeta. unfold body, classOf. rewrite HB.
  cbn [bands workedMinutes workedHours raw final paidMinutes
       minimumRuleApplied pre mid post].
  split; [reflexivity | ]. split; [reflexivity | ]. split; [reflexivity | ].
  destruct ph.
  - match goal with
    | |- context [classify true ?su ?we ?bb ?w] =>
        destruct (holiday_buckets su we p' m' po' rem w) as [HR HK];
        cbv zeta in HR, HK; rewrite !HK, !HR
    end.
    cbn [paidBeforeFloor ph15Minutes ph25Minutes JS.add lift2 ordinaryMinutes].
    unfold minimumRule, minutesQ. cbn [JS.lt orb andb].
    destruct (Qle_bool 240 (roundQ m' + roundQ (p' + po')));
      cbn; repeat split; reflexivity.
  - destruct (is_day dow "Sunday") eqn:SU.
    + rewrite orb_true_r.
      cbn -[roundUpToQuarter minimumRule Qplus].
      rewrite roundUpToQuarter_Fin.
      unfold minimumRule, minutesQ. cbn [JS.lt orb andb].
      destruct (Qle_bool 240 (roundQ (p' + m' + po')));
        cbn; repeat split; reflexivity.
    + destruct (is_day dow "Saturday") eqn:SA.
      * cbn -[roundUpToQuarter Qmin Qmax Qplus Qminus Qmult].
        rewrite !roundUpToQuarter_Fin.
        cbn -[Qmin Qmax Qplus Qminus Qmult roundQ].
        repeat split; reflexivity.
      * cbn -[roundUpToQuarter Qmin Qmax Qplus Qminus Qmult].
        rewrite !roundUpToQuarter_Fin.
        cbn -[Qmin Qmax Qplus Qminus Qmult roundQ].
        change (7 * 60) with 420. repeat split; reflexivity.
Qed.

Lemma dayClass_classOf (d : string) (c : DayClass) :
  dayClass d = Some c -> classOf (getDayOfWeek d) (isPublicHoliday d) = c.
Proof.
  intro C. apply dayClass_flags in C. unfold classOf. destruct c.
  - destruct C as (-> & -> & ->). reflexivity.
  - destruct C as (-> & -> & ->). reflexivity.
  - destruct C as (-> & ->). reflexivity.
  - rewrite C. reflexivity.
Qed.

Lemma body_minutesQ (d : string) (c : DayClass) (s e b p' m' po' rem : Q) :
  dayClass d = Some c ->
  allocateBreak (Fin s) (Fin e) (Fin b) =
    mkBands (Fin p') (Fin m') (Fin po') (Fin rem) ->
  let l := body (getDayOfWeek d) (isPublicHoliday d) (Fin s) (Fin e) (Fin b) in
  let q := minutesQ c p' m' po' in
  bands l = mkBands (Fin p') (Fin m') (Fin po') (Fin rem) /\
  workedMinutes l = Fin (p' + m' + po') /\
  workedHours l = Fin (hoursQ (p' + m' + po')) /\
  ordinaryMinutes (raw l) = Fin (ordQ q) /\
  final l = mkBuckets (Fin (ot15Q q)) (Fin (ot20Q q))
                      (Fin (ph15Q q)) (Fin (ph25Q q)) /\
  paidMinutes l = Fin (paidQ q) /\
  minimumRuleApplied l = flooredQ q.
Proof.
  intros C HB. rewrite <- (dayClass_classOf d c C).
  apply body_minutesQ_flags. exact HB.
Qed.

Lemma roundQ_mono (x y : Q) : x <= y -> roundQ x <= roundQ y.
Proof.
  intro H. destruct (roundQ_multiple y) as [k [K E]].
  rewrite E. apply roundQ_least; [exact K | ].
  rewrite <- E. assert (G := roundQ_ge y). lra.
Qed.

Lemma roundQ_below (x : Q) : 0 <= x -> roundQ x < x + 15.
Proof.
  intro H. destruct (Qlt_le_dec 0 x) as [P | N].
  - apply roundQ_lt. exact P.
  - rewrite (roundQ_nonpos x N). lra.
Qed.

(** The paid minutes are the sum of the five buckets. *)
Lemma minutesQ_sum (c : DayClass) (p m po : Q) :
  let q := minutesQ c p m po in
  ordQ q + ot15Q q + ot20Q q + ph15Q q + ph25Q q == paidQ q.
Proof.
  destruct c; cbn -[Qplus Qminus Qmin Qmax roundQ Qle_bool];
    try destruct (Qle_bool 240 _); cbn -[Qplus Qminus Qmin Qmax roundQ]; ring.
Qed.

(** Rounding never pays less than the time worked, and less than a quarter
    of an hour more per rounded segment. *)
Lemma minutesQ_bounds (c : DayClass) (p m po : Q) :
  0 <= p -> 0 <= m -> 0 <= po ->
  let q := minutesQ c p m po in
  p + m + po <= paidQ q /\
  (flooredQ q = false -> paidQ q < p + m + po + 45) /\
  (flooredQ q = true -> paidQ q == 240).
Proof.
  intros P M PO.
  assert (Gp := roundQ_ge p). assert (Bp := roundQ_below p P).
  assert (Gm := roundQ_ge m). assert (Bm := roundQ_below m M).
  assert (Gpo := roundQ_ge po). assert (Bpo := roundQ_below po PO).
  destruct c; cbn -[Qplus Qminus Qmin Qmax roundQ Qle_bool]; unfold totalQ.
  - set (x := Qmax 0 (m - Qmin m 420)).
    assert (X : 0 <= x /\ Qmin m 420 + x == m) by (unfold x; qcases; lra).
    destruct X as [X0 X1].
    assert (Gx := roundQ_ge x). assert (Bx := roundQ_below x X0).
    clearbody x.
    repeat split; try discriminate; intros; qcases; lra.
  - repeat split; try discriminate; intros; qcases; lra.
  - assert (G := roundQ_ge (p + m + po)).
    assert (B : roundQ (p + m + po) < p + m + po + 15)
      by (apply roundQ_below; lra).
    destruct (Qle_bool_cases 240 (roundQ (p + m + po))) as [[L ->] | [L ->]];
      cbn -[Qplus roundQ]; repeat split; try discriminate; intros;
      try reflexivity; lra.
  - assert (G := roundQ_ge (p + po)).
    assert (B : roundQ (p + po) < p + po + 15) by (apply roundQ_below; lra).
    destruct (Qle_bool_cases 240 (roundQ m + roundQ (p + po)))
      as [[L ->] | [L ->]];
      cbn -[Qplus roundQ]; repeat split; try discriminate; intros;
      try reflexivity; lra.
Qed.

End MinutesOfAShift.

Section QuarterHours.
Local Open Scope Q_scope.

Lemma Qfloor_half (z : Z) : Qfloor (inject_Z z + (1 # 2)) = z.
Proof.
  assert (L := Qfloor_le (inject_Z z + (1 # 2))).
  assert (U := Qlt_floor (inject_Z z + (1 # 2))).
  set (F := Qfloor (inject_Z z + (1 # 2))) in *.
  rewrite inject_Z_plus in U. change (inject_Z 1) with 1 in U.
  destruct (Z_lt_le_dec z F) as [G | G].
  - assert (G' : (z + 1 <= F)%Z) by lia.
    rewrite Zle_Qle, inject_Z_plus in G'. change (inject_Z 1) with 1 in G'.
    lra.
  - destruct (Z_lt_le_dec F z) as [G2 | G2]; [ | lia].
    assert (G' : (F + 1 <= z)%Z) by lia.
    rewrite Zle_Qle, inject_Z_plus in G'. change (inject_Z 1) with 1 in G'.
    lra.
Qed.

(** A whole number of quarter hours converts to hours without loss. *)
Lemma hoursQ_quarters (x : Q) (k : Z) :
  x == inject_Z (15 * k) -> hoursQ x == inject_Z k / 4.
Proof.
  intro H. rewrite (hoursQ_comp _ _ H). unfold hoursQ.
  assert (E : inject_Z (15 * k) / 60 * 100 + (1 # 2)
              == inject_Z (25 * k) + (1 # 2)).
  { rewrite !inject_Z_mult. change (inject_Z 15) with 15.
    change (inject_Z 25) with 25. field. }
  rewrite E, Qfloor_half, inject_Z_mult. change (inject_Z 25) with 25. field.
Qed.


(** Each penalty bucket is a whole number of quarter hours; the 1.5x tier
    holds two hours at most and the 2.0x tier starts when it is full. *)
Lemma minutesQ_quarters (c : DayClass) (p m po : Q) :
  0 <= p -> 0 <= m -> 0 <= po ->
  let q := minutesQ c p m po in
  exists k15 k20 h15 h25 : Z,
    (0 <= k15 <= 8)%Z /\ (0 <= k20)%Z /\ (0 <= h15)%Z /\ (0 <= h25)%Z /\
    (0 < k20 -> c = Weekday \/ c = Saturday -> k15 = 8)%Z /\
    ot15Q q == inject_Z (15 * k15) /\ ot20Q q == inject_Z (15 * k20) /\
    ph15Q q == inject_Z (15 * h15) /\ ph25Q q == inject_Z (15 * h25).
Proof.
  intros P M PO.
  assert (Tiers : forall a x z : Q,
    exists k15 k20 : Z,
      (0 <= k15 <= 8)%Z /\ (0 <= k20)%Z /\ (0 < k20 -> k15 = 8)%Z /\
      Qmin 120 (totalQ a x z) == inject_Z (15 * k15) /\
      Qmax 0 (totalQ a x z - 120) == inject_Z (15 * k20)).
  { intros a x z. unfold totalQ.
    destruct (roundQ_multiple a) as [ka [Ka Ea]].
    destruct (roundQ_multiple x) as [kx [Kx Ex]].
    destruct (roundQ_multiple z) as [kz [Kz Ez]].
    assert (T : 0 + roundQ a + roundQ x + roundQ z
                == inject_Z (15 * (ka + kx + kz))).
    { rewrite Ea, Ex, Ez, !inject_Z_mult, !inject_Z_plus. ring. }
    set (K := (ka + kx + kz)%Z) in *. assert (K0 : (0 <= K)%Z) by (unfold K; lia).
    clearbody K. set (T' := 0 + roundQ a + roundQ x + roundQ z) in *.
    clearbody T'.
    destruct (Z_le_gt_dec 8 K) as [G | G].
    - exists 8%Z, (K - 8)%Z.
      assert (G' := G). rewrite Zle_Qle in G'.
      rewrite inject_Z_mult in T. change (inject_Z 15) with 15 in T.
      change (inject_Z 8) with 8 in G'.
      split; [lia | ]. split; [lia | ]. split; [lia | ].
      rewrite !inject_Z_mult. unfold Z.sub. rewrite inject_Z_plus, inject_Z_opp.
      change (inject_Z 15) with 15. change (inject_Z 8) with 8.
      split; qcases; lra.
    - exists K, 0%Z.
      assert (G' : (K < 8)%Z) by lia. rewrite Zlt_Qlt in G'.
      rewrite inject_Z_mult in T. change (inject_Z 15) with 15 in T.
      change (inject_Z 8) with 8 in G'.
      split; [lia | ]. split; [lia | ]. split; [lia | ].
      rewrite !inject_Z_mult.
      change (inject_Z 15) with 15. change (inject_Z 0) with 0.
      split; qcases; lra. }
  destruct c; cbn -[Qplus Qminus Qmin Qmax roundQ Qle_bool totalQ inject_Z Z.mul].
  - destruct (Tiers p (Qmax 0 (m - Qmin m 420)) po)
      as (k15 & k20 & A & B & C & D & E).
    exists k15, k20, 0%Z, 0%Z. repeat split; try lia; try assumption;
      reflexivity.
  - destruct (Tiers p m po) as (k15 & k20 & A & B & C & D & E).
    exists k15, k20, 0%Z, 0%Z. repeat split; try lia; try assumption;
      reflexivity.
  - destruct (roundQ_multiple (p + m + po)) as [k [K E]].
    destruct (Qle_bool_cases 240 (roundQ (p + m + po))) as [[L ->] | [L ->]];
      cbn -[Qplus Qminus roundQ inject_Z Z.mul].
    + exists 0%Z, k, 0%Z, 0%Z.
      repeat split; try lia; try assumption; try reflexivity;
        intros ? [? | ?]; discriminate.
    + exists 0%Z, 16%Z, 0%Z, 0%Z.
      repeat split; try lia; try reflexivity;
        try (intros ? [? | ?]; discriminate).
      change (inject_Z (15 * 16)) with 240. ring.
  - destruct (roundQ_multiple m) as [ka [Ka Ea]].
    destruct (roundQ_multiple (p + po)) as [kb [Kb Eb]].
    destruct (Qle_bool_cases 240 (roundQ m + roundQ (p + po)))
      as [[L ->] | [L ->]]; cbn -[Qplus Qminus roundQ inject_Z Z.mul].
    + exists 0%Z, 0%Z, ka, kb.
      repeat split; try lia; try assumption; reflexivity.
    + exists 0%Z, 0%Z, ka, (16 - ka)%Z.
      assert (A16 : (ka < 16)%Z).
      { rewrite Zlt_Qlt. rewrite Ea, Eb in L.
        rewrite !inject_Z_mult in L. change (inject_Z 15) with 15 in L.
        assert (B0 : 0 <= inject_Z kb)
          by (change 0 with (inject_Z 0); rewrite <- Zle_Qle; exact Kb).
        change (inject_Z 16) with 16. lra. }
      repeat split; try lia; try assumption; try reflexivity.
      rewrite Ea, Eb. rewrite !inject_Z_mult. unfold Z.sub.
      rewrite inject_Z_plus, inject_Z_opp.
      change (inject_Z 15) with 15. change (inject_Z 16) with 16. ring.
Qed.

End QuarterHours.

Section Utilities.
Local Open Scope Q_scope.

Lemma roundQ_idem (x : Q) : roundQ (roundQ x) == roundQ x.
Proof.
  destruct (roundQ_multiple x) as [k [K E]].
  apply Qle_antisym; [ | apply roundQ_ge].
  rewrite E at 2. apply roundQ_least; [exact K | ]. rewrite E. apply Qle_refl.
Qed.

End Utilities.

(** X1.  roundUpToQuarter of a number that is not NaN is 0 when the number
    is 0 or negative, and otherwise the least multiple of 15 that is not
    below it: it is never below the number and less than 15 above it. *)
Theorem roundUpToQuarter_next_block (x : Q) :
  exists (r : Q) (k : Z),
    roundUpToQuarter (Fin x) = Fin r /\
    (0 <= k)%Z /\ (r == inject_Z (15 * k))%Q /\
    (x <= 0 -> r == 0)%Q /\
    (0 < x -> x <= r /\ r < x + 15)%Q /\
    (forall j : Z, (0 <= j)%Z -> (x <= inject_Z (15 * j))%Q ->
                   (r <= inject_Z (15 * j))%Q).
Proof.
  destruct (roundQ_multiple x) as [k [K E]].
  exists (roundQ x), k. split; [apply roundUpToQuarter_Fin | ].
  split; [exact K | ]. split; [exact E | ].
  split; [intro N; rewrite (roundQ_nonpos x N); reflexivity | ].
  split; [intro P; split; [apply roundQ_ge | apply roundQ_lt; exact P] | ].
  intros j J H. apply roundQ_least; assumption.
Qed.

Lemma roundUpToQuarter_next_block_witness :
  roundUpToQuarter (Fin 7.5) = Fin 15 /\ roundUpToQuarter (Fin (-3)) = Fin 0.
Proof.
  destruct (roundUpToQuarter_next_block 7.5) as (r & k & R & _ & _ & _ & P & _).
  assert (H : (0 < 7.5)%Q) by (unfold Qlt; simpl; lia).
  destruct (P H) as [_ _].
  split; reflexivity.
Defined.

(** X2.  roundUpToQuarter changes nothing when applied twice, keeps the
    order of numbers, and gives NaN for NaN. *)
Theorem roundUpToQuarter_idempotent_monotone :
  (forall x : Q,
     roundUpToQuarter (roundUpToQuarter (Fin x)) =n= roundUpToQuarter (Fin x))
  /\
  (forall x y : Q,
     (x <= y)%Q ->
     (roundUpToQuarter (Fin x) <=? roundUpToQuarter (Fin y))%num = true)
  /\ roundUpToQuarter NaN = NaN.
Proof.
  split; [ | split].
  - intro x. rewrite !roundUpToQuarter_Fin. cbn [eqn]. apply roundQ_idem.
  - intros x y H. rewrite !roundUpToQuarter_Fin. cbn [JS.le].
    apply Qle_bool_iff. apply roundQ_mono. exact H.
  - reflexivity.
Qed.

Lemma roundUpToQuarter_idempotent_monotone_witness :
  (roundUpToQuarter (Fin 61) <=? roundUpToQuarter (Fin 74))%num = true.
Proof.
  apply (proj1 (proj2 roundUpToQuarter_idempotent_monotone) 61%Q 74%Q).
  unfold Qle. simpl. lia.
Defined.

(** X3.  The overlap of two intervals of numbers that are not NaN is never
    negative, is the same whichever interval comes first, is at most the
    length of each interval, is 0 when the intervals do not meet and is the
    whole first interval when the second contains it. *)
Theorem overlapMinutes_is_an_overlap (s1 e1 s2 e2 : Q) :
  exists v : Q,
    overlapMinutes (Fin s1) (Fin e1) (Fin s2) (Fin e2) = Fin v /\
    (0 <= v)%Q /\
    overlapMinutes (Fin s2) (Fin e2) (Fin s1) (Fin e1) =n= Fin v /\
    (s1 <= e1 -> v <= e1 - s1)%Q /\
    (s2 <= e2 -> v <= e2 - s2)%Q /\
    (e1 <= s2 \/ e2 <= s1 -> v == 0)%Q /\
    (s2 <= s1 -> s1 <= e1 -> e1 <= e2 -> v == e1 - s1)%Q.
Proof.
  eexists. split; [reflexivity | ].
  cbn [overlapMinutes JS.max JS.min JS.sub lift2 eqn].
  split; [qcases; lra | ]. split; [qcases; lra | ].
  split; [intros; qcases; lra | ]. split; [intros; qcases; lra | ].
  split; [intros [H | H]; qcases; lra | intros; qcases; lra].
Qed.

Lemma overlapMinutes_is_an_overlap_witness :
  overlapMinutes (Fin 420) (Fin 1260) (Fin 480) (Fin 1200) = Fin 720.
Proof.
  destruct (overlapMinutes_is_an_overlap 420 1260 480 1200)
    as (v & H & _ & _ & _ & B & _).
  assert (L : (480 <= 1200)%Q) by (unfold Qle; simpl; lia).
  specialize (B L). reflexivity.
Defined.

(** X4.  Cutting a window at a point cuts the overlap with it: for
    a <= b <= c and start <= end, the overlaps of [start, end] with [a, b]
    and with [b, c] add up to its overlap with [a, c]. *)
Theorem overlapMinutes_splits (s e a b c : Q) :
  (s <= e)%Q -> (a <= b)%Q -> (b <= c)%Q ->
  (overlapMinutes (Fin s) (Fin e) (Fin a) (Fin b)
   + overlapMinutes (Fin s) (Fin e) (Fin b) (Fin c))%num
  =n= overlapMinutes (Fin s) (Fin e) (Fin a) (Fin c).
Proof.
  intros SE AB BC.
  cbn [overlapMinutes JS.max JS.min JS.sub JS.add lift2 eqn].
  qcases; lra.
Qed.

Lemma overlapMinutes_splits_witness :
  (overlapMinutes (Fin 420) (Fin 1260) (Fin 0) (Fin 480)
   + overlapMinutes (Fin 420) (Fin 1260) (Fin 480) (Fin 1200))%num
  =n= overlapMinutes (Fin 420) (Fin 1260) (Fin 0) (Fin 1200).
Proof.
  apply (overlapMinutes_splits 420 1260 0 480 1200);
    unfold Qle; simpl; lia.
Defined.



Section TimeStrings.

Lemma split_acc_no_colon (a r cur : string) :
  has_colon a = false ->
  Str.split_acc ":" (a ++ r) cur = Str.split_acc ":" r (Str.rev_acc a cur).
Proof.
  revert cur. induction a as [ | c a IH]; intros cur H; [reflexivity | ].
  cbn [has_colon] in H. apply orb_false_iff in H. destruct H as [C H].
  cbn [append Str.split_acc Str.rev_acc]. rewrite C. apply IH. exact H.
Qed.

Lemma append_empty (a : string) : a ++ EmptyString = a.
Proof. induction a as [ | c a IH]; [reflexivity | ]. cbn. now rewrite IH. Qed.

(** Without a colon there is one part only. *)
Lemma split_no_colon (a : string) :
  has_colon a = false ->
  Str.split ":" a = [Str.rev (Str.rev_acc a EmptyString)].
Proof.
  intro H. unfold Str.split.
  rewrite <- (append_empty a) at 1.
  rewrite (split_acc_no_colon a EmptyString EmptyString H). reflexivity.
Qed.

(** The first part ends at the first colon. *)
Lemma split_at_colon (a r : string) :
  has_colon a = false ->
  Str.split ":" (a ++ String ":" r)
    = Str.rev (Str.rev_acc a EmptyString) :: Str.split ":" r.
Proof.
  intro H. unfold Str.split.
  rewrite (split_acc_no_colon a (String ":" r) EmptyString H). reflexivity.
Qed.

Lemma add_NaN (a : num) : (a + NaN)%num = NaN.
Proof. destruct a; reflexivity. Qed.

End TimeStrings.

(** X6.  A time written as two digits, a colon and two digits parses to
    60 times the hours plus the minutes; there is no range check, so 24:00
    or 99:99 parse as well. *)
Theorem parseTimeToMinutes_clock (h1 h2 m1 m2 : nat) :
  (h1 < 10)%nat -> (h2 < 10)%nat -> (m1 < 10)%nat -> (m2 < 10)%nat ->
  parseTimeToMinutes (clock h1 h2 m1 m2)
  =n= Fin (inject_Z (Z.of_nat ((10 * h1 + h2) * 60 + (10 * m1 + m2)))).
Proof.
  intros H1 H2 M1 M2.
  set (ok := fun a b c d : nat =>
    match parseTimeToMinutes (clock a b c d) with
    | Fin q =>
        Qeq_bool q (inject_Z (Z.of_nat ((10 * a + b) * 60 + (10 * c + d))))
    | NaN => false
    end).
  assert (A : forallb (fun a => forallb (fun b => forallb (fun c =>
                forallb (fun d => ok a b c d) (seq 0 10)) (seq 0 10))
                (seq 0 10)) (seq 0 10) = true)
    by (vm_compute; reflexivity).
  rewrite forallb_forall in A.
  specialize (A h1 (proj2 (in_seq 10 0 h1) (conj (Nat.le_0_l _) H1))).
  rewrite forallb_forall in A.
  specialize (A h2 (proj2 (in_seq 10 0 h2) (conj (Nat.le_0_l _) H2))).
  rewrite forallb_forall in A.
  specialize (A m1 (proj2 (in_seq 10 0 m1) (conj (Nat.le_0_l _) M1))).
  rewrite forallb_forall in A.
  specialize (A m2 (proj2 (in_seq 10 0 m2) (conj (Nat.le_0_l _) M2))).
  unfold ok in A.
  destruct (parseTimeToMinutes (clock h1 h2 m1 m2)) as [ | q];
    [discriminate | ].
  cbn [eqn]. apply Qeq_bool_eq. exact A.
Qed.

Lemma parseTimeToMinutes_clock_witness :
  parseTimeToMinutes "17:45" =n= Fin 1065.
Proof.
  apply (parseTimeToMinutes_clock 1 7 4 5); lia.
Defined.

(** X7.  A time without a colon, the empty string included, parses to
    NaN; and whatever follows a second colon is ignored, so 09:30:59 parses
    as 09:30 does. *)
Theorem parseTimeToMinutes_colons :
  (forall t : string, has_colon t = false -> parseTimeToMinutes t = NaN)
  /\
  (forall a b rest : string,
     has_colon a = false -> has_colon b = false ->
     parseTimeToMinutes (a ++ String ":" (b ++ String ":" rest))
       = parseTimeToMinutes (a ++ String ":" b)).
Proof.
  split.
  - intros t H. unfold parseTimeToMinutes.
    rewrite (split_no_colon t H). cbn [map nth]. apply add_NaN.
  - intros a b rest Ha Hb. unfold parseTimeToMinutes.
    rewrite !(split_at_colon a _ Ha), (split_at_colon b rest Hb),
            (split_no_colon b Hb).
    reflexivity.
Qed.

Lemma parseTimeToMinutes_colons_witness :
  parseTimeToMinutes "0930" = NaN /\
  parseTimeToMinutes "09:30:59" = parseTimeToMinutes "09:30".
Proof.
  split.
  - apply (proj1 parseTimeToMinutes_colons "0930"). reflexivity.
  - apply (proj2 parseTimeToMinutes_colons "09" "30" "59"); reflexivity.
Defined.

Section FiniteResult.
Local Open Scope Q_scope.

(** The bands of finite times are finite and not negative, before and
    after a break that is not negative. *)
Lemma bands_nonneg (s e b : Q) :
  0 <= b ->
  exists p' m' po' rem : Q,
    allocateBreak (Fin s) (Fin e) (Fin b) =
      mkBands (Fin p') (Fin m') (Fin po') (Fin rem) /\
    0 <= p' /\ 0 <= m' /\ 0 <= po'.
Proof.
  intro B.
  assert (S : exists p m po : Q,
             spans (Fin s) (Fin e) = mkBands (Fin p) (Fin m) (Fin po) (Fin 0)
             /\ 0 <= p /\ 0 <= m /\ 0 <= po).
  { do 3 eexists. split; [reflexivity | ]. repeat split; qcases; lra. }
  destruct S as (p & m & po & Sp & P & M & PO).
  pose proof (allocateBreak_cuts s e b p m po Sp) as HB.
  destruct (cuts_capped b B p m po P M PO) as [[C1 C2] [[C3 C4] [C5 C6]]].
  do 4 eexists. split; [exact HB | ]. repeat split; lra.
Qed.

Lemma hoursQ_nonneg (x : Q) : 0 <= x -> 0 <= hoursQ x.
Proof.
  intro H. assert (Z : hoursQ 0 == 0) by (vm_compute; reflexivity).
  rewrite <- Z. apply hoursQ_mono. exact H.
Qed.

Lemma minutesQ_nonneg (c : DayClass) (p m po : Q) :
  0 <= p -> 0 <= m -> 0 <= po ->
  let q := minutesQ c p m po in
  0 <= ordQ q /\ 0 <= ot15Q q /\ 0 <= ot20Q q /\ 0 <= ph15Q q /\
  0 <= ph25Q q /\ 0 <= paidQ q.
Proof.
  intros P M PO.
  assert (T : forall a x z, 0 <= totalQ a x z).
  { intros a x z. unfold totalQ.
    assert (Na := roundQ_nonneg a). assert (Nx := roundQ_nonneg x).
    assert (Nz := roundQ_nonneg z). lra. }
  assert (Rw := roundQ_nonneg (p + m + po)).
  assert (Rm := roundQ_nonneg m). assert (Rpp := roundQ_nonneg (p + po)).
  destruct c; cbn -[Qplus Qminus Qmin Qmax roundQ Qle_bool totalQ].
  - specialize (T p (Qmax 0 (m - Qmin m 420)) po).
    set (t := totalQ _ _ _) in *. clearbody t. repeat split; qcases; lra.
  - specialize (T p m po).
    set (t := totalQ _ _ _) in *. clearbody t. repeat split; qcases; lra.
  - destruct (Qle_bool_cases 240 (roundQ (p + m + po))) as [[L ->] | [L ->]];
      cbn -[Qplus Qminus roundQ]; repeat split; lra.
  - destruct (Qle_bool_cases 240 (roundQ m + roundQ (p + po)))
      as [[L ->] | [L ->]];
      cbn -[Qplus Qminus roundQ]; repeat split; lra.
Qed.

End FiniteResult.

(** X8.  Whenever the date is not empty, both times parse to numbers and
    the end is after the start, there is a result, and each of its six hour
    fields is a number that is not NaN and not negative.  The break can be
    any string. *)
Theorem parsed_times_give_finite_hours
    (dateStr startStr endStr brk : string) (s e : Q) :
  dateStr <> EmptyString ->
  parseTimeToMinutes startStr = Fin s -> parseTimeToMinutes endStr = Fin e ->
  (s < e)%Q ->
  exists r : CalculationResult,
    applyRules dateStr startStr endStr brk = Some r /\
    exists hp ho h15 h20 hp15 hp25 : Q,
      paidHours r = Fin hp /\ ordinaryHours r = Fin ho /\
      overtime15 r = Fin h15 /\ overtime20 r = Fin h20 /\
      publicHoliday15 r = Fin hp15 /\ publicHoliday25 r = Fin hp25 /\
      (0 <= hp /\ 0 <= ho /\ 0 <= h15 /\ 0 <= h20 /\ 0 <= hp15 /\ 0 <= hp25)%Q.
Proof.
  intros NE S E SE.
  destruct (parseBreak_Fin brk) as [b [B Bpos]].
  destruct (bands_nonneg s e b Bpos) as (p' & m' & po' & rem & HB & P & M & PO).
  destruct (body_minutesQ_flags (getDayOfWeek dateStr)
              (isPublicHoliday dateStr) s e b p' m' po' rem HB)
    as (_ & _ & _ & Ho & Hf & Hp & _).
  cbv zeta in Ho, Hf, Hp.
  destruct (minutesQ_nonneg
              (classOf (getDayOfWeek dateStr) (isPublicHoliday dateStr))
              p' m' po' P M PO) as (N1 & N2 & N3 & N4 & N5 & N6).
  cbv zeta in N1, N2, N3, N4, N5, N6.
  assert (DE : is_empty dateStr = false)
    by (destruct dateStr; [congruence | reflexivity]).
  eexists. split.
  - unfold applyRules, locals.
    rewrite DE, (parseTime_nonempty _ _ S), (parseTime_nonempty _ _ E), S, E, B.
    cbn [orb]. unfold rules. cbn [JS.le].
    destruct (Qle_bool_cases e s) as [[H _] | [_ ->]]; [lra | reflexivity].
  - cbn [result paidHours ordinaryHours overtime15 overtime20
         publicHoliday15 publicHoliday25].
    rewrite Ho, Hf, Hp.
    cbn [ot15Minutes ot20Minutes ph15Minutes ph25Minutes].
    rewrite !toHours_Fin.
    do 6 eexists. repeat (split; [reflexivity | ]).
    repeat split; apply hoursQ_nonneg; assumption.
Qed.

Lemma parsed_times_give_finite_hours_witness :
  exists r : CalculationResult,
    applyRules "2024-01-03" "22:30" "23:59" "abc" = Some r /\
    paidHours r = Fin 1.50.
Proof.
  assert (NE : "2024-01-03" <> EmptyString) by discriminate.
  assert (SE : (1350 < 1439)%Q) by (unfold Qlt; simpl; lia).
  destruct (parsed_times_give_finite_hours
              "2024-01-03" "22:30" "23:59" "abc" 1350 1439
              NE eq_refl eq_refl SE) as (r & HR & _).
  exists r. split; [exact HR | ].
  vm_compute in HR. injection HR as <-. reflexivity.
Defined.

Ltac enter_shift V brk :=
  let b := fresh "b" in let p' := fresh "p'" in let m' := fresh "m'" in
  let po' := fresh "po'" in let rem := fresh "rem" in
  destruct (valid_shift_bands _ _ _ brk _ _ _ V)
    as (b & p' & m' & po' & rem & HBrk & Hb0 & HL & HB & Hp0 & Hm0 & Hpo0
        & Hsum);
  destruct (body_minutesQ _ _ _ _ _ _ _ _ _ (proj1 V) HB)
    as (Hbands & Hworked & Hhours & Hord & Hfinal & Hpaid & Hfloor);
  cbv zeta in Hbands, Hworked, Hhours, Hord, Hfinal, Hpaid, Hfloor;
  eexists; split; [exact HL | ].

(** X9.  For every valid shift the paid minutes are the sum of the five
    buckets: ordinary, overtime 1.5x and 2.0x, holiday 1.5x and 2.5x, as
    they stand after the minimum rule. *)
Theorem paid_minutes_sum_of_buckets
    (dateStr startStr endStr brk : string) (c : DayClass) (s e : Q) :
  valid_shift dateStr startStr endStr c s e ->
  exists l : Locals,
    locals dateStr startStr endStr brk = Some l /\
    (ordinaryMinutes (raw l) + ot15Minutes (final l) + ot20Minutes (final l)
     + ph15Minutes (final l) + ph25Minutes (final l))%num =n= paidMinutes l.
Proof.
  intro V. enter_shift V brk.
  rewrite Hord, Hfinal, Hpaid. cbn [ot15Minutes ot20Minutes ph15Minutes
    ph25Minutes JS.add lift2 eqn].
  apply minutesQ_sum.
Qed.

Lemma paid_minutes_sum_of_buckets_witness :
  exists l : Locals,
    locals "2024-01-03" "05:00" "21:10" "30" = Some l /\
    paidMinutes l = Fin 945.
Proof.
  assert (V : valid_shift "2024-01-03" "05:00" "21:10" Weekday 300 1270)
    by solve_valid.
  destruct (paid_minutes_sum_of_buckets _ _ _ "30" _ _ _ V) as (l & HL & _).
  exists l. split; [exact HL | ].
  vm_compute in HL. injection HL as <-. reflexivity.
Defined.

(** X10.  Rounding never pays less than the time worked after the break:
    paidMinutes >= workedMinutes and paidHours >= workedHours.  When the
    minimum rule does not fire the rounding adds less than 45 minutes (less
    than 15 per rounded segment); when it fires the paid minutes are 240. *)
Theorem rounding_never_underpays
    (dateStr startStr endStr brk : string) (c : DayClass) (s e : Q) :
  valid_shift dateStr startStr endStr c s e ->
  exists l : Locals,
    locals dateStr startStr endStr brk = Some l /\
    (workedMinutes l <=? paidMinutes l)%num = true /\
    (workedHours l <=? paidHours (result l))%num = true /\
    (minimumRuleApplied l = false ->
       (paidMinutes l <? workedMinutes l + Fin 45)%num = true) /\
    (minimumRuleApplied l = true -> paidMinutes l =n= Fin 240).
Proof.
  intro V. enter_shift V brk.
  destruct (minutesQ_bounds c _ _ _ Hp0 Hm0 Hpo0) as (L & U & F).
  cbv zeta in L, U, F.
  cbn [result paidHours].
  rewrite Hworked, Hhours, Hpaid, Hfloor, !toHours_Fin.
  cbn [JS.le JS.lt JS.add lift2 eqn].
  split; [apply Qle_bool_iff; exact L | ].
  split; [apply Qle_bool_iff; apply hoursQ_mono; exact L | ].
  split; [ | exact F].
  intro N. specialize (U N).
  destruct (Qle_bool_cases (p' + m' + po' + 45)
              (paidQ (minutesQ c p' m' po'))) as [[G _] | [_ ->]];
    [lra | reflexivity].
Qed.

Lemma rounding_never_underpays_witness :
  exists l : Locals,
    locals "2024-01-06" "07:55" "20:05" "715" = Some l /\
    workedMinutes l = Fin 15 /\ paidMinutes l = Fin 45.
Proof.
  assert (V : valid_shift "2024-01-06" "07:55" "20:05" Saturday 475 1205)
    by solve_valid.
  destruct (rounding_never_underpays _ _ _ "715" _ _ _ V) as (l & HL & _).
  exists l. split; [exact HL | ].
  vm_compute in HL. injection HL as <-. split; reflexivity.
Defined.

(** X11.  For every valid shift each penalty bucket is a whole number of
    quarter hours, so its hours are that number over 4, without rounding
    loss.  On a weekday or a Saturday the 1.5x bucket holds 8 quarters at
    most and the 2.0x bucket is empty until it does. *)
Theorem penalty_buckets_are_quarter_hours
    (dateStr startStr endStr brk : string) (c : DayClass) (s e : Q) :
  valid_shift dateStr startStr endStr c s e ->
  exists l : Locals,
    locals dateStr startStr endStr brk = Some l /\
    exists k15 k20 h15 h25 : Z,
      (0 <= k15 <= 8)%Z /\ (0 <= k20)%Z /\ (0 <= h15)%Z /\ (0 <= h25)%Z /\
      (0 < k20 -> c = Weekday \/ c = Saturday -> k15 = 8)%Z /\
      ot15Minutes (final l) =n= Fin (inject_Z (15 * k15)) /\
      ot20Minutes (final l) =n= Fin (inject_Z (15 * k20)) /\
      ph15Minutes (final l) =n= Fin (inject_Z (15 * h15)) /\
      ph25Minutes (final l) =n= Fin (inject_Z (15 * h25)) /\
      overtime15 (result l) =n= Fin (inject_Z k15 / 4) /\
      overtime20 (result l) =n= Fin (inject_Z k20 / 4) /\
      publicHoliday15 (result l) =n= Fin (inject_Z h15 / 4) /\
      publicHoliday25 (result l) =n= Fin (inject_Z h25 / 4).
Proof.
  intro V. enter_shift V brk.
  destruct (minutesQ_quarters c _ _ _ Hp0 Hm0 Hpo0)
    as (k15 & k20 & h15 & h25 & K15 & K20 & H15 & H25 & T & E1 & E2 & E3 & E4).
  cbv zeta in E1, E2, E3, E4.
  exists k15, k20, h15, h25.
  cbn [result overtime15 overtime20 publicHoliday15 publicHoliday25].
  rewrite Hfinal.
  cbn [ot15Minutes ot20Minutes ph15Minutes ph25Minutes].
  rewrite !toHours_Fin. cbn [eqn].
  repeat (split; [assumption | ]).
  repeat split; try assumption; apply hoursQ_quarters; assumption.
Qed.

Lemma penalty_buckets_are_quarter_hours_witness :
  exists l : Locals,
    locals "2024-01-03" "05:00" "21:10" "30" = Some l /\
    final l = mkBuckets (Fin 120) (Fin 405) (Fin 0) (Fin 0).
Proof.
  assert (V : valid_shift "2024-01-03" "05:00" "21:10" Weekday 300 1270)
    by solve_valid.
  destruct (penalty_buckets_are_quarter_hours _ _ _ "30" _ _ _ V)
    as (l & HL & _).
  exists l. split; [exact HL | ].
  vm_compute in HL. injection HL as <-. reflexivity.
Defined.

(** X12.  For every valid shift the minutes worked are the gross duration
    less the break, the break counting for the gross duration at most:
    workedMinutes = (end - start) - min(break, end - start), between 0 and
    the gross duration. *)
Theorem worked_minutes_are_gross_less_break
    (dateStr startStr endStr brk : string) (c : DayClass) (s e : Q) :
  valid_shift dateStr startStr endStr c s e ->
  exists l : Locals,
    locals dateStr startStr endStr brk = Some l /\
    exists b : Q,
      breakMinutes l = Fin b /\
      workedMinutes l =n= Fin ((e - s) - Qmin b (e - s)) /\
      (Fin 0 <=? workedMinutes l)%num = true /\
      (workedMinutes l <=? Fin (e - s))%num = true.
Proof.
  intro V. enter_shift V brk. exists b.
  split; [reflexivity | ]. rewrite Hworked. cbn [eqn JS.le].
  split; [exact Hsum | ].
  destruct V as (_ & _ & _ & Hs & Hse & He).
  split; apply Qle_bool_iff; [lra | ].
  rewrite Hsum. qcases; lra.
Qed.

Lemma worked_minutes_are_gross_less_break_witness :
  exists l : Locals,
    locals "2024-01-03" "09:00" "17:00" "45" = Some l /\
    workedMinutes l = Fin 435.
Proof.
  assert (V : valid_shift "2024-01-03" "09:00" "17:00" Weekday 540 1020)
    by solve_valid.
  destruct (worked_minutes_are_gross_less_break _ _ _ "45" _ _ _ V)
    as (l & HL & _).
  exists l. split; [exact HL | ].
  vm_compute in HL. injection HL as <-. reflexivity.
Defined.

Section WholeShiftBreak.
Local Open Scope Q_scope.

Lemma minutesQ_nothing_worked (c : DayClass) (p m po : Q) :
  p == 0 -> m == 0 -> po == 0 ->
  let q := minutesQ c p m po in
  match c with
  | Weekday | Saturday => paidQ q == 0 /\ flooredQ q = false
  | Sunday => flooredQ q = true /\ ot20Q q == 240 /\ paidQ q == 240
  | PublicHoliday =>
      flooredQ q = true /\ ph15Q q == 0 /\ ph25Q q == 240 /\ paidQ q == 240
  end.
Proof.
  intros P M PO.
  assert (Rp : roundQ p = 0) by (apply roundQ_nonpos; lra).
  assert (Rm : roundQ m = 0) by (apply roundQ_nonpos; lra).
  assert (Rpo : roundQ po = 0) by (apply roundQ_nonpos; lra).
  assert (Rx : roundQ (Qmax 0 (m - Qmin m 420)) = 0)
    by (apply roundQ_nonpos; qcases; lra).
  assert (Rw : roundQ (p + m + po) = 0) by (apply roundQ_nonpos; lra).
  assert (Rpp : roundQ (p + po) = 0) by (apply roundQ_nonpos; lra).
  destruct c; cbn -[Qplus Qminus Qmin Qmax roundQ Qle_bool]; unfold totalQ.
  - rewrite Rp, Rx, Rpo. split; [qcases; lra | reflexivity].
  - rewrite Rp, Rm, Rpo. split; [qcases; lra | reflexivity].
  - rewrite Rw. cbn. repeat split; reflexivity.
  - rewrite Rm, Rpp. cbn. repeat split; reflexivity.
Qed.

End WholeShiftBreak.

(** X13.  When the break typed is at least the gross duration nothing is
    worked.  A weekday or Saturday shift then pays nothing, while a Sunday
    or public-holiday shift still pays the 4-hour minimum, all of it in the
    highest bucket (ot20, ph25). *)
Theorem break_covering_the_shift
    (dateStr startStr endStr brk : string) (c : DayClass) (s e q : Q) :
  valid_shift dateStr startStr endStr c s e ->
  Str.Number brk = Fin q -> (e - s <= q)%Q ->
  exists l : Locals,
    locals dateStr startStr endStr brk = Some l /\
    workedMinutes l =n= Fin 0 /\
    match c with
    | Weekday | Saturday =>
        paidMinutes l =n= Fin 0 /\ paidHours (result l) =n= Fin 0 /\
        minimumRuleApplied l = false
    | Sunday =>
        minimumRuleApplied l = true /\
        ot20Minutes (final l) =n= Fin 240 /\
        paidHours (result l) =n= Fin 4
    | PublicHoliday =>
        minimumRuleApplied l = true /\
        ph15Minutes (final l) =n= Fin 0 /\
        ph25Minutes (final l) =n= Fin 240 /\
        paidHours (result l) =n= Fin 4
    end.
Proof.
  intros V N G. enter_shift V brk.
  assert (Q0 : (0 <= q)%Q) by (destruct V as (_ & _ & _ & ? & ? & ?); lra).
  pose proof (parseBreak_requested brk q b N Q0 HBrk) as Bq.
  assert (Z : (p' + m' + po' == 0)%Q) by (rewrite Hsum; qcases; lra).
  assert (P : (p' == 0)%Q) by lra. assert (M : (m' == 0)%Q) by lra.
  assert (PO : (po' == 0)%Q) by lra.
  pose proof (minutesQ_nothing_worked c p' m' po' P M PO) as H.
  cbv zeta in H.
  cbn [result paidHours]. rewrite Hworked, Hfinal, Hpaid, Hfloor, toHours_Fin.
  cbn [eqn ot20Minutes ph15Minutes ph25Minutes].
  split; [exact Z | ].
  destruct c.
  - destruct H as [H1 H2]. split; [exact H1 | ]. split; [ | exact H2].
    rewrite (hoursQ_comp _ _ H1). vm_compute. reflexivity.
  - destruct H as [H1 H2]. split; [exact H1 | ]. split; [ | exact H2].
    rewrite (hoursQ_comp _ _ H1). vm_compute. reflexivity.
  - destruct H as (H1 & H2 & H3). split; [exact H1 | ]. split; [exact H2 | ].
    rewrite (hoursQ_comp _ _ H3). vm_compute. reflexivity.
  - destruct H as (H1 & H2 & H3 & H4). split; [exact H1 | ].
    split; [exact H2 | ]. split; [exact H3 | ].
    rewrite (hoursQ_comp _ _ H4). vm_compute. reflexivity.
Qed.

Lemma break_covering_the_shift_witness :
  exists l : Locals,
    locals "2024-01-07" "09:00" "10:00" "90" = Some l /\
    workedMinutes l = Fin 0 /\ paidMinutes l = Fin 240.
Proof.
  assert (V : valid_shift "2024-01-07" "09:00" "10:00" Sunday 540 600)
    by solve_valid.
  assert (G : (600 - 540 <= 90)%Q) by (unfold Qle; simpl; lia).
  destruct (break_covering_the_shift _ _ _ "90" _ _ _ 90%Q V eq_refl G)
    as (l & HL & _).
  exists l. split; [exact HL | ].
  vm_compute in HL. injection HL as <-. split; reflexivity.
Defined.



Section HolidayTable.

(** Every date of the holiday table is a calendar date. *)
Lemma holiday_is_date (d : string) :
  isPublicHoliday d = true -> exists name : string, getDayOfWeek d = Some name.
Proof.
  unfold isPublicHoliday. intro H.
  apply existsb_exists in H. destruct H as (h & I & E).
  apply String.eqb_eq in E. subst h.
  assert (A : forallb (fun h => match getDayOfWeek h with
                                | Some _ => true
                                | None => false
                                end) NSW_PUBLIC_HOLIDAYS = true)
    by (vm_compute; reflexivity).
  rewrite forallb_forall in A. specialize (A d I).
  destruct (getDayOfWeek d) as [name | ]; [exists name; reflexivity | discriminate].
Qed.

Lemma getDayOfWeek_name (d name : string) :
  getDayOfWeek d = Some name -> In name dayNames.
Proof.
  unfold getDayOfWeek. destruct (Date.getDay d) as [i | ]; [ | discriminate].
  apply nth_error_In.
Qed.

End HolidayTable.

(** X15.  A result flagged as a public holiday always carries one of the
    seven weekday names: no date of the holiday table is an Invalid
    Date. *)
Theorem holiday_result_has_a_weekday
    (dateStr startStr endStr brk : string) (r : CalculationResult) :
  applyRules dateStr startStr endStr brk = Some r ->
  r_isPublicHoliday r = true ->
  exists name : string, r_dayOfWeek r = Some name /\ In name dayNames.
Proof.
  unfold applyRules, locals.
  destruct (is_empty dateStr || is_empty startStr || is_empty endStr);
    [discriminate | ].
  unfold rules.
  destruct (parseTimeToMinutes endStr <=? parseTimeToMinutes startStr)%num;
    [discriminate | ].
  cbn [option_map]. intro H. injection H as <-.
  cbn [result body r_isPublicHoliday r_dayOfWeek isPH dayOfWeek].
  intro PH. destruct (holiday_is_date dateStr PH) as [name N].
  exists name. split; [exact N | ]. apply (getDayOfWeek_name dateStr). exact N.
Qed.

Lemma holiday_result_has_a_weekday_witness :
  exists r : CalculationResult,
    applyRules "2022-09-22" "09:00" "17:00" "30" = Some r /\
    r_dayOfWeek r = Some "Thursday".
Proof.
  eexists. split; [vm_compute; reflexivity | ].
  match goal with
  | |- r_dayOfWeek ?r = _ =>
      destruct (holiday_result_has_a_weekday
                  "2022-09-22" "09:00" "17:00" "30" r eq_refl eq_refl)
        as (name & N & _)
  end.
  reflexivity.
Defined.



(** X17.  On a Saturday that is not a public holiday there are no ordinary
    minutes: the pre-span, in-span and post-span minutes left after the
    break are three overtime segments, each rounded up to a quarter of an
    hour; the first 120 rounded minutes are paid at 1.5x, the rest at 2.0x,
    and the paid minutes are their total.  The minimum rule does not
    apply. *)
Theorem saturday_is_all_overtime
    (dateStr startStr endStr brk : string) (s e : Q) :
  valid_shift dateStr startStr endStr Saturday s e ->
  exists l : Locals,
    locals dateStr startStr endStr brk = Some l /\
    exists p' m' po' : Q,
      pre (bands l) = Fin p' /\ mid (bands l) = Fin m' /\
      post (bands l) = Fin po' /\
      ordinaryMinutes (raw l) = Fin 0 /\
      otSegments (raw l) = [Fin p'; Fin m'; Fin po'] /\
      let total := (roundQ p' + roundQ m' + roundQ po')%Q in
      ot15Minutes (final l) =n= Fin (Qmin 120 total) /\
      ot20Minutes (final l) =n= Fin (Qmax 0 (total - 120)) /\
      ph15Minutes (final l) = Fin 0 /\ ph25Minutes (final l) = Fin 0 /\
      paidMinutes l =n= Fin total /\
      minimumRuleApplied l = false.
Proof.
  intro V. enter_shift V brk. exists p', m', po'.
  rewrite Hbands, Hfinal, Hpaid, Hfloor.
  cbn [pre mid post ot15Minutes ot20Minutes ph15Minutes ph25Minutes minutesQ
       ot15Q ot20Q ph15Q ph25Q paidQ flooredQ eqn].
  repeat (split; [reflexivity | ]).
  destruct V as [C _]. apply dayClass_flags in C.
  destruct C as (PH & SU & SA).
  split; [unfold body; rewrite HB, PH, SU, SA; reflexivity | ].
  split; [unfold body; rewrite HB, PH, SU, SA; reflexivity | ].
  unfold totalQ.
  set (ra := roundQ p'). set (rx := roundQ m'). set (rc := roundQ po').
  assert (E : (0 + ra + rx + rc == ra + rx + rc)%Q) by ring.
  assert (N : (0 <= ra + rx + rc)%Q).
  { assert (Na := roundQ_nonneg p'). assert (Nc := roundQ_nonneg po').
    assert (Nx := roundQ_nonneg m').
    fold ra in Na. fold rx in Nx. fold rc in Nc. lra. }
  rewrite E. repeat split; try reflexivity. qcases; lra.
Qed.

Lemma saturday_is_all_overtime_witness :
  exists l : Locals,
    locals "2024-01-06" "09:00" "13:00" "20" = Some l /\
    final l = mkBuckets (Fin 120) (Fin 105) (Fin 0) (Fin 0).
Proof.
  assert (V : valid_shift "2024-01-06" "09:00" "13:00" Saturday 540 780)
    by solve_valid.
  destruct (saturday_is_all_overtime _ _ _ "20" _ _ V) as (l & HL & _).
  exists l. split; [exact HL | ].
  vm_compute in HL. injection HL as <-. reflexivity.
Defined.

Section InsideTheSpan.
Local Open Scope Q_scope.

(** A window inside 08:00-20:00 has no pre-span and no post-span part. *)
Lemma spans_inside (s e p m po : Q) :
  480 <= s -> s < e -> e <= 1200 ->
  spans (Fin s) (Fin e) = mkBands (Fin p) (Fin m) (Fin po) (Fin 0) ->
  p == 0 /\ m == e - s /\ po == 0.
Proof.
  intros Hs Hse He H. injection H as <- <- <-.
  change (8 * 60) with 480. change (20 * 60) with 1200.
  change (24 * 60) with 1440.
  repeat split; qcases; lra.
Qed.

End InsideTheSpan.

(** X18.  A weekday shift inside 08:00-20:00 of 7 hours at most is paid to
    the minute: the ordinary minutes are the minutes worked, unrounded,
    there is no overtime, and the paid minutes are the minutes worked. *)
Theorem weekday_inside_span_paid_to_the_minute
    (dateStr startStr endStr brk : string) (s e : Q) :
  valid_shift dateStr startStr endStr Weekday s e ->
  (480 <= s)%Q -> (e <= 1200)%Q -> (e - s <= 420)%Q ->
  exists l : Locals,
    locals dateStr startStr endStr brk = Some l /\
    ordinaryMinutes (raw l) =n= workedMinutes l /\
    ot15Minutes (final l) =n= Fin 0 /\ ot20Minutes (final l) =n= Fin 0 /\
    paidMinutes l =n= workedMinutes l /\
    paidHours (result l) =n= workedHours l /\
    ordinaryHours (result l) =n= workedHours l.
Proof.
  intros V S480 E1200 D420.
  pose proof V as (_ & _ & _ & Hs & Hse & He).
  destruct (spans_sum s e Hs Hse He) as (p & m & po & Sp & P & M & PO & Sum).
  destruct (spans_inside s e p m po S480 Hse E1200 Sp) as (P0 & Mgross & PO0).
  enter_shift V brk.
  pose proof (allocateBreak_cuts s e b p m po Sp) as HB'.
  rewrite HB in HB'. injection HB' as Eq1 Eq2 Eq3 _.
  destruct (cuts_capped b Hb0 p m po P M PO) as [[C1 C2] [[C3 C4] [C5 C6]]].
  assert (P'0 : (p' == 0)%Q) by (rewrite Eq1; lra).
  assert (PO'0 : (po' == 0)%Q) by (rewrite Eq3; lra).
  assert (M420 : (m' <= 420)%Q) by (rewrite Eq2; lra).
  assert (Rp : roundQ p' = 0%Q) by (apply roundQ_nonpos; lra).
  assert (Rpo : roundQ po' = 0%Q) by (apply roundQ_nonpos; lra).
  assert (Rx : roundQ (Qmax 0 (m' - Qmin m' 420)) = 0%Q)
    by (apply roundQ_nonpos; qcases; lra).
  cbn [result paidHours ordinaryHours].
  rewrite Hworked, Hhours, Hord, Hfinal, Hpaid, !toHours_Fin.
  cbn [ot15Minutes ot20Minutes minutesQ ordQ ot15Q ot20Q paidQ eqn].
  unfold totalQ. rewrite Rp, Rx, Rpo.
  assert (Eo : (Qmin m' 420 == p' + m' + po')%Q) by (qcases; lra).
  assert (Ep : (Qmin m' 420 + Qmin 120 (0 + 0 + 0 + 0)
                + Qmax 0 (0 + 0 + 0 + 0 - 120) == p' + m' + po')%Q)
    by (qcases; lra).
  split; [exact Eo | ]. split; [qcases; lra | ]. split; [qcases; lra | ].
  split; [exact Ep | ].
  split; apply hoursQ_comp; assumption.
Qed.

Lemma weekday_inside_span_paid_to_the_minute_witness :
  exists l : Locals,
    locals "2024-01-03" "09:07" "15:30" "40" = Some l /\
    paidMinutes l = Fin 343.
Proof.
  assert (V : valid_shift "2024-01-03" "09:07" "15:30" Weekday 547 930)
    by solve_valid.
  assert (A : (480 <= 547)%Q) by (unfold Qle; simpl; lia).
  assert (B : (930 <= 1200)%Q) by (unfold Qle; simpl; lia).
  assert (D : (930 - 547 <= 420)%Q) by (unfold Qle; simpl; lia).
  destruct (weekday_inside_span_paid_to_the_minute _ _ _ "40" _ _ V A B D)
    as (l & HL & _).
  exists l. split; [exact HL | ].
  vm_compute in HL. injection HL as <-. reflexivity.
Defined.

Section Thresholds.
Local Open Scope Q_scope.

(** Below 240 rounded minutes means 225 minutes worked at most. *)
Lemma roundQ_below_240 (w : Q) : 240 <= roundQ w <-> 225 < w.
Proof.
  split; intro H.
  - apply Qnot_le_lt. intro L.
    assert (R : roundQ w <= inject_Z (15 * 15))
      by (apply roundQ_least; [lia | exact L]).
    change (inject_Z (15 * 15)) with 225 in R. lra.
  - destruct (roundQ_multiple w) as [k [K E]].
    assert (G := roundQ_ge w).
    assert (K15 : (15 < k)%Z).
    { rewrite Zlt_Qlt. rewrite E, inject_Z_mult in G.
      change (inject_Z 15) with 15 in *. lra. }
    assert (K16 : (16 <= k)%Z) by lia.
    rewrite Zle_Qle in K16. rewrite E, inject_Z_mult.
    change (inject_Z 15) with 15. change (inject_Z 16) with 16 in K16. lra.
Qed.

(** More than 5 hours, in hundredths, is more than 300 whole minutes. *)
Lemma hoursQ_over_5 (n : Z) : 5 < hoursQ (inject_Z n) <-> (300 < n)%Z.
Proof.
  split; intro H.
  - destruct (Z_lt_le_dec 300 n) as [G | G]; [exact G | exfalso].
    rewrite Zle_Qle in G. change (inject_Z 300) with 300 in G.
    assert (M := hoursQ_mono _ _ G).
    assert (E : hoursQ 300 == 5) by (vm_compute; reflexivity). lra.
  - assert (G : (301 <= n)%Z) by lia.
    rewrite Zle_Qle in G. change (inject_Z 301) with 301 in G.
    assert (M := hoursQ_mono _ _ G).
    assert (E : hoursQ 301 == 502 # 100) by (vm_compute; reflexivity). lra.
Qed.

End Thresholds.

(** X19.  On a Sunday that is not a public holiday the minimum rule fires
    exactly when 225 minutes at most are worked after the break: from 225
    minutes and a fraction on, the rounding alone reaches 4 hours. *)
Theorem sunday_floor_threshold
    (dateStr startStr endStr brk : string) (s e : Q) :
  valid_shift dateStr startStr endStr Sunday s e ->
  exists l : Locals,
    locals dateStr startStr endStr brk = Some l /\
    minimumRuleApplied l = (workedMinutes l <=? Fin 225)%num.
Proof.
  intro V. enter_shift V brk.
  rewrite Hworked, Hfloor. cbn [minutesQ JS.le].
  set (w := (p' + m' + po')%Q).
  destruct (Qle_bool_cases 240 (roundQ w)) as [[L ->] | [L ->]];
    destruct (Qle_bool_cases w 225) as [[G ->] | [G ->]];
    cbn [flooredQ]; try reflexivity; exfalso.
  - apply roundQ_below_240 in L. lra.
  - apply roundQ_below_240 in G. lra.
Qed.

Lemma sunday_floor_threshold_witness :
  exists l : Locals,
    locals "2024-01-07" "09:00" "12:46" "0" = Some l /\
    minimumRuleApplied l = false.
Proof.
  assert (V : valid_shift "2024-01-07" "09:00" "12:46" Sunday 540 766)
    by solve_valid.
  destruct (sunday_floor_threshold _ _ _ "0" _ _ V) as (l & HL & _).
  exists l. split; [exact HL | ].
  vm_compute in HL. injection HL as <-. reflexivity.
Defined.

(** X20.  On a Saturday, a Sunday or a public holiday a whole number of
    minutes worked earns the meal allowance exactly when it is more than
    300: rounding the hours to hundredths before comparing them with 5 does
    not move the threshold. *)
Theorem weekend_meal_threshold
    (dateStr startStr endStr brk : string) (c : DayClass) (s e : Q) (n : Z) :
  valid_shift dateStr startStr endStr c s e ->
  c <> Weekday ->
  forall l : Locals,
    locals dateStr startStr endStr brk = Some l ->
    workedMinutes l =n= Fin (inject_Z n) ->
    mealAllowances (result l) = (if (300 <? n)%Z then 1 else 0)%Z.
Proof.
  intros V NW l HL' W.
  destruct (valid_shift_bands _ _ _ brk _ _ _ V)
    as (b & p' & m' & po' & rem & HBrk & Hb0 & HL & HB & _).
  rewrite HL in HL'. injection HL' as <-.
  destruct (body_minutesQ _ _ _ _ _ _ _ _ _ (proj1 V) HB)
    as (_ & Hworked & Hhours & _).
  cbv zeta in Hworked, Hhours. rewrite Hworked in W. cbn [eqn] in W.
  assert (O : (toHours (Fin (p' + m' + po')) >? Fin 5)%num = (300 <? n)%Z).
  { rewrite toHours_Fin. cbn [JS.gt JS.lt].
    destruct (Qle_bool_cases (hoursQ (p' + m' + po')) 5) as [[L ->] | [L ->]];
      cbn [negb]; symmetry.
    - apply Z.ltb_ge. destruct (Z_lt_le_dec 300 n) as [G | G]; [ | exact G].
      apply hoursQ_over_5 in G. rewrite <- (hoursQ_comp _ _ W) in G. lra.
    - apply Z.ltb_lt. apply hoursQ_over_5.
      rewrite <- (hoursQ_comp _ _ W). exact L. }
  destruct V as [C _]. apply dayClass_flags in C.
  unfold body. rewrite HB.
  cbn [result mealAllowances meals pre mid post].
  unfold mealAllowance.
  change (Fin p' + Fin m' + Fin po')%num with (Fin (p' + m' + po')).
  rewrite O.
  destruct c; [congruence | | | ].
  - destruct C as (PH & SU & SA). rewrite PH, SU, SA.
    destruct (300 <? n)%Z; reflexivity.
  - destruct C as (PH & SU). rewrite PH, SU, orb_true_r.
    destruct (300 <? n)%Z; reflexivity.
  - rewrite C.
    destruct (300 <? n)%Z;
      destruct (is_day _ "Saturday" || is_day _ "Sunday")%bool; reflexivity.
Qed.

Lemma weekend_meal_threshold_witness :
  exists l : Locals,
    locals "2024-01-06" "09:00" "14:01" "0" = Some l /\
    mealAllowances (result l) = 1%Z.
Proof.
  assert (V : valid_shift "2024-01-06" "09:00" "14:01" Saturday 540 841)
    by solve_valid.
  assert (NW : Saturday <> Weekday) by discriminate.
  eexists. split; [vm_compute; reflexivity | ].
  match goal with
  | |- mealAllowances (result ?l) = _ =>
      rewrite (weekend_meal_threshold _ _ _ "0" _ _ _ 301 V NW l eq_refl)
  end.
  - reflexivity.
  - vm_compute. reflexivity.
Defined.

Section Monotone.
Local Open Scope Q_scope.

(** The break counted is the number typed, or 0 when it is negative. *)
Lemma parseBreak_value (brk : string) (q b : Q) :
  Str.Number brk = Fin q -> parseBreak brk = Fin b -> b == Qmax 0 q.
Proof.
  unfold parseBreak. intros ->. cbn [JS.or].
  destruct (Qeq_bool q 0) eqn:E; cbn [JS.max lift2];
    intro H; injection H as <-.
  - apply Qeq_bool_eq in E. qcases; lra.
  - reflexivity.
Qed.

(** A longer break leaves less in every band. *)
Lemma cuts_mono_break (p m po b1 b2 : Q) :
  0 <= p -> 0 <= m -> 0 <= po -> 0 <= b1 -> b1 <= b2 ->
  p - cutPre p m b2 <= p - cutPre p m b1 /\
  m - cutMid m b2 <= m - cutMid m b1 /\
  po - cutPost p m po b2 <= po - cutPost p m po b1.
Proof.
  intros P M PO B1 B12. unfold cutPost, cutPre, cutMid.
  repeat split; qcases; lra.
Qed.

(** More time in a band never lowers the paid minutes. *)
Lemma minutesQ_mono (c : DayClass) (p1 m1 po1 p2 m2 po2 : Q) :
  p1 <= p2 -> m1 <= m2 -> po1 <= po2 ->
  paidQ (minutesQ c p1 m1 po1) <= paidQ (minutesQ c p2 m2 po2).
Proof.
  intros P M PO.
  assert (Rp := roundQ_mono p1 p2 P). assert (Rm := roundQ_mono m1 m2 M).
  assert (Rpo := roundQ_mono po1 po2 PO).
  destruct c; cbn -[Qplus Qminus Qmin Qmax roundQ Qle_bool]; unfold totalQ.
  - assert (X : Qmax 0 (m1 - Qmin m1 420) <= Qmax 0 (m2 - Qmin m2 420))
      by (qcases; lra).
    apply roundQ_mono in X.
    set (x1 := roundQ (Qmax 0 (m1 - Qmin m1 420))) in *.
    set (x2 := roundQ (Qmax 0 (m2 - Qmin m2 420))) in *.
    clearbody x1 x2.
    assert (O : Qmin m1 420 <= Qmin m2 420) by (qcases; lra).
    set (o1 := Qmin m1 420) in *. set (o2 := Qmin m2 420) in *.
    clearbody o1 o2. qcases; lra.
  - qcases; lra.
  - assert (R : roundQ (p1 + m1 + po1) <= roundQ (p2 + m2 + po2))
      by (apply roundQ_mono; lra).
    destruct (Qle_bool_cases 240 (roundQ (p1 + m1 + po1))) as [[L1 ->] | [L1 ->]];
      destruct (Qle_bool_cases 240 (roundQ (p2 + m2 + po2)))
        as [[L2 ->] | [L2 ->]]; cbn -[Qplus roundQ]; lra.
  - assert (R : roundQ (p1 + po1) <= roundQ (p2 + po2))
      by (apply roundQ_mono; lra).
    destruct (Qle_bool_cases 240 (roundQ m1 + roundQ (p1 + po1)))
      as [[L1 ->] | [L1 ->]];
      destruct (Qle_bool_cases 240 (roundQ m2 + roundQ (p2 + po2)))
        as [[L2 ->] | [L2 ->]]; cbn -[Qplus roundQ]; lra.
Qed.

End Monotone.

(** X21.  With the date and the times fixed, a longer break never raises
    the pay: the minutes worked, the paid minutes and the paid hours for
    the longer break are at most those for the shorter one. *)
Theorem longer_break_never_pays_more
    (dateStr startStr endStr brk1 brk2 : string) (c : DayClass)
    (s e q1 q2 : Q) :
  valid_shift dateStr startStr endStr c s e ->
  Str.Number brk1 = Fin q1 -> Str.Number brk2 = Fin q2 -> (q1 <= q2)%Q ->
  exists l1 l2 : Locals,
    locals dateStr startStr endStr brk1 = Some l1 /\
    locals dateStr startStr endStr brk2 = Some l2 /\
    (workedMinutes l2 <=? workedMinutes l1)%num = true /\
    (paidMinutes l2 <=? paidMinutes l1)%num = true /\
    (paidHours (result l2) <=? paidHours (result l1))%num = true.
Proof.
  intros V N1 N2 Q12.
  pose proof (locals_valid _ _ _ brk1 _ _ _ V) as HL1.
  pose proof (locals_valid _ _ _ brk2 _ _ _ V) as HL2.
  pose proof V as (C & _ & _ & Hs & Hse & He).
  destruct (parseBreak_Fin brk1) as [b1 [B1 B1pos]].
  destruct (parseBreak_Fin brk2) as [b2 [B2 B2pos]].
  pose proof (parseBreak_value brk1 q1 b1 N1 B1) as V1.
  pose proof (parseBreak_value brk2 q2 b2 N2 B2) as V2.
  assert (B12 : (b1 <= b2)%Q) by (rewrite V1, V2; qcases; lra).
  destruct (spans_sum s e Hs Hse He) as (p & m & po & Sp & P & M & PO & Sum).
  pose proof (allocateBreak_cuts s e b1 p m po Sp) as A1.
  pose proof (allocateBreak_cuts s e b2 p m po Sp) as A2.
  destruct (cuts_mono_break p m po b1 b2 P M PO B1pos B12) as (Mp & Mm & Mpo).
  rewrite B1 in HL1. rewrite B2 in HL2.
  destruct (body_minutesQ dateStr c s e b1 _ _ _ _ C A1)
    as (_ & W1 & _ & _ & _ & P1 & _).
  destruct (body_minutesQ dateStr c s e b2 _ _ _ _ C A2)
    as (_ & W2 & _ & _ & _ & P2 & _).
  cbv zeta in W1, W2, P1, P2.
  do 2 eexists. split; [exact HL1 | ]. split; [exact HL2 | ].
  cbn [result paidHours]. rewrite W1, W2, P1, P2, !toHours_Fin.
  cbn [JS.le].
  pose proof (minutesQ_mono c _ _ _ _ _ _ Mp Mm Mpo) as PM.
  split; [apply Qle_bool_iff; lra | ].
  split; [apply Qle_bool_iff; exact PM | ].
  apply Qle_bool_iff. apply hoursQ_mono. exact PM.
Qed.

Lemma longer_break_never_pays_more_witness :
  exists l1 l2 : Locals,
    locals "2024-01-03" "06:00" "19:00" "15" = Some l1 /\
    locals "2024-01-03" "06:00" "19:00" "80" = Some l2 /\
    paidMinutes l1 = Fin 765 /\ paidMinutes l2 = Fin 705.
Proof.
  assert (V : valid_shift "2024-01-03" "06:00" "19:00" Weekday 360 1140)
    by solve_valid.
  assert (Q12 : (15 <= 80)%Q) by (unfold Qle; simpl; lia).
  destruct (longer_break_never_pays_more _ _ _ "15" "80" _ _ _ 15%Q 80%Q
              V eq_refl eq_refl Q12)
    as (l1 & l2 & HL1 & HL2 & _).
  exists l1, l2. split; [exact HL1 | ]. split; [exact HL2 | ].
  vm_compute in HL1. injection HL1 as <-.
  vm_compute in HL2. injection HL2 as <-. split; reflexivity.
Defined.

Section MonotoneEnd.
Local Open Scope Q_scope.

(** More time in the bands before the break leaves more in every band
    after it. *)
Lemma cuts_mono_bands (p1 m1 po1 p2 m2 po2 b : Q) :
  0 <= p1 -> 0 <= m1 -> 0 <= po1 -> 0 <= b ->
  p1 <= p2 -> m1 <= m2 -> po1 <= po2 ->
  p1 - cutPre p1 m1 b <= p2 - cutPre p2 m2 b /\
  m1 - cutMid m1 b <= m2 - cutMid m2 b /\
  po1 - cutPost p1 m1 po1 b <= po2 - cutPost p2 m2 po2 b.
Proof.
  intros P M PO B Pp Mm POpo. unfold cutPost, cutPre, cutMid.
  repeat split; qcases; lra.
Qed.

(** A later end leaves more in every band before the break. *)
Lemma spans_mono_end (s e1 e2 p1 m1 po1 p2 m2 po2 : Q) :
  e1 <= e2 ->
  spans (Fin s) (Fin e1) = mkBands (Fin p1) (Fin m1) (Fin po1) (Fin 0) ->
  spans (Fin s) (Fin e2) = mkBands (Fin p2) (Fin m2) (Fin po2) (Fin 0) ->
  p1 <= p2 /\ m1 <= m2 /\ po1 <= po2.
Proof.
  intros E H1 H2. injection H1 as <- <- <-. injection H2 as <- <- <-.
  repeat split; qcases; lra.
Qed.

End MonotoneEnd.

(** X22.  With the date, the start and the break fixed, a later end never
    lowers the pay: the minutes worked, the paid minutes and the paid hours
    of the longer shift are at least those of the shorter one. *)
Theorem later_end_never_pays_less
    (dateStr startStr endStr1 endStr2 brk : string) (c : DayClass)
    (s e1 e2 : Q) :
  valid_shift dateStr startStr endStr1 c s e1 ->
  valid_shift dateStr startStr endStr2 c s e2 ->
  (e1 <= e2)%Q ->
  exists l1 l2 : Locals,
    locals dateStr startStr endStr1 brk = Some l1 /\
    locals dateStr startStr endStr2 brk = Some l2 /\
    (workedMinutes l1 <=? workedMinutes l2)%num = true /\
    (paidMinutes l1 <=? paidMinutes l2)%num = true /\
    (paidHours (result l1) <=? paidHours (result l2))%num = true.
Proof.
  intros V1 V2 E12.
  pose proof (locals_valid _ _ _ brk _ _ _ V1) as HL1.
  pose proof (locals_valid _ _ _ brk _ _ _ V2) as HL2.
  pose proof V1 as (C & _ & _ & Hs & Hse1 & He1).
  pose proof V2 as (_ & _ & _ & _ & Hse2 & He2).
  destruct (parseBreak_Fin brk) as [b [B Bpos]].
  destruct (spans_sum s e1 Hs Hse1 He1)
    as (p1 & m1 & po1 & Sp1 & P1 & M1 & PO1 & _).
  destruct (spans_sum s e2 Hs Hse2 He2)
    as (p2 & m2 & po2 & Sp2 & P2 & M2 & PO2 & _).
  destruct (spans_mono_end s e1 e2 _ _ _ _ _ _ E12 Sp1 Sp2) as (Pp & Mm & POpo).
  pose proof (allocateBreak_cuts s e1 b p1 m1 po1 Sp1) as A1.
  pose proof (allocateBreak_cuts s e2 b p2 m2 po2 Sp2) as A2.
  destruct (cuts_mono_bands p1 m1 po1 p2 m2 po2 b P1 M1 PO1 Bpos Pp Mm POpo)
    as (Mp & Mmid & Mpo).
  rewrite B in HL1, HL2.
  destruct (body_minutesQ dateStr c s e1 b _ _ _ _ C A1)
    as (_ & W1 & _ & _ & _ & Q1 & _).
  destruct (body_minutesQ dateStr c s e2 b _ _ _ _ C A2)
    as (_ & W2 & _ & _ & _ & Q2 & _).
  cbv zeta in W1, W2, Q1, Q2.
  do 2 eexists. split; [exact HL1 | ]. split; [exact HL2 | ].
  cbn [result paidHours]. rewrite W1, W2, Q1, Q2, !toHours_Fin.
  cbn [JS.le].
  pose proof (minutesQ_mono c _ _ _ _ _ _ Mp Mmid Mpo) as PM.
  split; [apply Qle_bool_iff; lra | ].
  split; [apply Qle_bool_iff; exact PM | ].
  apply Qle_bool_iff. apply hoursQ_mono. exact PM.
Qed.

Lemma later_end_never_pays_less_witness :
  exists l1 l2 : Locals,
    locals "2024-01-06" "09:00" "12:00" "30" = Some l1 /\
    locals "2024-01-06" "09:00" "12:10" "30" = Some l2 /\
    paidMinutes l1 = Fin 150 /\ paidMinutes l2 = Fin 165.
Proof.
  assert (V1 : valid_shift "2024-01-06" "09:00" "12:00" Saturday 540 720)
    by solve_valid.
  assert (V2 : valid_shift "2024-01-06" "09:00" "12:10" Saturday 540 730)
    by solve_valid.
  assert (E12 : (720 <= 730)%Q) by (unfold Qle; simpl; lia).
  destruct (later_end_never_pays_less _ _ _ _ "30" _ _ _ _ V1 V2 E12)
    as (l1 & l2 & HL1 & HL2 & _).
  exists l1, l2. split; [exact HL1 | ]. split; [exact HL2 | ].
  vm_compute in HL1. injection HL1 as <-.
  vm_compute in HL2. injection HL2 as <-. split; reflexivity.
Defined.

(** X23.  In every result the meal count is 0, 1 or 2 and never exceeds
    the number of reasons recorded, of which there are two at most; it is 0
    exactly when no reason is recorded.  A weekend or holiday result counts
    one meal at most and records weekend and holiday reasons only; any other
    result records weekday reasons only. *)
Theorem meal_allowances_are_bounded
    (dateStr startStr endStr brk : string) (r : CalculationResult) :
  applyRules dateStr startStr endStr brk = Some r ->
  (0 <= mealAllowances r <= 2)%Z /\
  (mealAllowances r <= Z.of_nat (length (r_mealRules r)))%Z /\
  (length (r_mealRules r) <= 2)%nat /\
  (mealAllowances r = 0%Z <-> r_mealRules r = []) /\
  (if (r_isPublicHoliday r || r_isWeekend r)%bool
   then (mealAllowances r <= 1)%Z /\
        forall x : string, In x (r_mealRules r) ->
                           x = MEAL_WEEKEND \/ x = MEAL_HOLIDAY
   else forall x : string, In x (r_mealRules r) ->
                           x = MEAL_BEFORE_6 \/ x = MEAL_OVERTIME_18).
Proof.
  unfold applyRules, locals.
  destruct (is_empty dateStr || is_empty startStr || is_empty endStr);
    [discriminate | ].
  unfold rules.
  destruct (parseTimeToMinutes endStr <=? parseTimeToMinutes startStr)%num;
    [discriminate | ].
  cbn [option_map]. intro H. injection H as <-.
  cbn [result body mealAllowances r_mealRules r_isPublicHoliday r_isWeekend
       meals mealRules isPH isWeekend].
  unfold mealAllowance.
  generalize (toHours
    (pre (allocateBreak (parseTimeToMinutes startStr)
            (parseTimeToMinutes endStr) (parseBreak brk))
     + mid (allocateBreak (parseTimeToMinutes startStr)
              (parseTimeToMinutes endStr) (parseBreak brk))
     + post (allocateBreak (parseTimeToMinutes startStr)
               (parseTimeToMinutes endStr) (parseBreak brk))) >? Fin 5)%num.
  intro over5.
  match goal with
  | |- context [(?x >? Fin 120)%num] => generalize (x >? Fin 120)%num
  end.
  intro ot120.
  generalize (parseTimeToMinutes startStr <? Fin 360)%num. intro before6.
  generalize (parseTimeToMinutes endStr >? Fin 1080)%num. intro after18.
  destruct (isPublicHoliday dateStr);
    destruct (is_day (getDayOfWeek dateStr) "Saturday"
              || is_day (getDayOfWeek dateStr) "Sunday")%bool;
    destruct over5, ot120, before6, after18; cbn;
    repeat split; try lia; try discriminate; try reflexivity;
    intros; repeat match goal with
                   | H : _ \/ _ |- _ => destruct H
                   | H : False |- _ => destruct H
                   end; subst; auto.
Qed.

Lemma meal_allowances_are_bounded_witness :
  exists r : CalculationResult,
    applyRules "2024-01-03" "05:00" "19:00" "30" = Some r /\
    mealAllowances r = 2%Z /\ length (r_mealRules r) = 2%nat.
Proof.
  eexists. split; [vm_compute; reflexivity | ].
  match goal with
  | |- mealAllowances ?r = _ /\ _ =>
      destruct (meal_allowances_are_bounded
                  "2024-01-03" "05:00" "19:00" "30" r eq_refl)
        as (_ & _ & _ & _ & _)
  end.
  split; reflexivity.
Defined.

Section Explanation.

(** The flags of a call agree: Sunday is part of the weekend. *)
Lemma locals_flags (dateStr startStr endStr brk : string) (l : Locals) :
  locals dateStr startStr endStr brk = Some l ->
  isSunday l = is_day (dayOfWeek l) "Sunday" /\
  isWeekend l = (is_day (dayOfWeek l) "Saturday"
                 || is_day (dayOfWeek l) "Sunday")%bool.
Proof.
  unfold locals.
  destruct (is_empty dateStr || is_empty startStr || is_empty endStr);
    [discriminate | ].
  unfold rules.
  destruct (parseTimeToMinutes endStr <=? parseTimeToMinutes startStr)%num;
    [discriminate | ].
  intro H. injection H as <-. split; reflexivity.
Qed.

(** [Math.round(h * 100) / 100] changes nothing on the hours [toHours]
    gives. *)
Lemma fmt_keeps_hours (x : Q) :
  (JS.round (toHours (Fin x) * Fin 100) / Fin 100)%num =n= toHours (Fin x).
Proof.
  rewrite toHours_Fin. cbn [JS.mul JS.round JS.div lift1 lift2 eqn].
  change (Qeq_bool 100 0) with false. cbn [eqn]. unfold hoursQ.
  set (F := Qfloor (x / 60 * 100 + (1 # 2))).
  assert (E : (inject_Z F / 100 * 100 + (1 # 2) == inject_Z F + (1 # 2))%Q)
    by field.
  rewrite E, Qfloor_half. reflexivity.
Qed.

(** With flags that agree, one breakdown block is pushed. *)
Lemma explanationLines_blocks (l : Locals) (startStr endStr : string) :
  isSunday l = is_day (dayOfWeek l) "Sunday" ->
  isWeekend l = (is_day (dayOfWeek l) "Saturday"
                 || is_day (dayOfWeek l) "Sunday")%bool ->
  explanationLines l startStr endStr =
    ([classificationLine l; shiftLine l startStr endStr]
     ++ (if minimumRuleApplied l then [minimumNotice] else [])
     ++ [totalLine l]
     ++ breakdownBlock (classOf (dayOfWeek l) (isPH l)) l
     ++ [mealsLine l]
     ++ map mealBullet (mealRules l)
     ++ [clausesLine])%list.
Proof.
  intros SU WE. unfold explanationLines, classOf. rewrite SU, WE.
  destruct (isPH l), (is_day (dayOfWeek l) "Sunday"),
    (is_day (dayOfWeek l) "Saturday"), (minimumRuleApplied l);
    cbn [negb andb orb breakdownBlock];
    rewrite <- ?app_assoc; reflexivity.
Qed.

End Explanation.

Ltac in_lines :=
  repeat match goal with
  | H : In _ (_ ++ _) |- _ => apply in_app_or in H; destruct H as [H | H]
  | H : In _ (_ :: _) |- _ => destruct H as [H | H]
  | H : In _ [] |- _ => destruct H
  | H : In _ (if ?b then _ else _) |- _ => destruct b
  | H : In _ (map _ _) |- _ =>
      apply in_map_iff in H; destruct H as (? & H & ?)
  end.

(** X24.  The explanation of every call that gives a result is, in this
    order: the classification line, the shift line, the minimum-rule notice
    when and only when the rule fired, the total line, the breakdown of one
    classification exactly (working day, Saturday, Sunday or public
    holiday, the holiday flag winning over the day name), the meal count,
    one bullet per meal reason in their order, and the clause list. *)
Theorem explanation_has_one_breakdown
    (dateStr startStr endStr brk : string) (l : Locals) :
  locals dateStr startStr endStr brk = Some l ->
  explain dateStr startStr endStr brk =
    Some ([classificationLine l; shiftLine l startStr endStr]
          ++ (if minimumRuleApplied l then [minimumNotice] else [])
          ++ [totalLine l]
          ++ breakdownBlock (classOf (dayOfWeek l) (isPH l)) l
          ++ [mealsLine l]
          ++ map mealBullet (mealRules l)
          ++ [clausesLine])%list.
Proof.
  intro H. unfold explain. rewrite H. cbn [option_map]. f_equal.
  destruct (locals_flags _ _ _ _ _ H) as [SU WE].
  apply explanationLines_blocks; assumption.
Qed.

Lemma explanation_has_one_breakdown_witness :
  exists l : Locals,
    locals "2024-01-07" "09:00" "12:00" "0" = Some l /\
    option_map (@length Line) (explain "2024-01-07" "09:00" "12:00" "0")
      = Some 7%nat.
Proof.
  eexists. split; [vm_compute; reflexivity | ].
  rewrite (explanation_has_one_breakdown
             "2024-01-07" "09:00" "12:00" "0" _ eq_refl).
  reflexivity.
Defined.

(** X25.  When the date is not empty, both times parse and the end is
    after the start, every number printed in the explanation is the break
    counted or the value of one of the six hour fields of the result: the
    rounding in fmt changes none of them. *)
Theorem explanation_numbers_are_the_results
    (dateStr startStr endStr brk : string) (s e : Q) :
  dateStr <> EmptyString ->
  parseTimeToMinutes startStr = Fin s -> parseTimeToMinutes endStr = Fin e ->
  (s < e)%Q ->
  exists (l : Locals) (lines : list Line),
    locals dateStr startStr endStr brk = Some l /\
    explain dateStr startStr endStr brk = Some lines /\
    forall (line : Line) (v : num),
      In line lines -> In (Num v) line ->
      let r := result l in
      v = breakMinutes l \/ v =n= paidHours r \/ v =n= ordinaryHours r \/
      v =n= overtime15 r \/ v =n= overtime20 r \/
      v =n= publicHoliday15 r \/ v =n= publicHoliday25 r.
Proof.
  intros NE S E SE.
  destruct (parseBreak_Fin brk) as [b [B Bpos]].
  destruct (bands_Fin s e b) as (p' & m' & po' & rem & HB).
  destruct (body_minutesQ_flags (getDayOfWeek dateStr)
              (isPublicHoliday dateStr) s e b p' m' po' rem HB)
    as (_ & _ & _ & Ho & Hf & Hp & _).
  cbv zeta in Ho, Hf, Hp.
  assert (DE : is_empty dateStr = false)
    by (destruct dateStr; [congruence | reflexivity]).
  assert (HL : locals dateStr startStr endStr brk =
               Some (body (getDayOfWeek dateStr) (isPublicHoliday dateStr)
                          (Fin s) (Fin e) (Fin b))).
  { unfold locals.
    rewrite DE, (parseTime_nonempty _ _ S), (parseTime_nonempty _ _ E), S, E, B.
    cbn [orb]. unfold rules. cbn [JS.le].
    destruct (Qle_bool_cases e s) as [[H _] | [_ ->]]; [lra | reflexivity]. }
  do 2 eexists. split; [exact HL | ].
  split.
  { unfold explain. rewrite HL. cbn [option_map].
    rewrite explanationLines_blocks by reflexivity. reflexivity. }
  set (l := body _ _ _ _ _) in *.
  intros line v IL IV. cbv zeta.
  cbn [result paidHours ordinaryHours overtime15 overtime20
       publicHoliday15 publicHoliday25].
  assert (F : forall x : Q,
             In (Num v) (fmt (toHours (Fin x))) -> v =n= toHours (Fin x)).
  { intros x [I | [I | []]]; [ | discriminate].
    injection I as <-. apply fmt_keeps_hours. }
  unfold breakdownBlock, weekdayBlock, saturdayBlock, sundayBlock,
    holidayBlock, totalLine, classificationLine, shiftLine, minimumNotice,
    mealsLine, clausesLine in IL.
  rewrite Ho, Hf, Hp in IL.
  cbn [ot15Minutes ot20Minutes ph15Minutes ph25Minutes] in IL.
  rewrite Ho, Hf, Hp.
  cbn [ot15Minutes ot20Minutes ph15Minutes ph25Minutes].
  destruct (classOf (dayOfWeek l) (isPH l));
    in_lines; subst; try (unfold mealBullet in IV);
    in_lines; try discriminate;
    try (injection IV as <-; left; reflexivity);
    match goal with
    | H : In (Num v) (fmt _) |- _ => apply F in H
    end; tauto.
Qed.

Lemma explanation_numbers_are_the_results_witness :
  exists lines : list Line,
    explain "2024-01-03" "08:00" "17:00" "30" = Some lines /\
    length lines = 8%nat.
Proof.
  assert (NE : "2024-01-03" <> EmptyString) by discriminate.
  assert (SE : (480 < 1020)%Q) by (unfold Qlt; simpl; lia).
  destruct (explanation_numbers_are_the_results
              "2024-01-03" "08:00" "17:00" "30" 480 1020
              NE eq_refl eq_refl SE) as (l & lines & _ & HE & _).
  exists lines. split; [exact HE | ].
  vm_compute in HE. injection HE as <-. reflexivity.
Defined.

Section Form.

Lemma run_app (evs1 evs2 : list Event) :
  run (evs1 ++ evs2) = fold_left step evs2 (run evs1).
Proof. unfold run. apply fold_left_app. Qed.

(** Changing inputs leaves the result alone. *)
Lemma edits_keep_result (evs : list Event) (st : AppState) :
  (forall ev, In ev evs -> ev <> HandleCalculate) ->
  a_result (fold_left step evs st) = a_result st.
Proof.
  revert st. induction evs as [ | ev evs IH]; intros st H; [reflexivity | ].
  cbn [fold_left]. rewrite IH; [ | intros x I; apply H; right; exact I].
  assert (N : ev <> HandleCalculate) by (apply H; left; reflexivity).
  destruct ev; try reflexivity. congruence.
Qed.

(** Every result in the state was computed by [applyRules]. *)
Lemma result_is_computed (evs : list Event) (r : CalculationResult)
    (x : list Line) :
  a_result (run evs) = Some (r, x) ->
  exists d s e b : string,
    applyRules d s e b = Some r /\ explain d s e b = Some x.
Proof.
  induction evs as [ | ev evs IH] using rev_ind; [discriminate | ].
  rewrite run_app. cbn [fold_left].
  destruct ev; cbn [step a_result]; try exact IH.
  intro H. exists (a_date (run evs)), (a_start (run evs)),
    (a_end (run evs)), (a_breakMinutes (run evs)).
  unfold applyRulesExplained in H. unfold applyRules, explain.
  destruct (locals _ _ _ _) as [l | ]; [ | discriminate].
  cbn [option_map] in *. injection H as <- <-. split; reflexivity.
Qed.

(** In a result the buckets of the other kind of day are zero. *)
Lemma other_buckets_are_zero (d s e b : string) (r : CalculationResult) :
  applyRules d s e b = Some r ->
  if r_isPublicHoliday r
  then ordinaryHours r =n= Fin 0 /\ overtime15 r =n= Fin 0 /\
       overtime20 r =n= Fin 0
  else publicHoliday15 r =n= Fin 0 /\ publicHoliday25 r =n= Fin 0.
Proof.
  unfold applyRules, locals.
  destruct (is_empty d || is_empty s || is_empty e); [discriminate | ].
  unfold rules.
  destruct (parseTimeToMinutes e <=? parseTimeToMinutes s)%num;
    [discriminate | ].
  cbn [option_map]. intro H. injection H as <-.
  unfold body.
  cbn [result r_isPublicHoliday isPH publicHoliday15 publicHoliday25
       ordinaryHours overtime15 overtime20 final raw].
  destruct (isPublicHoliday d).
  - unfold minimumRule, roundBuckets, classify. cbn [orb andb].
    match goal with
    | |- context [(?a <? Fin 240)%num] => destruct (a <? Fin 240)%num
    end;
      cbn [fst snd ot15Minutes ot20Minutes ordinaryMinutes];
      repeat split; vm_compute; reflexivity.
  - unfold minimumRule, roundBuckets. cbn [orb].
    destruct (is_day (getDayOfWeek d) "Sunday");
      destruct (is_day (getDayOfWeek d) "Saturday" || true)%bool;
      destruct (is_day (getDayOfWeek d) "Saturday" || false)%bool;
      cbn [andb paidBeforeFloor];
      repeat match goal with
      | |- context [(?a <? Fin 240)%num] => destruct (a <? Fin 240)%num
      end;
      cbn [fst snd ph15Minutes ph25Minutes]; split; vm_compute; reflexivity.
Qed.

End Form.

(** X26.  The form shows no result until the button is pressed.  After
    that the result in the state is the one applyRules computed from the
    inputs as they were at the last press: changing an input afterwards
    changes the input only, and the result shown goes stale until the next
    press. *)
Theorem shown_result_is_the_last_calculation :
  (forall evs : list Event,
     (forall ev, In ev evs -> ev <> HandleCalculate) ->
     a_result (run evs) = None /\ view (run evs) = [])
  /\
  (forall before after : list Event,
     (forall ev, In ev after -> ev <> HandleCalculate) ->
     let st := run before in
     a_result (run (before ++ HandleCalculate :: after))
       = applyRulesExplained (a_date st) (a_start st) (a_end st)
                             (a_breakMinutes st))
  /\
  (forall (st : AppState) (v : string),
     step st (SetDate v)
       = mkApp v (a_start st) (a_end st) (a_breakMinutes st) (a_result st) /\
     a_result (step st (SetStart v)) = a_result st /\
     a_result (step st (SetEnd v)) = a_result st /\
     a_result (step st (SetBreakMinutes v)) = a_result st).
Proof.
  split; [ | split].
  - intros evs H.
    assert (R : a_result (run evs) = None)
      by (unfold run; rewrite (edits_keep_result evs _ H); reflexivity).
    split; [exact R | ]. unfold view. rewrite R. reflexivity.
  - intros before after H. cbv zeta.
    rewrite run_app. cbn [fold_left].
    rewrite (edits_keep_result after _ H). reflexivity.
  - intros st v. repeat split; reflexivity.
Qed.

Lemma shown_result_is_the_last_calculation_witness :
  option_map fst
    (a_result (run [SetDate "2024-01-07"; SetStart "09:00"; SetEnd "12:00";
                    HandleCalculate; SetEnd "18:00"; SetBreakMinutes "30"]))
  = applyRules "2024-01-07" "09:00" "12:00" "0".
Proof.
  assert (A : forall ev,
             In ev [SetEnd "18:00"; SetBreakMinutes "30"] ->
             ev <> HandleCalculate)
    by (intros ev [<- | [<- | []]]; discriminate).
  pose proof (proj1 (proj2 shown_result_is_the_last_calculation)
                [SetDate "2024-01-07"; SetStart "09:00"; SetEnd "12:00"]
                [SetEnd "18:00"; SetBreakMinutes "30"] A) as H.
  cbv zeta in H. cbn [app] in H. rewrite H. vm_compute. reflexivity.
Defined.

(** X27.  Whatever the user did, the results panel hides no pay: a bucket
    that has no row in the panel is zero.  The panel of a holiday result
    leaves out the ordinary and overtime rows, and these hours are 0; any
    other panel leaves out the two holiday rows, and these hours are 0. *)
Theorem panel_hides_no_pay (evs : list Event) (r : CalculationResult)
    (x : list Line) :
  a_result (run evs) = Some (r, x) ->
  let shown := view (run evs) in
  In (HoursRow "Paid Hours: " (paidHours r)) shown /\
  (In (HoursRow "Ordinary Hours: " (ordinaryHours r)) shown
   \/ ordinaryHours r =n= Fin 0) /\
  (In (HoursRow "OT 1.5×: " (overtime15 r)) shown
   \/ overtime15 r =n= Fin 0) /\
  (In (HoursRow "OT 2.0×: " (overtime20 r)) shown
   \/ overtime20 r =n= Fin 0) /\
  (In (HoursRow "PH 1.5× Hours: " (publicHoliday15 r)) shown
   \/ publicHoliday15 r =n= Fin 0) /\
  (In (HoursRow "PH 2.5× Hours: " (publicHoliday25 r)) shown
   \/ publicHoliday25 r =n= Fin 0).
Proof.
  intro H. cbv zeta. unfold view. rewrite H.
  destruct (result_is_computed evs r x H) as (d & s & e & b & A & _).
  pose proof (other_buckets_are_zero d s e b r A) as Z.
  unfold panel.
  destruct (r_isPublicHoliday r); cbn [negb app In];
    destruct (r_minimumRuleApplied r); cbn [app In]; intuition auto.
Qed.

Lemma panel_hides_no_pay_witness :
  exists (r : CalculationResult) (x : list Line),
    a_result (run [SetDate "2024-01-01"; SetStart "06:00"; SetEnd "22:00";
                   SetBreakMinutes "60"; HandleCalculate]) = Some (r, x) /\
    ordinaryHours r =n= Fin 0.
Proof.
  do 2 eexists. split; [vm_compute; reflexivity | ].
  match goal with
  | |- ordinaryHours ?r =n= _ =>
      destruct (panel_hides_no_pay
                  [SetDate "2024-01-01"; SetStart "06:00"; SetEnd "22:00";
                   SetBreakMinutes "60"; HandleCalculate] r _ eq_refl)
        as (_ & [I | Z] & _)
  end.
  - vm_compute. reflexivity.
  - exact Z.
Defined.

(** X28.  Pressing the button while the date, the start or the end is
    empty, or while the end is not after the start, removes the results
    panel, whatever was shown before. *)
Theorem invalid_press_clears_the_panel (st : AppState) :
  a_date st = EmptyString \/ a_start st = EmptyString \/
  a_end st = EmptyString \/
  (parseTimeToMinutes (a_end st) <=? parseTimeToMinutes (a_start st))%num
    = true ->
  a_result (step st HandleCalculate) = None /\
  view (step st HandleCalculate) = [].
Proof.
  intro H.
  assert (L : locals (a_date st) (a_start st) (a_end st) (a_breakMinutes st)
              = None).
  { unfold locals. destruct H as [-> | [-> | [-> | H]]]; cbn [is_empty orb].
    - reflexivity.
    - rewrite orb_true_r. reflexivity.
    - rewrite orb_true_r. reflexivity.
    - destruct (is_empty (a_date st) || is_empty (a_start st)
                || is_empty (a_end st)); [reflexivity | ].
      unfold rules. rewrite H. reflexivity. }
  unfold view. cbn [step a_result]. unfold applyRulesExplained. rewrite L.
  split; reflexivity.
Qed.

Lemma invalid_press_clears_the_panel_witness :
  view (run [SetDate "2024-01-07"; SetStart "09:00"; SetEnd "12:00";
             HandleCalculate; SetEnd "08:00"; HandleCalculate]) = [].
Proof.
  change (run [SetDate "2024-01-07"; SetStart "09:00"; SetEnd "12:00";
               HandleCalculate; SetEnd "08:00"; HandleCalculate])
    with (step (run [SetDate "2024-01-07"; SetStart "09:00"; SetEnd "12:00";
                     HandleCalculate; SetEnd "08:00"]) HandleCalculate).
  apply (invalid_press_clears_the_panel
           (run [SetDate "2024-01-07"; SetStart "09:00"; SetEnd "12:00";
                 HandleCalculate; SetEnd "08:00"])).
  right. right. right. reflexivity.
Defined.

Import Endpoint.

Section EndpointFacts.

(** The answers and effects of [handler], case by case. *)
Lemma handler_table (apiKey : option string) (g : Gemini)
    (bodyText : Thrown + jsval) :
  handler apiKey g bodyText =
    let missing :=
      (mkResponse 500 (JsonError (JStr "API Key missing")),
       [ConsoleError "Missing GEMINI_API_KEY in server env"]) in
    let caught (e : Thrown) :=
      mkResponse 500 (JsonError (jor (message e) (JStr "Unknown error"))) in
    match apiKey with
    | None => missing
    | Some key =>
        if is_empty key then missing
        else
          match getGenerativeModel g key with
          | Some e =>
              (caught e, [NewClient key; ConsoleError "Gemini API Error:"])
          | None =>
              match bodyText with
              | inl e =>
                  (caught e, [NewClient key; ConsoleError "Gemini API Error:"])
              | inr text =>
                  if truthy text then
                    match generateContent g text with
                    | inl e =>
                        (caught e,
                         [NewClient key; GenerateContent text;
                          ConsoleError "Gemini API Error:"])
                    | inr s =>
                        (mkResponse 200
                           (JsonReview
                              (if is_empty s
                               then "No response text received" else s)),
                         [NewClient key; GenerateContent text])
                    end
                  else
                    (mkResponse 400 (JsonError (JStr "Missing text field")),
                     [NewClient key])
              end
          end
    end.
Proof.
  unfold handler, tryBlock.
  destruct apiKey as [key | ]; [ | reflexivity].
  destruct (is_empty key); [reflexivity | ].
  destruct (getGenerativeModel g key); [reflexivity | ].
  destruct bodyText as [e | text]; [reflexivity | ].
  cbn [bind effect attempt ret app].
  destruct (truthy text); [ | reflexivity].
  cbn [negb bind effect attempt ret app].
  destruct (generateContent g text); reflexivity.
Qed.

End EndpointFacts.

Ltac handler_cases apiKey g bodyText :=
  rewrite !handler_table;
  let key := fresh "key" in let e := fresh "e" in
  let text := fresh "text" in let s := fresh "s" in
  destruct apiKey as [key | ];
    [destruct (is_empty key) eqn:?;
       [ | destruct (getGenerativeModel g key) as [e | ] eqn:?;
           [ | destruct bodyText as [e | text];
               [ | destruct (truthy text) eqn:?;
                   [destruct (generateContent g text) as [e | s] eqn:? | ]]]]
    | ];
  cbn [negb fst snd status json In].

Ltac handler_crush :=
  intros;
  repeat match goal with
         | H : _ /\ _ |- _ => destruct H
         | H : exists _, _ |- _ => destruct H
         | H : _ \/ _ |- _ => destruct H
         | H : False |- _ => destruct H
         end;
  try discriminate; try congruence;
  repeat match goal with
         | H : GenerateContent _ = GenerateContent _ |- _ => injection H as <-
         | H : JsonError _ = JsonError _ |- _ => injection H as <-
         end;
  try (repeat esplit; (eassumption || reflexivity)); auto.

(** X29.  The handler answers 200, 400 or 500.  Without a key it answers
    500 "API Key missing" and calls nothing.  It answers 200 exactly when
    the key is set, the client is built, the text of the request is truthy
    and the generation returns, and the review it sends is then never
    empty.  It answers 400 exactly when the key is set, the client is built
    and the text can be read but is falsy. *)
Theorem handler_status (apiKey : option string) (g : Gemini)
    (bodyText : Thrown + jsval) :
  let response := fst (handler apiKey g bodyText) in
  let keySet :=
    match apiKey with
    | Some key => negb (is_empty key)
    | None => false
    end in
  let built :=
    match apiKey with
    | Some key =>
        match getGenerativeModel g key with
        | Some _ => false
        | None => true
        end
    | None => false
    end in
  (status response = 200 \/ status response = 400 \/ status response = 500)%Z
  /\
  (keySet = false ->
     handler apiKey g bodyText =
       (mkResponse 500 (JsonError (JStr "API Key missing")),
        [ConsoleError "Missing GEMINI_API_KEY in server env"]))
  /\
  (status response = 200%Z <->
     keySet = true /\ built = true /\
     exists (text : jsval) (s : string),
       bodyText = inr text /\ truthy text = true /\
       generateContent g text = inr s)
  /\
  (status response = 200%Z ->
     exists review : string,
       json response = JsonReview review /\ review <> EmptyString)
  /\
  (status response = 400%Z <->
     keySet = true /\ built = true /\
     exists text : jsval, bodyText = inr text /\ truthy text = false).
Proof.
  cbv zeta. split; [ | split; [ | split; [ | split]]].
  - handler_cases apiKey g bodyText; auto.
  - handler_cases apiKey g bodyText; handler_crush.
  - handler_cases apiKey g bodyText; split; handler_crush.
  - handler_cases apiKey g bodyText; try (intro; discriminate).
    intros _. destruct (is_empty s) eqn:E; eexists;
      (split; [reflexivity | ]); [discriminate | intros ->; discriminate].
  - handler_cases apiKey g bodyText; split; handler_crush.
Qed.

Lemma handler_status_witness :
  handler (Some EmptyString)
          (mkGemini (fun _ => None) (fun _ => inr "fine"))
          (inr (JStr "review this"))
  = (mkResponse 500 (JsonError (JStr "API Key missing")),
     [ConsoleError "Missing GEMINI_API_KEY in server env"]).
Proof.
  apply (proj1 (proj2 (handler_status (Some EmptyString)
           (mkGemini (fun _ => None) (fun _ => inr "fine"))
           (inr (JStr "review this"))))).
  reflexivity.
Defined.

(** X30.  The handler asks the model for content once at most, only after
    the client was built with the key of the environment, and only with the
    truthy text of the request.  Every error it sends carries a truthy
    value, and an answer other than 200 never carries a review. *)
Theorem handler_calls (apiKey : option string) (g : Gemini)
    (bodyText : Thrown + jsval) :
  let response := fst (handler apiKey g bodyText) in
  let effects := snd (handler apiKey g bodyText) in
  (forall v : jsval,
     In (GenerateContent v) effects ->
     bodyText = inr v /\ truthy v = true /\
     exists key : string,
       apiKey = Some key /\ is_empty key = false /\
       getGenerativeModel g key = None /\
       effects = NewClient key :: GenerateContent v
                   :: match generateContent g v with
                      | inl _ => [ConsoleError "Gemini API Error:"]
                      | inr _ => []
                      end)
  /\
  (forall e : jsval, json response = JsonError e -> truthy e = true)
  /\
  (forall s : string,
     json response = JsonReview s -> status response = 200%Z).
Proof.
  cbv zeta.
  assert (J : forall e : Thrown,
             truthy (jor (message e) (JStr "Unknown error")) = true).
  { intro e. unfold jor.
    destruct (truthy (message e)) eqn:T; [exact T | reflexivity]. }
  split; [ | split].
  - handler_cases apiKey g bodyText; intros v I; handler_crush.
    + match goal with G : generateContent _ _ = _ |- _ => rewrite G end.
      repeat esplit; (eassumption || reflexivity).
    + match goal with G : generateContent _ _ = _ |- _ => rewrite G end.
      repeat esplit; (eassumption || reflexivity).
  - handler_cases apiKey g bodyText; intros x H; handler_crush.
  - handler_cases apiKey g bodyText; handler_crush.
Qed.

Lemma handler_calls_witness :
  snd (handler (Some "k")
               (mkGemini (fun _ => None)
                         (fun _ => inl (mkThrown JUndefined)))
               (inr (JStr "review this")))
  = [NewClient "k"; GenerateContent (JStr "review this");
     ConsoleError "Gemini API Error:"].
Proof.
  destruct (proj1 (handler_calls (Some "k")
              (mkGemini (fun _ => None) (fun _ => inl (mkThrown JUndefined)))
              (inr (JStr "review this")))
            (JStr "review this"))
    as (_ & _ & key & _ & _ & _ & E).
  - right. left. reflexivity.
  - reflexivity.
Defined.
